(** * dbt-glue: the Glue session connection and its remote SQL helper

    A shallow embedding of
      - [dbt/adapters/glue/gluedbapi/connection.py]: [GlueConnection]
        (session handshake, state cache, cancel, close_session) and the
        [SQLPROXY] program ([SqlWrapper2.execute]) it installs remotely;
      - [dbt/adapters/glue/impl.py]: the relation lookups, the catalog
        rows and the schema methods of [GlueAdapter].

    The boto3 Glue client, [uuid.uuid4], the [waiter.wait] generator and
    [GlueStatement.execute] are the environment: a state machine [Glue R]
    whose replies are arbitrary.  Every method of the connection runs in
    a small monad that threads the connection object and the environment
    and records each interaction with the environment in a trace, so that
    "issues no call", "creates no session" and "reads the state n times"
    are statements about traces.  The poll loop of [_start_session] and
    the recursion of [SqlWrapper2.execute] take a budget; lemmas show
    which budget is enough and that more changes nothing. *)

From Stdlib Require Import String Ascii List ZArith QArith Bool Arith Lia.
Import ListNotations.
Local Close Scope Q_scope.
Local Open Scope string_scope.
Local Open Scope list_scope.

Set Implicit Arguments.

(** ** Python values shared by both modules *)

(** Exceptions that can reach the code under study.  [ClientError] is
    botocore's "the service answered with an error"; [BotoCoreError] stands
    for every other failure of a client call (transport, credentials,
    parameter validation), which is not a subclass of [ClientError]. *)
Inductive exn : Type :=
| ClientError
| BotoCoreError
| FailedToConnectException
| TimeoutError
| TypeError
| ValueError
| IndexError
| StatementException.

Definition exn_eqb (a b : exn) : bool :=
  match a, b with
  | ClientError, ClientError
  | BotoCoreError, BotoCoreError
  | FailedToConnectException, FailedToConnectException
  | TimeoutError, TimeoutError
  | TypeError, TypeError
  | ValueError, ValueError
  | IndexError, IndexError
  | StatementException, StatementException => true
  | _, _ => false
  end.

(** Outcome of running a piece of Python: a value, a raised exception, or
    the model's loop budget ran out before the code finished. *)
Inductive res (A : Type) : Type :=
| Ok (a : A)
| Raise (e : exn)
| OutOfFuel.
Arguments Raise {A} e.
Arguments OutOfFuel {A}.

(** Truthiness of an optional string: [None] and the empty string are
    falsy. *)
Definition truthy (s : option string) : bool :=
  match s with
  | Some EmptyString => false
  | Some _ => true
  | None => false
  end.

(** [x == y] on optional strings ([None == "..."] is [False]). *)
Definition opt_str_eqb (a b : option string) : bool :=
  match a, b with
  | Some x, Some y => String.eqb x y
  | None, None => true
  | _, _ => false
  end.

(** [x in l] for a list of strings. *)
Definition py_in (x : option string) (l : list string) : bool :=
  existsb (fun y => opt_str_eqb x (Some y)) l.

(** ** connection.py *)

Module GlueSessionState.
Definition READY := "READY".
Definition FAILED := "FAILED".
Definition PROVISIONING := "PROVISIONING".
Definition CLOSED := "CLOSED".
End GlueSessionState.
Import GlueSessionState.

Module Credentials.
(** The fields of [GlueCredentials] that connection.py reads or writes. *)
Record t : Type := mk {
  session_id : option string;
  extra_jars : option string;
  workers : Z;
  worker_type : string;
  role_arn : string;
  database : string;
  region : string;
  session_provisionning_timeout_in_seconds : Z
}.

Definition set_session_id (c : t) (sid : option string) : t :=
  mk sid (extra_jars c) (workers c) (worker_type c) (role_arn c)
     (database c) (region c) (session_provisionning_timeout_in_seconds c).
End Credentials.

(** The ["Session"] entry of a service response, as far as the connection
    looks into it: [.get("Id")] and [.get("Status")]. *)
Record SessionDict : Type := {
  Id : option string;
  Status : option string
}.

(** A response dict of [create_session] / [get_session], and also the
    literal [{"Session": {"Id": ...}}] that [connect] builds. *)
Record Response : Type := {
  Session : option SessionDict
}.

(** Keyword arguments of [client.create_session]. *)
Record CreateSessionRequest : Type := {
  req_Id : string;
  req_Role : string;
  req_DefaultArguments : list (string * string);
  req_Command : list (string * string);
  req_NumberOfWorkers : Z;
  req_WorkerType : string
}.

(** An element of [response["Statements"]]. *)
Record Statement : Type := {
  stmt_Id : string;
  stmt_State : string
}.

(** Every interaction with the environment, with its arguments and reply. *)
Inductive event : Type :=
| EvCreateSession (req : CreateSessionRequest) (reply : exn + Response)
| EvGetSession (sid : option string) (reply : exn + Response)
| EvDeleteSession (sid : option string) (reply : exn + unit)
| EvGetStatements (sid : option string) (reply : exn + list Statement)
| EvCancelStatement (sid : option string) (stmt : string) (reply : exn + unit)
| EvStatement (sid : option string) (code : string) (reply : exn + unit)
| EvUuid (u : string)
| EvWait (attempt : nat) (elapsed : Q).

(** The environment as a state machine over [R]: the Glue service behind
    the boto3 client, [GlueStatement(...).execute()], [uuid.uuid4()] and
    the clock.  [wait r k] is the [k]-th element of the generator
    [wait(1)] of the waiter package: the seconds elapsed since the loop
    started.  The generator yields 0.0 at once; before every further
    element it sleeps one second.  Replies are typed as far as the code
    looks into them; building the boto3 client itself is taken to
    succeed. *)
Record Glue (R : Type) : Type := {
  create_session : R -> CreateSessionRequest -> R * (exn + Response);
  get_session : R -> option string -> R * (exn + Response);
  delete_session : R -> option string -> R * (exn + unit);
  get_statements : R -> option string -> R * (exn + list Statement);
  cancel_statement : R -> option string -> string -> R * (exn + unit);
  statement_execute : R -> option string -> string -> R * (exn + unit);
  uuid4 : R -> R * string;
  wait : R -> nat -> R * Q
}.

Record GlueConnection : Type := mkConn {
  credentials : Credentials.t;
  _client : option string;
  _session : option Response;
  _state : option string
}.

(** [GlueConnection.__init__] *)
Definition init (creds : Credentials.t) : GlueConnection :=
  mkConn creds None None None.

(** The [session_id] property. *)
Definition session_id (c : GlueConnection) : option string :=
  match _session c with
  | None => None
  | Some resp =>
      match Session resp with
      | None => None
      | Some s => Id s
      end
  end.

(** *** The monad of connection methods *)

Record Out (R A : Type) : Type := mkOut {
  result : res A;
  conn : GlueConnection;
  remote : R;
  trace : list event
}.

Definition M (R A : Type) : Type := GlueConnection -> R -> Out R A.

Section Monad.
Context {R : Type}.

Definition ret {A} (a : A) : M R A :=
  fun c r => mkOut (Ok a) c r [].

Definition raise {A} (e : exn) : M R A :=
  fun c r => mkOut (Raise e) c r [].

Definition diverge {A} : M R A :=
  fun c r => mkOut OutOfFuel c r [].

Definition bind {A B} (m : M R A) (f : A -> M R B) : M R B :=
  fun c r =>
    match m c r with
    | mkOut (Ok a) c1 r1 t1 =>
        match f a c1 r1 with
        | mkOut b c2 r2 t2 => mkOut b c2 r2 (t1 ++ t2)
        end
    | mkOut (Raise e) c1 r1 t1 => mkOut (Raise e) c1 r1 t1
    | mkOut OutOfFuel c1 r1 t1 => mkOut OutOfFuel c1 r1 t1
    end.

(** [try: m except <handles>: h] *)
Definition try_except {A} (m : M R A) (handles : exn -> bool) (h : M R A)
  : M R A :=
  fun c r =>
    match m c r with
    | mkOut (Raise e) c1 r1 t1 =>
        if handles e then
          match h c1 r1 with
          | mkOut b c2 r2 t2 => mkOut b c2 r2 (t1 ++ t2)
          end
        else mkOut (Raise e) c1 r1 t1
    | o => o
    end.

Definition get_conn : M R GlueConnection :=
  fun c r => mkOut (Ok c) c r [].

Definition put_conn (c' : GlueConnection) : M R unit :=
  fun _ r => mkOut (Ok tt) c' r [].

(** One interaction with the environment: [step] is the environment's
    transition, [ev] builds the trace entry from the reply. *)
Definition perform {A} (step : R -> R * (exn + A))
           (ev : exn + A -> event) : M R A :=
  fun c r =>
    let (r', reply) := step r in
    mkOut (match reply with inl e => Raise e | inr a => Ok a end)
          c r' [ev reply].
End Monad.

Declare Scope glue_scope.
Delimit Scope glue_scope with glue.
Notation "x <- m ;; k" := (bind m (fun x => k))
  (at level 61, m at next level, right associativity) : glue_scope.
Notation "m ;; k" := (bind m (fun _ => k))
  (at level 61, right associativity) : glue_scope.
Local Open Scope glue_scope.

Definition Qgt_bool (a b : Q) : bool := negb (Qle_bool a b).

Section Connection.
Context {R : Type}.
Variable glue : Glue R.
(** The source text of the helper program (the [SQLPROXY] constant). *)
Variable SQLPROXY : string.

Definition set_state (s : option string) : M R unit :=
  c <- get_conn ;;
  put_conn (mkConn (credentials c) (_client c) (_session c) s).

Definition set_session (s : option Response) : M R unit :=
  c <- get_conn ;;
  put_conn (mkConn (credentials c) (_client c) s (_state c)).

Definition set_credentials_session_id (sid : option string) : M R unit :=
  c <- get_conn ;;
  put_conn (mkConn (Credentials.set_session_id (credentials c) sid)
                   (_client c) (_session c) (_state c)).

(** The [client] property: the boto3 client is built on first use. *)
Definition client : M R unit :=
  c <- get_conn ;;
  match _client c with
  | Some _ => ret tt
  | None =>
      put_conn (mkConn (credentials c)
                       (Some (Credentials.region (credentials c)))
                       (_session c) (_state c))
  end.

(** ["literal" + s]: concatenating [None] to a string is a [TypeError]. *)
Definition str_add (prefix : string) (s : option string) : M R string :=
  match s with
  | Some x => ret (String.append prefix x)
  | None => raise TypeError
  end.

(** The [state] property. *)
Definition state : M R (option string) :=
  c <- get_conn ;;
  if py_in (_state c) [FAILED; READY] then ret (_state c)
  else
    try_except
      (client ;;
       c <- get_conn ;;
       response <- perform (fun r => get_session glue r (session_id c))
                           (EvGetSession (session_id c)) ;;
       set_state (match Session response with
                  | Some session => Status session
                  | None => None
                  end))
      (fun _ => true)
      (set_state (Some CLOSED)) ;;
    c <- get_conn ;;
    ret (_state c).

(** [raise C] with a class [C] raises [C()].  dbt's
    [FailedToConnectException] inherits the constructor of its
    [RuntimeException], [__init__(self, msg, node=None)]: called without
    [msg] it raises [TypeError], and that is the exception that leaves
    the [raise] statement.  The other classes raised here are builtins
    whose constructors ask for nothing. *)
Definition instantiate (cls : exn) : exn :=
  match cls with
  | FailedToConnectException => TypeError
  | _ => cls
  end.

Definition raise_class {A} (cls : exn) : M R A :=
  raise (instantiate cls).

(** A call that cannot fail: [uuid.uuid4()], the next element of
    [wait(1)]. *)
Definition ask {A} (step : R -> R * A) (ev : A -> event) : M R A :=
  fun c r =>
    let (r', a) := step r in
    mkOut (Ok a) c r' [ev a].

(** The loop [for elapsed in wait(1): ...] of [_start_session], started
    at the generator's [attempt]-th element.  The Python loop has no
    bound of its own; [fuel] bounds the number of iterations the model
    follows. *)
Fixpoint poll (fuel attempt : nat) : M R (option Response) :=
  match fuel with
  | O => diverge
  | S fuel' =>
      elapsed <- ask (fun r => wait glue r attempt) (EvWait attempt) ;;
      s <- state ;;
      if opt_str_eqb s (Some READY) then
        c <- get_conn ;;
        ret (_session c)
      else
        c <- get_conn ;;
        if Qgt_bool elapsed
             (inject_Z (Credentials.session_provisionning_timeout_in_seconds
                          (credentials c)))
        then raise TimeoutError
        else poll fuel' (S attempt)
  end.

Definition start_session_request (creds : Credentials.t)
           (session_uuidStr : string) : CreateSessionRequest :=
  let args :=
    match Credentials.extra_jars creds with
    | Some jars =>
        [("--enable-glue-datacatalog", "true");
         ("--spark.sql.crossJoin.enabled", "true");
         ("--extra-jars", jars)]
    | None =>
        [("--enable-glue-datacatalog", "true");
         ("--spark.sql.crossJoin.enabled", "true")]
    end in
  {| req_Id := String.append "dbt-glue-" session_uuidStr;
     req_Role := Credentials.role_arn creds;
     req_DefaultArguments := args;
     req_Command := [("Name", "glueetl"); ("PythonVersion", "3")];
     req_NumberOfWorkers := Credentials.workers creds;
     req_WorkerType := Credentials.worker_type creds |}.

Definition is_ClientError (e : exn) : bool := exn_eqb e ClientError.

Definition _start_session (fuel : nat) : M R (option Response) :=
  c <- get_conn ;;
  session_uuidStr <- ask (uuid4 glue) EvUuid ;;
  let req := start_session_request (credentials c) session_uuidStr in
  try_except
    (client ;;
     response <- perform (fun r => create_session glue r req)
                         (EvCreateSession req) ;;
     set_session (Some response))
    is_ClientError
    (set_state (Some FAILED) ;;
     raise_class FailedToConnectException) ;;
  poll fuel 0.

(** [GlueStatement(client=self.client, session_id=self.session_id,
    code=code).execute()] *)
Definition run_statement (code : string) : M R unit :=
  client ;;
  c <- get_conn ;;
  perform (fun r => statement_execute glue r (session_id c) code)
          (EvStatement (session_id c) code).

Definition _init_session : M R unit :=
  c <- get_conn ;;
  _ <- str_add "GlueConnection session_id : " (session_id c) ;;
  run_statement SQLPROXY ;;
  c <- get_conn ;;
  run_statement
    (String.append "spark.sql('use "
       (String.append (Credentials.database (credentials c)) "')")).

Definition connect (fuel : nat) : M R (option string) :=
  c <- get_conn ;;
  (if negb (truthy (Credentials.session_id (credentials c))) then
     _ <- _start_session fuel ;;
     ret tt
   else
     set_session
       (Some {| Session :=
                  Some {| Id := Credentials.session_id (credentials c);
                          Status := None |} |}) ;;
     s <- state ;;
     _ <- str_add "Existing session with status : " s ;;
     s <- state ;;
     if opt_str_eqb s (Some CLOSED) then
       started <- _start_session fuel ;;
       set_session started
     else ret tt) ;;
  _init_session ;;
  c <- get_conn ;;
  set_credentials_session_id (session_id c) ;;
  c <- get_conn ;;
  ret (session_id c).

Definition cancel_statement_ (statement_id : string) : M R unit :=
  client ;;
  c <- get_conn ;;
  perform (fun r => cancel_statement glue r (session_id c) statement_id)
          (EvCancelStatement (session_id c) statement_id).

(** The body of [cancel]'s [for statement in response["Statements"]]. *)
Fixpoint cancel_each (statements : list Statement) : M R unit :=
  match statements with
  | [] => ret tt
  | statement :: rest =>
      (if py_in (Some (stmt_State statement)) ["RUNNING"]
       then cancel_statement_ (stmt_Id statement)
       else ret tt) ;;
      cancel_each rest
  end.

Definition cancel : M R unit :=
  client ;;
  c <- get_conn ;;
  statements <- perform (fun r => get_statements glue r (session_id c))
                        (EvGetStatements (session_id c)) ;;
  cancel_each statements.

Definition close : M R unit := ret tt.

Definition rollback : M R unit := ret tt.

Definition close_session : M R unit :=
  c <- get_conn ;;
  if truthy (Credentials.session_id (credentials c)) then
    client ;;
    c <- get_conn ;;
    perform
      (fun r => delete_session glue r (Credentials.session_id (credentials c)))
      (EvDeleteSession (Credentials.session_id (credentials c)))
  else ret tt.
End Connection.

(** *** The remote helper installed by [_init_session]: [SQLPROXY] *)

(** A JSON document, as [json.dumps] writes it. *)
#[local] Unset Elimination Schemes.
Inductive json : Type :=
| JNull
| JInt (z : Z)
| JStr (s : string)
| JArr (items : list json)
| JObj (fields : list (string * json)).
#[local] Set Elimination Schemes.

Module SqlWrapper2.
Record StructField : Type := {
  name : string;
  dataType : string
}.

(** What a cell of a Spark row holds: a value that [json.dumps] can
    write, or one it cannot (a date, a timestamp, a [Decimal], bytes). *)
Inductive value : Type :=
| Plain (j : json)
| Opaque.

(** A [Row]: its fields by name, in order. *)
Definition Row : Type := list (string * value).

(** [record[k]]: the first field named [k]; [Row.__getitem__] raises
    [ValueError] when there is none. *)
Fixpoint row_get (record : Row) (k : string) : exn + value :=
  match record with
  | [] => inl ValueError
  | (k', v) :: rest =>
      if String.eqb k k' then inr v else row_get rest k
  end.

(** A Spark dataframe: its schema, and what the two actions that the
    helper runs on it give, [df.count()] and [df.rdd.collect()].  Each is
    a Spark job of its own and can fail, and nothing makes the count the
    number of rows collected. *)
Record DataFrame : Type := {
  schema : list StructField;
  count : exn + Z;
  collect : exn + list Row
}.

(** The interpreter the helper runs in: the Spark session and what has
    been printed so far. *)
Record Runtime (S : Type) : Type := mkRuntime {
  spark : S;
  stdout : list json
}.

(** [";" in sql] *)
Fixpoint contains (sep : ascii) (s : string) : bool :=
  match s with
  | EmptyString => false
  | String c rest => Ascii.eqb c sep || contains sep rest
  end.

(** [sql.split(";")] *)
Fixpoint split (sep : ascii) (s : string) : list string :=
  match s with
  | EmptyString => [EmptyString]
  | String c rest =>
      if Ascii.eqb c sep then EmptyString :: split sep rest
      else
        match split sep rest with
        | [] => [String c EmptyString]
        | q :: queries => String c q :: queries
        end
  end.

(** [d[k] = v] on a dict kept in insertion order. *)
Fixpoint dict_set {V : Type} (d : list (string * V)) (k : string) (v : V)
  : list (string * V) :=
  match d with
  | [] => [(k, v)]
  | (k', v') :: rest =>
      if String.eqb k k' then (k', v) :: rest
      else (k', v') :: dict_set rest k v
  end.

Definition null_envelope (sql : string) : json :=
  JObj [("type", JStr "results"); ("sql", JStr sql);
        ("schema", JNull); ("results", JNull)].

(** The inner loop [for f in df.schema: d[f.name] = record[f.name]],
    from the dict [d] on. *)
Fixpoint record_data (fields : list StructField) (record : Row)
         (d : list (string * value)) : exn + list (string * value) :=
  match fields with
  | [] => inr d
  | f :: rest =>
      match row_get record (name f) with
      | inl e => inl e
      | inr v => record_data rest record (dict_set d (name f) v)
      end
  end.

(** The loop [for record in ...: d = {}; ...; results.append(...)]: the
    [data] dict of every record, in order. *)
Fixpoint record_results (fields : list StructField) (records : list Row)
  : exn + list (list (string * value)) :=
  match records with
  | [] => inr []
  | record :: rest =>
      match record_data fields record [] with
      | inl e => inl e
      | inr d =>
          match record_results fields rest with
          | inl e => inl e
          | inr results => inr (d :: results)
          end
      end
  end.

(** [json.dumps] on what the loop collected: it raises [TypeError] at a
    value it cannot write. *)
Definition dumps_value (v : value) : exn + json :=
  match v with
  | Plain j => inr j
  | Opaque => inl TypeError
  end.

Fixpoint dumps_dict (d : list (string * value))
  : exn + list (string * json) :=
  match d with
  | [] => inr []
  | (k, v) :: rest =>
      match dumps_value v with
      | inl e => inl e
      | inr j =>
          match dumps_dict rest with
          | inl e => inl e
          | inr written => inr ((k, j) :: written)
          end
      end
  end.

Fixpoint dumps_results (results : list (list (string * value)))
  : exn + list json :=
  match results with
  | [] => inr []
  | d :: rest =>
      match dumps_dict d with
      | inl e => inl e
      | inr data =>
          match dumps_results rest with
          | inl e => inl e
          | inr written =>
              inr (JObj [("type", JStr "record"); ("data", JObj data)]
                   :: written)
          end
      end
  end.

(** [execute] from [results=[]] to the [json.dumps] of the rows
    envelope: the count, the rows, the loop over them, and the writing,
    in this order; the first of them that raises ends it. *)
Definition rows_envelope (df : DataFrame) : exn + json :=
  match count df with
  | inl e => inl e
  | inr rowcount =>
      match collect df with
      | inl e => inl e
      | inr records =>
          match record_results (schema df) records with
          | inl e => inl e
          | inr results =>
              match dumps_results results with
              | inl e => inl e
              | inr written =>
                  inr (JObj
                         [("type", JStr "results");
                          ("rowcount", JInt rowcount);
                          ("results", JArr written);
                          ("description",
                           JArr (map (fun f =>
                                        JObj [("name", JStr (name f));
                                              ("type", JStr (dataType f))])
                                     (schema df)))])
              end
          end
      end
  end.

Section Execute.
Context {S : Type}.
(** [spark.sql(sql)]: runs one statement in the Spark session. *)
Variable spark_sql : S -> string -> S * (exn + DataFrame).

Definition print (rt : Runtime S) (j : json) : Runtime S :=
  mkRuntime (spark rt) (stdout rt ++ [j]).

(** [execute] from [df=spark.sql(sql)] on: the part that runs when
    [sql] holds no [;]. *)
Definition execute_one (sql : string) (output : bool) (rt : Runtime S)
  : res (option json) * Runtime S :=
  match spark_sql (spark rt) sql with
  | (s', inl e) => (Raise e, mkRuntime s' (stdout rt))
  | (s', inr df) =>
      let rt := mkRuntime s' (stdout rt) in
      let rows rt :=
        match rows_envelope df with
        | inl e => (Raise e, rt)
        | inr envelope =>
            if output then (Ok None, print rt envelope)
            else (Ok (Some envelope), rt)
        end in
      if (length (schema df) =? 0)%nat then
        if output then rows (print rt (null_envelope sql))
        else (Ok (Some (null_envelope sql)), rt)
      else rows rt
  end.

(** The loop [for q in queries: ...] over a recursive [execute]. *)
Fixpoint execute_queries
         (execute : string -> bool -> Runtime S
                    -> res (option json) * Runtime S)
         (last_query : string) (queries : list string)
         (response : option json) (rt : Runtime S)
  : res (option json) * Runtime S :=
  match queries with
  | [] => (Ok response, rt)
  | q :: rest =>
      if (0 <? String.length q)%nat then
        if String.eqb q last_query then
          match execute q true rt with
          | (Ok response', rt') =>
              execute_queries execute last_query rest response' rt'
          | failed => failed
          end
        else
          match execute q false rt with
          | (Ok _, rt') =>
              execute_queries execute last_query rest response rt'
          | failed => failed
          end
      else execute_queries execute last_query rest response rt
  end.

(** [SqlWrapper2.execute(sql, output)]; [depth] bounds the nesting of
    the recursive calls. *)
Fixpoint execute (depth : nat) (sql : string) (output : bool)
         (rt : Runtime S) : res (option json) * Runtime S :=
  match depth with
  | O => (OutOfFuel, rt)
  | Datatypes.S depth' =>
      if contains ";" sql then
        let queries := split ";" sql in
        execute_queries (execute depth') (last queries EmptyString)
                        queries None rt
      else execute_one sql output rt
  end.
End Execute.
End SqlWrapper2.

(** ** impl.py *)

Module GlueAdapter.
Definition HUDI_METADATA_COLUMNS : list string :=
  ["_hoodie_commit_time";
   "_hoodie_commit_seqno";
   "_hoodie_record_key";
   "_hoodie_partition_path";
   "_hoodie_file_name"].

(** dbt's [Column(column=..., dtype=...)]; its [name] property is the
    [column] field. *)
Record Column : Type := {
  column : string;
  dtype : string
}.
Definition name (x : Column) : string := column x.

Record Relation : Type := {
  schema : string;
  identifier : string
}.

(** What a cursor does with one statement: [execute] raises, or
    [fetchall] yields records and then possibly raises. *)
Definition Cursor : Type :=
  string -> exn + (list (list string) * option exn).

(** The loop [for record in cursor.fetchall(): columns.append(...)];
    [record[0]] and [record[1]] raise [IndexError] on a short record. *)
Fixpoint append_columns (records : list (list string))
         (columns : list Column) : list Column * option exn :=
  match records with
  | [] => (columns, None)
  | record :: rest =>
      match nth_error record 0, nth_error record 1 with
      | Some c, Some d =>
          append_columns rest (columns ++ [{| column := c; dtype := d |}])
      | _, _ => (columns, Some IndexError)
      end
  end.

Definition get_columns_in_relation (cursor : Cursor) (relation : Relation)
  : list Column :=
  let code :=
    String.append "describe "
      (String.append (schema relation)
         (String.append "." (identifier relation))) in
  let columns :=
    match cursor code with
    | inl _ => []
    | inr (records, _) => fst (append_columns records [])
    end in
  filter (fun x => negb (py_in (Some (name x)) HUDI_METADATA_COLUMNS))
         columns.
End GlueAdapter.

(** ** Scripted environments

    A fake Glue service for closed examples.  Its state counts the calls
    answered so far; replies are scripted by that count.  Its [wait(1)]
    is an ideal clock: the first iteration is immediate and each later
    one comes exactly one second after the previous. *)
Module Fake.
Record Script : Type := {
  on_create : exn + Response;
  on_get : nat -> exn + Response;
  on_delete : exn + unit;
  on_statements : exn + list Statement;
  on_cancel : string -> exn + unit;
  on_execute : exn + unit
}.

Definition glue (s : Script) : Glue nat :=
  {| create_session n _ := (S n, on_create s);
     get_session n _ := (S n, on_get s n);
     delete_session n _ := (S n, on_delete s);
     get_statements n _ := (S n, on_statements s);
     cancel_statement n _ stmt := (S n, on_cancel s stmt);
     statement_execute n _ _ := (S n, on_execute s);
     uuid4 n := (n, "00000000-0000-4000-8000-000000000000");
     wait n attempt := (n, inject_Z (Z.of_nat attempt)) |}.

Definition session (sid status : string) : Response :=
  {| Session := Some {| Id := Some sid; Status := Some status |} |}.

Definition creds (sid : option string) (timeout : Z) : Credentials.t :=
  Credentials.mk sid None 2 "G.1X" "arn:aws:iam::1:role/dbt" "analytics"
                 "eu-west-1" timeout.

(** A service on which everything succeeds and sessions report
    [status]. *)
Definition steady (status : string) : Script :=
  {| on_create := inr (session "dbt-glue-1" status);
     on_get := fun _ => inr (session "dbt-glue-1" status);
     on_delete := inr tt;
     on_statements :=
       inr [ {| stmt_Id := "1"; stmt_State := "RUNNING" |};
             {| stmt_Id := "2"; stmt_State := "AVAILABLE" |};
             {| stmt_Id := "3"; stmt_State := "RUNNING" |} ];
     on_cancel := fun _ => inr tt;
     on_execute := inr tt |}.

(** A Spark session that has run [n] statements: a statement starting
    with [select] yields one row whose only column holds [n], any other
    statement yields a dataframe with no column. *)
Definition spark (n : nat) (sql : string)
  : nat * (exn + SqlWrapper2.DataFrame) :=
  (S n,
   inr (if String.prefix "select" sql then
          {| SqlWrapper2.schema :=
               [ {| SqlWrapper2.name := "n";
                    SqlWrapper2.dataType := "IntegerType" |} ];
             SqlWrapper2.count := inr 1%Z;
             SqlWrapper2.collect :=
               inr [[("n", SqlWrapper2.Plain (JInt (Z.of_nat n)))]] |}
        else
          {| SqlWrapper2.schema := [];
             SqlWrapper2.count := inr 0%Z;
             SqlWrapper2.collect := inr [] |})).

(** The envelope of the one-row dataframe above. *)
Definition row_envelope (n : nat) : json :=
  JObj [("type", JStr "results");
        ("rowcount", JInt 1);
        ("results",
         JArr [JObj [("type", JStr "record");
                     ("data", JObj [("n", JInt (Z.of_nat n))])]]);
        ("description",
         JArr [JObj [("name", JStr "n"); ("type", JStr "IntegerType")]])].

Definition empty_envelope : json :=
  JObj [("type", JStr "results");
        ("rowcount", JInt 0);
        ("results", JArr []);
        ("description", JArr [])].

(** The service [g] on a clock that runs late, as a real one does: every
    element of [wait(1)] after the first comes a tenth of a second after
    its nominal time. *)
Definition late (g : Glue nat) : Glue nat :=
  {| create_session := create_session g;
     get_session := get_session g;
     delete_session := delete_session g;
     get_statements := get_statements g;
     cancel_statement := cancel_statement g;
     statement_execute := statement_execute g;
     uuid4 := uuid4 g;
     wait n attempt :=
       (n, match attempt with
           | O => 0%Q
           | _ => (inject_Z (Z.of_nat attempt) + (1 # 10))%Q
           end) |}.

(** Stand-in for the text of the helper program. *)
Definition SQLPROXY : string := "class SqlWrapper2: ...".

(** A connection as [GlueConnection(credentials)] makes it, without a
    session id in the credentials. *)
Definition fresh (timeout : Z) : GlueConnection :=
  init (creds None timeout).

(** The interpreter before anything ran. *)
Definition rt0 : SqlWrapper2.Runtime nat := SqlWrapper2.mkRuntime 0 [].

(** The service of [s] until [limit] calls have been answered; from
    then on the session is gone, and every call that names it --
    [delete_session], a statement, a cancellation -- raises
    [ClientError]. *)
Definition failing_after (limit : nat) (s : Script) : Glue nat :=
  {| create_session := create_session (glue s);
     get_session := get_session (glue s);
     delete_session n _ :=
       (S n, if (n <? limit)%nat then on_delete s else inl ClientError);
     get_statements := get_statements (glue s);
     cancel_statement n _ stmt :=
       (S n, if (n <? limit)%nat then on_cancel s stmt
             else inl ClientError);
     statement_execute n _ _ :=
       (S n, if (n <? limit)%nat then on_execute s else inl ClientError);
     uuid4 := uuid4 (glue s);
     wait := wait (glue s) |}.

(** The steady service, except that cancelling the statement [stmt]
    raises [ClientError]. *)
Definition uncancellable (stmt : string) : Script :=
  {| on_create := on_create (steady READY);
     on_get := on_get (steady READY);
     on_delete := inr tt;
     on_statements := on_statements (steady READY);
     on_cancel := fun id => if String.eqb id stmt then inl ClientError
                            else inr tt;
     on_execute := inr tt |}.

(** The same service, except that [create_session] fails with [e]. *)
Definition rejecting (e : exn) : Script :=
  {| on_create := inl e;
     on_get := on_get (steady CLOSED);
     on_delete := inr tt;
     on_statements := on_statements (steady CLOSED);
     on_cancel := fun _ => inr tt;
     on_execute := inr tt |}.
End Fake.

(** ** Reading connections and traces *)

(** The connection after the [client] property has been read. *)
Definition with_client (c : GlueConnection) : GlueConnection :=
  mkConn (credentials c)
         (match _client c with
          | Some cl => Some cl
          | None => Some (Credentials.region (credentials c))
          end)
         (_session c) (_state c).

(** What [state] caches for a [get_session] reply. *)
Definition observed_state (reply : exn + Response) : option string :=
  match reply with
  | inl _ => Some CLOSED
  | inr response =>
      match Session response with
      | Some session => Status session
      | None => None
      end
  end.

Definition res_of {A} (reply : exn + A) : res A :=
  match reply with
  | inl e => Raise e
  | inr a => Ok a
  end.

Definition is_create (ev : event) : bool :=
  match ev with EvCreateSession _ _ => true | _ => false end.

Definition is_get_session (ev : event) : bool :=
  match ev with EvGetSession _ _ => true | _ => false end.

Definition is_wait (ev : event) : bool :=
  match ev with EvWait _ _ => true | _ => false end.

(** The statement ids of the cancel calls in a trace, in order. *)
Fixpoint cancel_calls (t : list event) : list string :=
  match t with
  | [] => []
  | EvCancelStatement _ stmt _ :: t' => stmt :: cancel_calls t'
  | _ :: t' => cancel_calls t'
  end.

Definition is_running (s : Statement) : bool :=
  String.eqb (stmt_State s) "RUNNING".

(** The connection after [self.credentials.session_id = self.session_id]. *)
Definition persist (c : GlueConnection) : GlueConnection :=
  mkConn (Credentials.set_session_id (credentials c) (session_id c))
         (_client c) (_session c) (_state c).

(** [connect] read in two halves, for the proofs: the [if]/[else] that
    settles which session is current, and what follows it. *)
Definition handshake {R} (glue : Glue R) (fuel : nat) : M R unit :=
  c <- get_conn ;;
  if negb (truthy (Credentials.session_id (credentials c))) then
    _ <- _start_session glue fuel ;;
    ret tt
  else
    set_session
      (Some {| Session :=
                 Some {| Id := Credentials.session_id (credentials c);
                         Status := None |} |}) ;;
    s <- state glue ;;
    _ <- str_add "Existing session with status : " s ;;
    s <- state glue ;;
    if opt_str_eqb s (Some CLOSED) then
      started <- _start_session glue fuel ;;
      set_session started
    else ret tt.

Definition finish {R} (glue : Glue R) (SQLPROXY : string)
  : M R (option string) :=
  _init_session glue SQLPROXY ;;
  c <- get_conn ;;
  set_credentials_session_id (session_id c) ;;
  c <- get_conn ;;
  ret (session_id c).

(** The connection after [self._session = {"Session": {"Id": ...}}]
    with the id recorded in the credentials. *)
Definition reattached (c : GlueConnection) : GlueConnection :=
  mkConn (credentials c) (_client c)
         (Some {| Session :=
                    Some {| Id := Credentials.session_id (credentials c);
                            Status := None |} |})
         (_state c).

Definition use_database (c : GlueConnection) : string :=
  String.append "spark.sql('use "
    (String.append (Credentials.database (credentials c)) "')").

(** The number of iterations of the poll loop in a trace: every element
    that [wait(1)] yields is followed by exactly one read of [state]. *)
Definition state_checks (t : list event) : nat :=
  length (filter is_wait t).

(** The [create_session] calls of a trace, in order. *)
Definition creations (t : list event) : list event := filter is_create t.

(** Whether some [get_session] call of the trace was observed as CLOSED. *)
Definition fetched_closed (t : list event) : bool :=
  existsb (fun ev =>
             match ev with
             | EvGetSession _ reply =>
                 opt_str_eqb (observed_state reply) (Some CLOSED)
             | _ => false
             end) t.

Definition timeout_of (c : GlueConnection) : Z :=
  Credentials.session_provisionning_timeout_in_seconds (credentials c).

(** The elapsed times that [wait(1)] yielded in a trace, in order. *)
Fixpoint waits (t : list event) : list Q :=
  match t with
  | [] => []
  | EvWait _ elapsed :: t' => elapsed :: waits t'
  | _ :: t' => waits t'
  end.

(** ** More ways to read a trace *)

Definition is_statement (ev : event) : bool :=
  match ev with EvStatement _ _ _ => true | _ => false end.

(** [response.get("Session", {}).get("Id")] *)
Definition response_session_id (response : Response) : option string :=
  match Session response with
  | Some session => Id session
  | None => None
  end.

(** The [get_session] calls of a trace, in order. *)
Definition lookups (t : list event) : list event := filter is_get_session t.

(** ** Reading what the remote helper did *)

(** [len(q)] as a condition. *)
Definition nonempty (q : string) : bool := (0 <? String.length q)%nat.

(** Whether running one piece of a batch fails, and with what: either
    [spark.sql] raised, or writing the rows of its dataframe did.  The
    rows of a dataframe without columns are not written when the piece
    runs silently: [execute] has returned before. *)
Definition piece_error (silent : bool)
           (reply : exn + SqlWrapper2.DataFrame) : option exn :=
  match reply with
  | inl e => Some e
  | inr df =>
      if silent && (length (SqlWrapper2.schema df) =? 0)%nat then None
      else
        match SqlWrapper2.rows_envelope df with
        | inl e => Some e
        | inr _ => None
        end
  end.

(** The pieces of a batch given to [spark.sql] one after the other, up
    to the first that fails: the session afterwards and the exception,
    if any.  A piece runs silently unless its text is [last_query]. *)
Fixpoint spark_run {S : Type}
         (spark_sql : S -> string -> S * (exn + SqlWrapper2.DataFrame))
         (last_query : string) (queries : list string) (s : S)
  : S * option exn :=
  match queries with
  | [] => (s, None)
  | q :: rest =>
      let (s', reply) := spark_sql s q in
      match piece_error (negb (String.eqb q last_query)) reply with
      | Some e => (s', Some e)
      | None => spark_run spark_sql last_query rest s'
      end
  end.

(** The cell of [record] in column [k], when there is one. *)
Definition cell (record : SqlWrapper2.Row) (k : string)
  : SqlWrapper2.value :=
  match SqlWrapper2.row_get record k with
  | inr v => v
  | inl _ => SqlWrapper2.Opaque
  end.

(** What is written for that cell, when it can be written. *)
Definition written (record : SqlWrapper2.Row) (k : string) : json :=
  match cell record k with
  | SqlWrapper2.Plain j => j
  | SqlWrapper2.Opaque => JNull
  end.

(** The record has a cell for every column. *)
Definition has_columns (fields : list SqlWrapper2.StructField)
           (record : SqlWrapper2.Row) : bool :=
  forallb (fun f =>
             match SqlWrapper2.row_get record (SqlWrapper2.name f) with
             | inr _ => true
             | inl _ => false
             end) fields.

(** Every cell of the record that the loop copies can be written. *)
Definition writable (fields : list SqlWrapper2.StructField)
           (record : SqlWrapper2.Row) : bool :=
  forallb (fun f =>
             match cell record (SqlWrapper2.name f) with
             | SqlWrapper2.Plain _ => true
             | SqlWrapper2.Opaque => false
             end) fields.

(** ** impl.py, continued: relations and the catalog *)

Module GlueRelations.

(** [d.get(k)] on a dict written as its list of items. *)
Fixpoint dict_get (d : list (string * string)) (k : string)
  : option string :=
  match d with
  | [] => None
  | (k', v) :: rest => if String.eqb k k' then Some v else dict_get rest k
  end.

Definition relation_type_map : list (string * string) :=
  [("EXTERNAL_TABLE", "table");
   ("MANAGED_TABLE", "table");
   ("VIRTUAL_VIEW", "view");
   ("table", "table");
   ("view", "view");
   ("cte", "cte");
   ("materializedview", "materializedview")].

(** [relation_type_map.get(k)], also for [k = None]. *)
Definition relation_type (k : option string) : option string :=
  match k with
  | Some k => dict_get relation_type_map k
  | None => None
  end.

(** A table of the Glue catalog, as far as the adapter reads it. *)
Record TableDict : Type := {
  Name : option string;
  TableType : option string
}.

(** Response of [client.get_table]. *)
Record GetTableResponse : Type := {
  Table : option TableDict
}.

(** Response of [client.get_tables]. *)
Record GetTablesResponse : Type := {
  TableList : option (list TableDict)
}.

(** What [self.Relation.create(schema=..., identifier=..., type=...)]
    is given; its [name] property is the [identifier]. *)
Record SparkRelation : Type := {
  schema : string;
  identifier : option string;
  type : option string
}.
Definition name (relation : SparkRelation) : option string :=
  identifier relation.

(** ["literal" + s] inside the adapter: [TypeError] when [s] is [None]. *)
Definition str_concat (prefix : string) (s : option string) : exn + string :=
  match s with
  | Some x => inr (String.append prefix x)
  | None => inl TypeError
  end.

(** [response.get("Table", {}).get("TableType", "Table")] *)
Definition table_type (response : GetTableResponse) : string :=
  match Table response with
  | Some table =>
      match TableType table with
      | Some t => t
      | None => "Table"
      end
  | None => "Table"
  end.

Section WithCatalog.
(** [client.get_table(DatabaseName=..., Name=...)] *)
Variable get_table : string -> string -> exn + GetTableResponse.
(** [client.get_tables(DatabaseName=...)] *)
Variable get_tables : string -> exn + GetTablesResponse.

Definition list_relations_without_caching (schema_relation_schema : string)
  : list SparkRelation :=
  match get_tables schema_relation_schema with
  | inl _ => []
  | inr response =>
      map (fun table =>
             {| schema := schema_relation_schema;
                identifier := Name table;
                type := relation_type (TableType table) |})
          (match TableList response with
           | Some tables => tables
           | None => []
           end)
  end.

(** The [try] block shared by [get_relation] and [describe_table]: the
    lookup, the relation appended, and the debug lines, of which the last
    concatenates the mapped type to a string. *)
Definition get_relation (database schema identifier : string)
  : option (list SparkRelation) :=
  let attempt : exn + list SparkRelation :=
    match get_table schema identifier with
    | inl e => inl e
    | inr response =>
        let relations :=
          [ {| schema := schema;
               identifier := Some identifier;
               type := dict_get relation_type_map (table_type response) |} ]
        in
        match str_concat "type : "
                (dict_get relation_type_map (table_type response)) with
        | inl e => inl e
        | inr _ => inr relations
        end
    end in
  match attempt with
  | inl _ => None
  | inr relations => Some relations
  end.

Definition describe_table (relation : GlueAdapter.Relation)
  : option (list SparkRelation) :=
  let attempt : exn + list SparkRelation :=
    match get_table (GlueAdapter.schema relation)
                    (GlueAdapter.identifier relation) with
    | inl e => inl e
    | inr response =>
        let relations :=
          [ {| schema := GlueAdapter.schema relation;
               identifier := Some (GlueAdapter.identifier relation);
               type := dict_get relation_type_map (table_type response) |} ]
        in
        match str_concat "table type : "
                (dict_get relation_type_map (table_type response)) with
        | inl e => inl e
        | inr _ => inr relations
        end
    end in
  match attempt with
  | inl _ => None
  | inr relations => Some relations
  end.

Definition get_table_type (relation : GlueAdapter.Relation)
  : option string :=
  let attempt : exn + option string :=
    match get_table (GlueAdapter.schema relation)
                    (GlueAdapter.identifier relation) with
    | inl e => inl e
    | inr response =>
        let type := dict_get relation_type_map (table_type response) in
        match str_concat "table type : " type with
        | inl e => inl e
        | inr _ => inr type
        end
    end in
  match attempt with
  | inl _ => None
  | inr type => type
  end.

(** *** [_get_one_catalog], up to the rows it hands to [agate.Table] *)

Inductive failure : Type :=
| Exception (e : exn)
| CompilationException.

(** [f"{relation.identifier}"]: [None] is printed as its name. *)
Definition format_identifier (identifier : option string) : string :=
  match identifier with
  | Some x => x
  | None => "None"
  end.

Definition as_relation (relation_row : SparkRelation) : GlueAdapter.Relation :=
  {| GlueAdapter.schema := schema relation_row;
     GlueAdapter.identifier := format_identifier (identifier relation_row) |}.

Variable cursor : GlueAdapter.Cursor.

(** The inner loop [for table_row in table_info]: the row is appended,
    then the debug lines concatenate its cells to strings. *)
Fixpoint catalog_rows_of_columns (database : option string)
         (schema : string) (name relation_type : option string)
         (table_info : list GlueAdapter.Column)
         (rows : list (list (option string)))
  : exn + list (list (option string)) :=
  match table_info with
  | [] => inr rows
  | table_row :: rest =>
      let rows :=
        rows ++ [[database; Some schema; name; relation_type;
                  Some ""; Some "";
                  Some (GlueAdapter.column table_row); Some "0";
                  Some (GlueAdapter.dtype table_row); Some ""]] in
      match str_concat "database : " database with
      | inl e => inl e
      | inr _ =>
          match str_concat "name : " name with
          | inl e => inl e
          | inr _ =>
              match str_concat "relation_type : " relation_type with
              | inl e => inl e
              | inr _ =>
                  catalog_rows_of_columns database schema name relation_type
                                          rest rows
              end
          end
      end
  end.

(** The outer loop [for relation_row in results]. *)
Fixpoint catalog_rows_of_relations (database : option string)
         (schema : string) (results : list SparkRelation)
         (rows : list (list (option string)))
  : exn + list (list (option string)) :=
  match results with
  | [] => inr rows
  | relation_row :: rest =>
      let table_info :=
        GlueAdapter.get_columns_in_relation cursor
                                            (as_relation relation_row) in
      match catalog_rows_of_columns database schema (name relation_row)
                                    (type relation_row) table_info rows with
      | inl e => inl e
      | inr rows => catalog_rows_of_relations database schema rest rows
      end
  end.

Definition column_names : list string :=
  ["table_database"; "table_schema"; "table_name"; "table_type";
   "table_comment"; "table_owner"; "column_name"; "column_index";
   "column_type"; "column_comment"].

(** [_get_one_catalog] from its start to the [rows] given to
    [agate.Table(rows, column_names)]; [database] is
    [information_schema.database]. *)
Definition _get_one_catalog_rows (database : option string)
           (schemas : list string)
  : failure + list (list (option string)) :=
  if negb (length schemas =? 1)%nat then inl CompilationException
  else
    let schema := hd EmptyString schemas in
    let results := list_relations_without_caching schema in
    match catalog_rows_of_relations database schema results [] with
    | inl e => inl (Exception e)
    | inr rows => inr rows
    end.
End WithCatalog.
End GlueRelations.

(** The records of a describe result that the loop of
    [get_columns_in_relation] gets through: those before the first one
    with fewer than two fields. *)
Fixpoint described (records : list (list string)) : list (list string) :=
  match records with
  | [] => []
  | record :: rest =>
      if (2 <=? length record)%nat then record :: described rest else []
  end.

Definition as_column (record : list string) : GlueAdapter.Column :=
  {| GlueAdapter.column := nth 0 record EmptyString;
     GlueAdapter.dtype := nth 1 record EmptyString |}.

Definition is_hudi_metadata (x : GlueAdapter.Column) : bool :=
  py_in (Some (GlueAdapter.name x)) GlueAdapter.HUDI_METADATA_COLUMNS.

(** The catalog row of one column of one relation. *)
Definition catalog_row (database : option string)
           (relation_row : GlueRelations.SparkRelation)
           (table_row : GlueAdapter.Column) : list (option string) :=
  [database; Some (GlueRelations.schema relation_row);
   GlueRelations.name relation_row; GlueRelations.type relation_row;
   Some ""; Some "";
   Some (GlueAdapter.column table_row); Some "0";
   Some (GlueAdapter.dtype table_row); Some ""].

(** A relation whose rows the debug lines of [_get_one_catalog] can print:
    it has a name and a type. *)
Definition printable (relation_row : GlueRelations.SparkRelation) : bool :=
  match GlueRelations.name relation_row, GlueRelations.type relation_row with
  | Some _, Some _ => true
  | _, _ => false
  end.

(** The columns [_get_one_catalog] gets for one listed relation. *)
Definition columns_of (cursor : GlueAdapter.Cursor)
           (relation_row : GlueRelations.SparkRelation)
  : list GlueAdapter.Column :=
  GlueAdapter.get_columns_in_relation cursor
                                      (GlueRelations.as_relation relation_row).

(** A scripted catalog: one table of a type the adapter does not know,
    with one column. *)
Module FakeCatalog.
Definition unknown_tables (_ : string)
  : exn + GlueRelations.GetTablesResponse :=
  inr {| GlueRelations.TableList :=
           Some [ {| GlueRelations.Name := Some "events";
                     GlueRelations.TableType := Some "GOVERNED" |} ] |}.

Definition one_column : GlueAdapter.Cursor :=
  fun _ => inr ([["id"; "int"]], None).
End FakeCatalog.

(** ** impl.py, continued: schemas *)

Module GlueSchemas.

Inductive resource : Type :=
| DatabaseResource (name : string)
| TableWildcard (database_name : string) (catalog_id : option string).

(** An element of [Entries] for [batch_grant_permissions]. *)
Record Entry : Type := {
  Id : string;
  Principal : string;
  Resource : resource;
  Permissions : list string;
  PermissionsWithGrantOption : list string
}.

Record DatabaseInput : Type := {
  Name : string;
  Description : string;
  LocationUri : string
}.

(** The calls the schema methods make, with arguments and reply. *)
Inductive call : Type :=
| GetCallerIdentity (reply : exn + option string)
| GetDatabase (name : string) (reply : exn + unit)
| CreateDatabase (input : DatabaseInput) (reply : exn + unit)
| DeleteDatabase (name : string) (reply : exn + unit)
| BatchGrantPermissions (catalog_id : option string) (entries : list Entry)
                        (reply : exn + unit)
| CleanupAll (reply : exn + unit)
| Uuid4 (u : string).

(** The Glue, Lake Formation and STS clients, the connection manager's
    [cleanup_all] and [uuid.uuid4], as a state machine over [R];
    [get_caller_identity] answers with [identity.get("Account")]. *)
Record Services (R : Type) : Type := {
  get_caller_identity : R -> R * (exn + option string);
  get_database : R -> string -> R * (exn + unit);
  create_database : R -> DatabaseInput -> R * (exn + unit);
  delete_database : R -> string -> R * (exn + unit);
  batch_grant_permissions :
    R -> option string -> list Entry -> R * (exn + unit);
  cleanup_all : R -> R * (exn + unit);
  uuid4 : R -> R * string
}.

(** A method of the adapter: from the services' state to an outcome, the
    state afterwards and the calls made. *)
Definition A (R X : Type) : Type := R -> (exn + X) * R * list call.

Section Monad.
Context {R : Type}.

Definition aret {X} (x : X) : A R X := fun r => (inr x, r, []).

Definition abind {X Y} (m : A R X) (f : X -> A R Y) : A R Y :=
  fun r =>
    match m r with
    | (inr x, r1, t1) =>
        match f x r1 with
        | (y, r2, t2) => (y, r2, t1 ++ t2)
        end
    | (inl e, r1, t1) => (inl e, r1, t1)
    end.

(** [try: m except Exception: h] *)
Definition atry {X} (m : A R X) (h : A R X) : A R X :=
  fun r =>
    match m r with
    | (inl _, r1, t1) =>
        match h r1 with
        | (y, r2, t2) => (y, r2, t1 ++ t2)
        end
    | done => done
    end.

Definition acall {X} (step : R -> R * (exn + X)) (ev : exn + X -> call)
  : A R X :=
  fun r => let (r', reply) := step r in (reply, r', [ev reply]).

Definition aask {X} (step : R -> R * X) (ev : X -> call) : A R X :=
  fun r => let (r', x) := step r in (inr x, r', [ev x]).
End Monad.

(** [str.upper()] on ASCII text. *)
Definition upper_ascii (c : ascii) : ascii :=
  let n := nat_of_ascii c in
  if ((97 <=? n) && (n <=? 122))%nat then ascii_of_nat (n - 32) else c.

Fixpoint upper (s : string) : string :=
  match s with
  | EmptyString => EmptyString
  | String c rest => String (upper_ascii c) (upper rest)
  end.

Section Methods.
Context {R : Type}.
Variable services : Services R.

Definition check_schema_exists (database schema : string) : A R bool :=
  atry (abind (acall (fun r => get_database services r schema)
                     (GetDatabase schema))
              (fun _ => aret true))
       (aret false).

(** [drop_schema] returns [True] or, falling off its end, [None]. *)
Definition drop_schema (database schema : string) : A R (option bool) :=
  abind (check_schema_exists database schema) (fun found =>
  if found then
    atry (abind (acall (fun r => delete_database services r schema)
                       (DeleteDatabase schema)) (fun _ =>
          abind (acall (cleanup_all services) CleanupAll) (fun _ =>
          aret (Some true))))
         (abind (acall (cleanup_all services) CleanupAll) (fun _ =>
          aret None))
  else
    abind (acall (cleanup_all services) CleanupAll) (fun _ =>
    aret None)).

Definition database_permissions : list string :=
  [upper "Alter"; upper "Create_table"; upper "Drop"; upper "Describe"].

Definition table_permissions : list string :=
  [upper "Select"; upper "Insert"; upper "Delete"; upper "Describe";
   upper "Alter"; upper "Drop"].

(** [create_schema] for [relation.schema], with the [location] and the
    [role_arn] of the session's credentials. *)
Definition create_schema (schema location role_arn : string) : A R unit :=
  abind (acall (get_caller_identity services) GetCallerIdentity)
        (fun account =>
  atry (acall (fun r => get_database services r schema) (GetDatabase schema))
       (abind (acall (fun r =>
                        create_database services r
                          {| Name := schema;
                             Description := "test dbt database";
                             LocationUri := location |})
                     (CreateDatabase
                        {| Name := schema;
                           Description := "test dbt database";
                           LocationUri := location |})) (fun _ =>
        abind (aask (uuid4 services) Uuid4) (fun id1 =>
        abind (aask (uuid4 services) Uuid4) (fun id2 =>
        let Entries :=
          [ {| Id := id1;
               Principal := role_arn;
               Resource := DatabaseResource schema;
               Permissions := database_permissions;
               PermissionsWithGrantOption := database_permissions |};
            {| Id := id2;
               Principal := role_arn;
               Resource := TableWildcard schema account;
               Permissions := table_permissions;
               PermissionsWithGrantOption := table_permissions |} ] in
        acall (fun r => batch_grant_permissions services r account Entries)
              (BatchGrantPermissions account Entries)))))).
End Methods.

Definition is_cleanup (c : call) : bool :=
  match c with CleanupAll _ => true | _ => false end.

Definition is_delete (c : call) : bool :=
  match c with DeleteDatabase _ _ => true | _ => false end.

Definition is_create_database (c : call) : bool :=
  match c with CreateDatabase _ _ => true | _ => false end.

Definition is_grant (c : call) : bool :=
  match c with BatchGrantPermissions _ _ _ => true | _ => false end.

(** Scripted services: every call succeeds, except that [get_database]
    answers [found] and [cleanup_all] answers [cleanup]. *)
Definition scripted (found cleanup : exn + unit) : Services nat :=
  {| get_caller_identity n := (S n, inr (Some "123456789012"));
     get_database n _ := (S n, found);
     create_database n _ := (S n, inr tt);
     delete_database n _ := (S n, inr tt);
     batch_grant_permissions n _ _ := (S n, inr tt);
     cleanup_all n := (S n, cleanup);
     uuid4 n := (S n, "00000000-0000-4000-8000-000000000000") |}.
End GlueSchemas.

(** Unfolds the monad's plumbing, leaving the methods folded. *)
Ltac run_monad :=
  cbv beta iota delta
      [bind try_except ret raise raise_class instantiate diverge get_conn
       put_conn perform ask set_state set_session
       set_credentials_session_id client str_add].

(** * Properties *)

Unset Implicit Arguments.

(** ** The [state] property *)

Lemma py_in_sticky (s : option string) :
  py_in s [FAILED; READY] = true <-> s = Some FAILED \/ s = Some READY.
Proof.
  unfold py_in, existsb, opt_str_eqb. destruct s as [x|].
  - rewrite orb_false_r, orb_true_iff, !String.eqb_eq.
    split; intros [H|H]; [left|right|left|right]; congruence.
  - split; [discriminate | intros [H|H]; discriminate].
Qed.

Lemma client_run {R} (c : GlueConnection) (r : R) :
  client c r = mkOut (Ok tt) (with_client c) r [].
Proof.
  unfold with_client. run_monad. destruct c as [cr [cl|] se st]; reflexivity.
Qed.

Lemma state_run {R} (glue : Glue R) (c : GlueConnection) (r : R) :
  state glue c r =
  if py_in (_state c) [FAILED; READY] then mkOut (Ok (_state c)) c r []
  else
    let (r', reply) := get_session glue r (session_id c) in
    mkOut (Ok (observed_state reply))
          (mkConn (credentials c) (_client (with_client c)) (_session c)
                  (observed_state reply))
          r' [EvGetSession (session_id c) reply].
Proof.
  unfold state. cbv beta iota delta [bind get_conn].
  destruct (py_in (_state c) [FAILED; READY]); [reflexivity|].
  run_monad. unfold with_client, observed_state.
  destruct c as [cr [cl|] se st];
    cbn [credentials _client _session _state session_id];
    destruct (get_session glue r _) as [r' [e|resp]];
    reflexivity.
Qed.

(** C1. Reading [state] with READY or FAILED cached returns the cached
    value and touches nothing: no remote call, connection and service
    unchanged.  With anything else cached (also nothing) it issues exactly
    one [get_session] call for the current session id; the value returned
    is the value newly cached, which is CLOSED whenever that call raised
    (whatever the exception) and the reported ["Status"] otherwise.  The
    read itself never raises. *)
Theorem state_cached_or_fetched {R} (glue : Glue R) (c : GlueConnection)
        (r : R) :
  let o := state glue c r in
  let call := get_session glue r (session_id c) in
  if py_in (_state c) [FAILED; READY] then
    o = mkOut (Ok (_state c)) c r []
  else
    trace o = [EvGetSession (session_id c) (snd call)]
    /\ remote o = fst call
    /\ result o = Ok (_state (conn o))
    /\ _state (conn o) =
         match snd call with
         | inl _ => Some CLOSED
         | inr response =>
             match Session response with
             | Some session => Status session
             | None => None
             end
         end.
Proof.
  intros o call. subst o call. rewrite state_run.
  destruct (py_in (_state c) [FAILED; READY]); [reflexivity|].
  destruct (get_session glue r (session_id c)) as [r' reply].
  repeat split.
Qed.

(** ** [close_session] *)

Lemma close_session_run {R} (glue : Glue R) (c : GlueConnection) (r : R) :
  close_session glue c r =
  if truthy (Credentials.session_id (credentials c)) then
    let (r', reply) :=
      delete_session glue r (Credentials.session_id (credentials c)) in
    mkOut (res_of reply) (with_client c) r'
          [EvDeleteSession (Credentials.session_id (credentials c)) reply]
  else mkOut (Ok tt) c r [].
Proof.
  unfold close_session. cbv beta iota delta [bind get_conn].
  destruct (truthy (Credentials.session_id (credentials c))); [|reflexivity].
  run_monad. unfold with_client, res_of.
  destruct c as [cr [cl|] se st];
    cbn [credentials _client _session _state];
    destruct (delete_session glue r _) as [r' [e|[]]]; reflexivity.
Qed.

(** C7 (as amended). [close_session] with a session id recorded in the
    credentials issues exactly one [delete_session] call, for that id,
    and ends as that call ends.  With none recorded ([None] or the empty
    string) it is a no-op: it returns normally, issues no call and leaves
    the connection and the service as they were.  It is not idempotent on
    a connection that has a session: the id stays recorded, so a second
    call in a row issues a second [delete_session] call for the same id
    and ends as that one ends -- it raises when the service rejects it.
    Only on a connection without a session id is the second call the
    no-op that the first one was. *)
Theorem close_session_deletes_or_noop {R} (glue : Glue R)
        (c : GlueConnection) (r : R) :
  let o := close_session glue c r in
  let again := close_session glue (conn o) (remote o) in
  let sid := Credentials.session_id (credentials c) in
  let call := delete_session glue r sid in
  let second := delete_session glue (fst call) sid in
  if truthy sid then
    trace o = [EvDeleteSession sid (snd call)]
    /\ result o = res_of (snd call)
    /\ remote o = fst call
    /\ trace again = [EvDeleteSession sid (snd second)]
    /\ result again = res_of (snd second)
    /\ remote again = fst second
  else
    o = mkOut (Ok tt) c r []
    /\ again = mkOut (Ok tt) c r [].
Proof.
  intros o again sid call second. subst o again sid call second.
  rewrite (close_session_run glue c r).
  destruct (truthy (Credentials.session_id (credentials c))) eqn:E.
  - destruct (delete_session glue r _) as [r' reply].
    cbn [conn remote trace result fst snd].
    rewrite close_session_run.
    cbn [credentials with_client]. rewrite E.
    destruct (delete_session glue r' _) as [r'' reply'].
    repeat split.
  - split; [reflexivity|].
    cbn [conn remote]. rewrite close_session_run, E. reflexivity.
Qed.

(** C7, run: two calls in a row on a connection that has a session.  The
    first deletes it; the second asks for the same deletion again and
    raises the service's refusal. *)
Lemma close_session_twice_counterexample :
  let glue := Fake.failing_after 1 (Fake.steady READY) in
  let c := init (Fake.creds (Some "dbt-glue-1") 5) in
  let o := close_session glue c 0 in
  let again := close_session glue (conn o) (remote o) in
  result o = Ok tt
  /\ truthy (Credentials.session_id (credentials (conn o))) = true
  /\ trace again = [EvDeleteSession (Some "dbt-glue-1") (inl ClientError)]
  /\ result again = Raise ClientError.
Proof. vm_compute. repeat split. Qed.

(** C9. [close_session] never touches the stored session id: the
    credentials, the [_session] response and the cached state of the
    connection are the same after the call as before, whatever the service
    answers; in particular the id given to a [delete_session] call is
    still the recorded one afterwards. *)
Theorem close_session_keeps_session_id {R} (glue : Glue R)
        (c : GlueConnection) (r : R) :
  let o := close_session glue c r in
  credentials (conn o) = credentials c
  /\ _session (conn o) = _session c
  /\ _state (conn o) = _state c
  /\ session_id (conn o) = session_id c
  /\ forall sid reply,
       In (EvDeleteSession sid reply) (trace o) ->
       sid = Credentials.session_id (credentials (conn o))
       /\ truthy sid = true.
Proof.
  intros o. subst o. rewrite close_session_run.
  destruct (truthy (Credentials.session_id (credentials c))) eqn:E.
  - destruct (delete_session glue r _) as [r' reply].
    cbn [conn trace]. do 4 (split; [reflexivity|]).
    intros sid reply' [H|H]; [|contradiction].
    inversion H; subst. split; [reflexivity | exact E].
  - cbn [conn trace]. do 4 (split; [reflexivity|]).
    intros sid reply H. contradiction.
Qed.

(** ** [get_columns_in_relation] *)

Lemma py_in_In (x : string) (l : list string) :
  py_in (Some x) l = true <-> In x l.
Proof.
  unfold py_in. rewrite existsb_exists. split.
  - intros [y [Hy E]]. cbn in E. apply String.eqb_eq in E. now subst.
  - intros H. exists x. split; [exact H | cbn; apply String.eqb_refl].
Qed.

(** C10. Whatever the cursor does with the describe statement (it fails,
    it yields any records, it fails midway), no column returned by
    [get_columns_in_relation] is named like one of the five Hudi metadata
    columns. *)
Theorem get_columns_in_relation_strips_hudi (cursor : GlueAdapter.Cursor)
        (relation : GlueAdapter.Relation) :
  Forall (fun x =>
            ~ In (GlueAdapter.name x)
                 ["_hoodie_commit_time"; "_hoodie_commit_seqno";
                  "_hoodie_record_key"; "_hoodie_partition_path";
                  "_hoodie_file_name"])
         (GlueAdapter.get_columns_in_relation cursor relation).
Proof.
  unfold GlueAdapter.get_columns_in_relation.
  apply Forall_forall. intros x Hx. apply filter_In in Hx.
  destruct Hx as [_ Hx]. apply negb_true_iff in Hx.
  intros Hin. apply py_in_In in Hin.
  unfold GlueAdapter.HUDI_METADATA_COLUMNS in Hx. congruence.
Qed.

(** ** [cancel] *)

Lemma cancel_statement_run {R} (glue : Glue R) (stmt : string)
      (c : GlueConnection) (r : R) :
  cancel_statement_ glue stmt c r =
  let (r', reply) := cancel_statement glue r (session_id c) stmt in
  mkOut (res_of reply) (with_client c) r'
        [EvCancelStatement (session_id c) stmt reply].
Proof.
  unfold cancel_statement_. run_monad. unfold with_client, res_of.
  destruct c as [cr [cl|] se st];
    cbn [credentials _client _session _state session_id];
    destruct (cancel_statement glue r _ stmt) as [r' [e|[]]]; reflexivity.
Qed.

Lemma with_client_session_id (c : GlueConnection) :
  session_id (with_client c) = session_id c.
Proof. reflexivity. Qed.

Lemma cancel_each_calls {R} (glue : Glue R) (statements : list Statement) :
  forall (c : GlueConnection) (r : R),
    let o := cancel_each glue statements c r in
    session_id (conn o) = session_id c
    /\ (exists rest,
          map stmt_Id (filter is_running statements)
          = cancel_calls (trace o) ++ rest)
    /\ (result o = Ok tt ->
        trace o = map (fun s => EvCancelStatement (session_id c) (stmt_Id s)
                                                  (inr tt))
                      (filter is_running statements))
    /\ ((forall r' sid stmt, snd (cancel_statement glue r' sid stmt) = inr tt)
        -> result o = Ok tt)
    /\ result o <> OutOfFuel.
Proof.
  induction statements as [|s rest IH]; intros c r o; subst o.
  - cbn. repeat split; try discriminate. now exists [].
  - cbn [cancel_each filter]. unfold py_in, existsb, opt_str_eqb.
    rewrite orb_false_r. fold (is_running s).
    unfold bind.
    destruct (is_running s) eqn:Hs.
    + rewrite cancel_statement_run.
      destruct (cancel_statement glue r (session_id c) (stmt_Id s))
        as [r' [e|[]]] eqn:Hc; cbn [res_of].
      * cbn [conn trace result cancel_calls app map].
        repeat split; try discriminate.
        -- now exists (map stmt_Id (filter is_running rest)).
        -- intros H. specialize (H r (session_id c) (stmt_Id s)).
           rewrite Hc in H. discriminate.
      * specialize (IH (with_client c) r').
        destruct (cancel_each glue rest (with_client c) r')
          as [b c2 r2 t2].
        cbn [conn trace result] in *.
        destruct IH as (Hid & [rest' Hpre] & Hok & Hall & Hfuel).
        rewrite with_client_session_id in *.
        repeat split; try assumption.
        -- exists rest'. cbn. now rewrite Hpre.
        -- intros Hb. cbn. now rewrite (Hok Hb).
    + unfold ret.
      specialize (IH c r).
      destruct (cancel_each glue rest c r) as [b c2 r2 t2].
      cbn [conn trace result app] in *. exact IH.
Qed.

Lemma cancel_run {R} (glue : Glue R) (c : GlueConnection) (r : R) :
  cancel glue c r =
  let (r1, reply) := get_statements glue r (session_id c) in
  match reply with
  | inl e =>
      mkOut (Raise e) (with_client c) r1
            [EvGetStatements (session_id c) reply]
  | inr statements =>
      match cancel_each glue statements (with_client c) r1 with
      | mkOut b c2 r2 t2 =>
          mkOut b c2 r2 (EvGetStatements (session_id c) reply :: t2)
      end
  end.
Proof.
  unfold cancel. unfold bind at 1. rewrite client_run.
  cbv beta iota delta [bind get_conn perform].
  rewrite with_client_session_id.
  destruct (get_statements glue r (session_id c)) as [r1 [e|statements]];
    [reflexivity|].
  destruct (cancel_each glue statements (with_client c) r1); reflexivity.
Qed.

(** The loop of [cancel], exactly: it cancels the RUNNING statements in
    list order and stops at the first cancel call that raises. *)
Lemma cancel_each_cases {R} (glue : Glue R) (statements : list Statement) :
  forall (c : GlueConnection) (r : R),
    let o := cancel_each glue statements c r in
    let running := filter is_running statements in
    let cancelled s :=
      EvCancelStatement (session_id c) (stmt_Id s) (inr tt) in
    (result o = Ok tt /\ trace o = map cancelled running)
    \/ (exists e done s skipped,
           running = done ++ s :: skipped
           /\ result o = Raise e
           /\ trace o
              = map cancelled done
                ++ [EvCancelStatement (session_id c) (stmt_Id s) (inl e)]).
Proof.
  induction statements as [|s rest IH]; intros c r o running cancelled;
    subst o running cancelled.
  - left. split; reflexivity.
  - cbn [cancel_each filter]. unfold py_in, existsb, opt_str_eqb.
    rewrite orb_false_r. fold (is_running s). unfold bind.
    destruct (is_running s) eqn:Hs.
    + rewrite cancel_statement_run.
      destruct (cancel_statement glue r (session_id c) (stmt_Id s))
        as [r' [e|[]]]; cbn [res_of].
      * right. exists e, [], s, (filter is_running rest).
        repeat split.
      * specialize (IH (with_client c) r'). cbv zeta in IH.
        rewrite with_client_session_id in IH.
        destruct (cancel_each glue rest (with_client c) r')
          as [b c2 r2 t2].
        cbn [conn trace result] in *.
        destruct IH as [[-> ->] | (e & done & s' & skipped & Hr & -> & ->)].
        -- left. split; reflexivity.
        -- right. exists e, (s :: done), s', skipped. rewrite Hr.
           repeat split.
    + unfold ret. specialize (IH c r). cbv zeta in IH.
      destruct (cancel_each glue rest c r) as [b c2 r2 t2].
      cbn [conn trace result app] in *. exact IH.
Qed.

(** C8 (as amended). When [get_statements] returns the list [statements]
    for the current session, [cancel] lists once and then goes through
    the RUNNING statements in list order, one cancel call each, and never
    calls for a statement in another state.  Either every cancel call
    succeeds -- then there is exactly one per RUNNING statement and
    [cancel] returns -- or one of them raises: that call is the last thing
    [cancel] does, its exception is raised, and the RUNNING statements
    after it are not cancelled.  [cancel] returns normally whenever no
    cancel call raises. *)
Theorem cancel_running_statements {R} (glue : Glue R) (c : GlueConnection)
        (r r1 : R) (statements : list Statement)
        (Hlist : get_statements glue r (session_id c) = (r1, inr statements)) :
  let o := cancel glue c r in
  let running := filter is_running statements in
  let listed := EvGetStatements (session_id c) (inr statements) in
  let cancelled s :=
    EvCancelStatement (session_id c) (stmt_Id s) (inr tt) in
  ((result o = Ok tt /\ trace o = listed :: map cancelled running)
   \/ (exists e done s skipped,
          running = done ++ s :: skipped
          /\ result o = Raise e
          /\ trace o
             = listed
               :: map cancelled done
               ++ [EvCancelStatement (session_id c) (stmt_Id s) (inl e)]))
  /\ ((forall r' sid stmt, snd (cancel_statement glue r' sid stmt) = inr tt)
      -> result o = Ok tt).
Proof.
  intros o running listed cancelled. subst o running listed cancelled.
  rewrite cancel_run, Hlist.
  pose proof (cancel_each_calls glue statements (with_client c) r1) as H.
  pose proof (cancel_each_cases glue statements (with_client c) r1) as K.
  cbv zeta in H, K. rewrite with_client_session_id in K.
  destruct (cancel_each glue statements (with_client c) r1) as [b c2 r2 t2].
  cbn [conn trace result] in *.
  destruct H as (_ & _ & _ & Hall & _).
  split; [|exact Hall].
  destruct K as [[-> ->] | (e & done & s & skipped & Hr & -> & ->)].
  - left. split; reflexivity.
  - right. now exists e, done, s, skipped.
Qed.

(** C8, run: of the statements 1 (RUNNING), 2 (AVAILABLE) and 3
    (RUNNING), the cancel call for 1 raises: [cancel] raises with it and
    statement 3, still RUNNING, is never cancelled. *)
Lemma cancel_stops_at_failure_counterexample :
  let o := cancel (Fake.glue (Fake.uncancellable "1"))
                  (mkConn (Fake.creds (Some "dbt-glue-1") 5) None
                          (Some (Fake.session "dbt-glue-1" READY))
                          (Some READY)) 0 in
  result o = Raise ClientError
  /\ trace o
     = [EvGetStatements
          (Some "dbt-glue-1")
          (inr [ {| stmt_Id := "1"; stmt_State := "RUNNING" |};
                 {| stmt_Id := "2"; stmt_State := "AVAILABLE" |};
                 {| stmt_Id := "3"; stmt_State := "RUNNING" |} ]);
        EvCancelStatement (Some "dbt-glue-1") "1" (inl ClientError)]
  /\ cancel_calls (trace o) = ["1"].
Proof. vm_compute. repeat split. Qed.

(** ** The poll loop of [_start_session] *)

Lemma state_frame {R} (glue : Glue R) (c : GlueConnection) (r : R) :
  let o := state glue c r in
  credentials (conn o) = credentials c
  /\ _session (conn o) = _session c
  /\ result o = Ok (_state (conn o))
  /\ state_checks (trace o) = 0
  /\ creations (trace o) = []
  /\ (_state c = Some READY -> _state (conn o) = Some READY).
Proof.
  intros o. subst o. rewrite state_run.
  destruct (py_in (_state c) [FAILED; READY]) eqn:E.
  - cbn. repeat split. auto.
  - destruct (get_session glue r (session_id c)) as [r' reply].
    cbn. repeat split. intros H.
    assert (py_in (_state c) [FAILED; READY] = true)
      by (apply py_in_sticky; now right).
    congruence.
Qed.

Lemma poll_S {R} (glue : Glue R) (fuel attempt : nat) (c : GlueConnection)
      (r : R) :
  poll glue (S fuel) attempt c r =
  let (r0, elapsed) := wait glue r attempt in
  match state glue c r0 with
  | mkOut (Ok s) c1 r1 t1 =>
      if opt_str_eqb s (Some READY) then
        mkOut (Ok (_session c1)) c1 r1 (EvWait attempt elapsed :: t1)
      else if Qgt_bool elapsed (inject_Z (timeout_of c1)) then
        mkOut (Raise TimeoutError) c1 r1 (EvWait attempt elapsed :: t1)
      else
        match poll glue fuel (S attempt) c1 r1 with
        | mkOut b c2 r2 t2 =>
            mkOut b c2 r2 (EvWait attempt elapsed :: t1 ++ t2)
        end
  | mkOut (Raise e) c1 r1 t1 =>
      mkOut (Raise e) c1 r1 (EvWait attempt elapsed :: t1)
  | mkOut OutOfFuel c1 r1 t1 =>
      mkOut OutOfFuel c1 r1 (EvWait attempt elapsed :: t1)
  end.
Proof.
  cbn [poll]. cbv beta iota delta [bind ask get_conn ret raise].
  destruct (wait glue r attempt) as [r0 elapsed].
  destruct (state glue c r0) as [[s| |] c1 r1 t1]; try reflexivity.
  unfold timeout_of.
  destruct (opt_str_eqb s (Some READY)).
  - cbn. now rewrite app_nil_r.
  - destruct (Qgt_bool elapsed _).
    + cbn. now rewrite app_nil_r.
    + destruct (poll glue fuel (S attempt) c1 r1). reflexivity.
Qed.

Lemma state_checks_app (t1 t2 : list event) :
  state_checks (t1 ++ t2) = state_checks t1 + state_checks t2.
Proof. unfold state_checks. now rewrite filter_app, length_app. Qed.

Lemma creations_app (t1 t2 : list event) :
  creations (t1 ++ t2) = creations t1 ++ creations t2.
Proof. apply filter_app. Qed.

Lemma opt_str_eqb_eq (a b : option string) :
  opt_str_eqb a b = true <-> a = b.
Proof.
  destruct a, b; cbn; try (split; congruence).
  rewrite String.eqb_eq. split; congruence.
Qed.

(** What the loop can do, whatever the service and the clock do. *)
Lemma poll_frame {R} (glue : Glue R) (fuel : nat) :
  forall (attempt : nat) (c : GlueConnection) (r : R),
    let o := poll glue fuel attempt c r in
    credentials (conn o) = credentials c
    /\ _session (conn o) = _session c
    /\ creations (trace o) = []
    /\ state_checks (trace o) <= fuel
    /\ match result o with
       | Ok v => v = _session c /\ _state (conn o) = Some READY
       | Raise e => e = TimeoutError /\ _state (conn o) <> Some READY
       | OutOfFuel => True
       end.
Proof.
  induction fuel as [|fuel IH]; intros attempt c r o; subst o.
  - cbn. repeat split. lia.
  - rewrite poll_S. destruct (wait glue r attempt) as [r0 elapsed].
    pose proof (state_frame glue c r0) as F. cbv zeta in F.
    destruct (state glue c r0) as [b c1 r1 t1].
    cbn [conn result trace] in F.
    destruct F as (Fc & Fs & Fr & Fk & Fn & _). subst b.
    destruct (opt_str_eqb (_state c1) (Some READY)) eqn:E.
    + apply opt_str_eqb_eq in E. cbn [conn result trace].
      change (EvWait attempt elapsed :: t1)
        with ([EvWait attempt elapsed] ++ t1).
      rewrite state_checks_app, creations_app, Fk, Fn.
      cbn. repeat split; try assumption; try congruence. lia.
    + assert (_state c1 <> Some READY) as NR
          by (intros H; apply opt_str_eqb_eq in H; congruence).
      destruct (Qgt_bool elapsed (inject_Z (timeout_of c1))).
      * cbn [conn result trace].
        change (EvWait attempt elapsed :: t1)
          with ([EvWait attempt elapsed] ++ t1).
        rewrite state_checks_app, creations_app, Fk, Fn.
        cbn. repeat split; try assumption. lia.
      * specialize (IH (S attempt) c1 r1). cbv zeta in IH.
        destruct (poll glue fuel (S attempt) c1 r1) as [b c2 r2 t2].
        cbn [conn result trace] in *.
        destruct IH as (Ic & Is & In' & Ik & Ir).
        change (EvWait attempt elapsed :: t1 ++ t2)
          with ([EvWait attempt elapsed] ++ t1 ++ t2).
        rewrite !state_checks_app, !creations_app, Fk, Fn, In'.
        cbn. repeat split; try congruence; try lia.
        destruct b as [v| |]; [|exact Ir|exact I].
        destruct Ir as [Hv Hs]. split; congruence.
Qed.

(** With a clock on which the [attempt]-th element of [wait(1)] comes at
    least [attempt] seconds after the start, the loop ends within
    [timeout + 2] iterations. *)
Lemma poll_bounded {R} (glue : Glue R)
      (Hclock : forall r k, (inject_Z (Z.of_nat k) <= snd (wait glue r k))%Q)
      (fuel : nat) :
  forall (attempt : nat) (c : GlueConnection) (r : R),
    let o := poll glue fuel attempt c r in
    let N := Z.to_nat (timeout_of c) + 2 in
    attempt < N ->
    N <= attempt + fuel ->
    result o <> OutOfFuel /\ attempt + state_checks (trace o) <= N.
Proof.
  induction fuel as [|fuel IH]; intros attempt c r o N Ha Hf; subst o N.
  - lia.
  - rewrite poll_S. specialize (Hclock r attempt).
    destruct (wait glue r attempt) as [r0 elapsed]. cbn [snd] in Hclock.
    pose proof (state_frame glue c r0) as F. cbv zeta in F.
    destruct (state glue c r0) as [b c1 r1 t1].
    cbn [conn result trace] in F.
    destruct F as (Fc & Fs & Fr & Fk & Fn & _). subst b.
    assert (timeout_of c1 = timeout_of c) as Ht
        by (unfold timeout_of; now rewrite Fc).
    destruct (opt_str_eqb (_state c1) (Some READY)).
    + cbn [conn result trace].
      change (EvWait attempt elapsed :: t1)
        with ([EvWait attempt elapsed] ++ t1).
      rewrite state_checks_app, Fk. cbn. split; [discriminate | lia].
    + destruct (Qgt_bool elapsed (inject_Z (timeout_of c1))) eqn:E.
      * cbn [conn result trace].
        change (EvWait attempt elapsed :: t1)
          with ([EvWait attempt elapsed] ++ t1).
        rewrite state_checks_app, Fk. cbn. split; [discriminate | lia].
      * unfold Qgt_bool in E. apply negb_false_iff in E.
        apply Qle_bool_iff in E.
        assert (Z.of_nat attempt <= timeout_of c1)%Z as Hle
            by (rewrite Zle_Qle; eapply Qle_trans; eassumption).
        specialize (IH (S attempt) c1 r1). cbv zeta in IH.
        rewrite Ht in *.
        destruct (poll glue fuel (S attempt) c1 r1) as [b c2 r2 t2].
        cbn [conn result trace] in *.
        destruct IH as [Ir Ik]; [lia | lia |].
        change (EvWait attempt elapsed :: t1 ++ t2)
          with ([EvWait attempt elapsed] ++ t1 ++ t2).
        rewrite !state_checks_app, Fk. cbn. split; [exact Ir | lia].
Qed.

(** On a clock that runs late -- every element after the first comes
    strictly later than its nominal second -- and with a timeout of at
    least one second, the loop ends within [timeout + 1] iterations. *)
Lemma poll_bounded_late {R} (glue : Glue R)
      (Hclock : forall r k,
          0 < k -> (inject_Z (Z.of_nat k) < snd (wait glue r k))%Q)
      (fuel : nat) :
  forall (attempt : nat) (c : GlueConnection) (r : R),
    let o := poll glue fuel attempt c r in
    let N := Z.to_nat (timeout_of c) + 1 in
    (1 <= timeout_of c)%Z ->
    attempt < N ->
    N <= attempt + fuel ->
    result o <> OutOfFuel /\ attempt + state_checks (trace o) <= N.
Proof.
  induction fuel as [|fuel IH]; intros attempt c r o N H1 Ha Hf; subst o N.
  - lia.
  - rewrite poll_S. specialize (Hclock r attempt).
    destruct (wait glue r attempt) as [r0 elapsed]. cbn [snd] in Hclock.
    pose proof (state_frame glue c r0) as F. cbv zeta in F.
    destruct (state glue c r0) as [b c1 r1 t1].
    cbn [conn result trace] in F.
    destruct F as (Fc & Fs & Fr & Fk & Fn & _). subst b.
    assert (timeout_of c1 = timeout_of c) as Ht
        by (unfold timeout_of; now rewrite Fc).
    destruct (opt_str_eqb (_state c1) (Some READY)).
    + cbn [conn result trace].
      change (EvWait attempt elapsed :: t1)
        with ([EvWait attempt elapsed] ++ t1).
      rewrite state_checks_app, Fk. cbn. split; [discriminate | lia].
    + destruct (Qgt_bool elapsed (inject_Z (timeout_of c1))) eqn:E.
      * cbn [conn result trace].
        change (EvWait attempt elapsed :: t1)
          with ([EvWait attempt elapsed] ++ t1).
        rewrite state_checks_app, Fk. cbn. split; [discriminate | lia].
      * unfold Qgt_bool in E. apply negb_false_iff in E.
        apply Qle_bool_iff in E.
        assert (attempt = 0 \/ (Z.of_nat attempt < timeout_of c1)%Z) as Hlt.
        { destruct attempt as [|k]; [now left | right].
          rewrite Zlt_Qlt. eapply Qlt_le_trans; [apply Hclock; lia|].
          exact E. }
        specialize (IH (Datatypes.S attempt) c1 r1). cbv zeta in IH.
        rewrite Ht in *.
        destruct (poll glue fuel (Datatypes.S attempt) c1 r1)
          as [b c2 r2 t2].
        cbn [conn result trace] in *.
        destruct IH as [Ir Ik]; [lia | lia | lia |].
        change (EvWait attempt elapsed :: t1 ++ t2)
          with ([EvWait attempt elapsed] ++ t1 ++ t2).
        rewrite !state_checks_app, Fk. cbn. split; [exact Ir | lia].
Qed.

(** More budget than the loop needs changes nothing. *)
Lemma poll_fuel_irrelevant {R} (glue : Glue R) (fuel n : nat) :
  forall (attempt : nat) (c : GlueConnection) (r : R),
    result (poll glue fuel attempt c r) <> OutOfFuel ->
    poll glue (fuel + n) attempt c r = poll glue fuel attempt c r.
Proof.
  induction fuel as [|fuel IH]; intros attempt c r H.
  - now elim H.
  - cbn [Nat.add]. rewrite !poll_S in *.
    destruct (wait glue r attempt) as [r0 elapsed].
    destruct (state glue c r0) as [[s| |] c1 r1 t1]; try reflexivity.
    destruct (opt_str_eqb s (Some READY)); [reflexivity|].
    destruct (Qgt_bool elapsed (inject_Z (timeout_of c1))); [reflexivity|].
    rewrite IH; [reflexivity|].
    destruct (poll glue fuel (Datatypes.S attempt) c1 r1) as [b c2 r2 t2].
    exact H.
Qed.

Lemma waits_app (t1 t2 : list event) :
  waits (t1 ++ t2) = waits t1 ++ waits t2.
Proof.
  induction t1 as [|ev t1 IH]; [reflexivity|].
  destruct ev; cbn; now rewrite ?IH.
Qed.

Lemma waits_length (t : list event) :
  length (waits t) = state_checks t.
Proof.
  unfold state_checks. induction t as [|ev t IH]; [reflexivity|].
  destruct ev; cbn; now rewrite ?IH.
Qed.

Lemma waits_no_checks (t : list event) :
  state_checks t = 0 -> waits t = [].
Proof.
  rewrite <- waits_length. now destruct (waits t).
Qed.

Lemma Qgt_bool_spec (a b : Q) :
  if Qgt_bool a b then (b < a)%Q else (a <= b)%Q.
Proof.
  unfold Qgt_bool. destruct (Qle_bool a b) eqn:E; cbn [negb].
  - now apply Qle_bool_iff.
  - apply Qnot_le_lt. intros H. apply Qle_bool_iff in H. congruence.
Qed.

(** How the loop ends, read from the clock.  It goes on only while the
    elapsed time it was given is within the timeout, and it raises only
    in an iteration whose elapsed time is past the timeout, after that
    iteration's read of the state: unless FAILED is cached, that read is
    the [get_session] call that ends the trace. *)
Lemma poll_deadline {R} (glue : Glue R) (fuel : nat) :
  forall (attempt : nat) (c : GlueConnection) (r : R),
    let o := poll glue fuel attempt c r in
    let limit := inject_Z (timeout_of c) in
    match result o with
    | Ok _ =>
        exists early last,
          waits (trace o) = early ++ [last]
          /\ Forall (fun elapsed => (elapsed <= limit)%Q) early
    | Raise _ =>
        exists early last,
          waits (trace o) = early ++ [last]
          /\ Forall (fun elapsed => (elapsed <= limit)%Q) early
          /\ (limit < last)%Q
          /\ (_state (conn o) <> Some FAILED ->
              exists pre k sid reply,
                trace o = pre ++ [EvWait k last; EvGetSession sid reply])
    | OutOfFuel =>
        Forall (fun elapsed => (elapsed <= limit)%Q) (waits (trace o))
    end.
Proof.
  induction fuel as [|fuel IH]; intros attempt c r o limit; subst o limit.
  - cbn. constructor.
  - rewrite poll_S. destruct (wait glue r attempt) as [r0 elapsed].
    pose proof (state_frame glue c r0) as F. cbv zeta in F.
    pose proof (state_run glue c r0) as Hrun.
    destruct (state glue c r0) as [b c1 r1 t1].
    cbn [conn result trace] in F.
    destruct F as (Fc & _ & Fr & Fk & _ & _). subst b.
    assert (timeout_of c1 = timeout_of c) as Ht
        by (unfold timeout_of; now rewrite Fc).
    assert (waits t1 = []) as Hw by now apply waits_no_checks.
    assert (_state c1 <> Some FAILED -> _state c1 <> Some READY ->
            exists sid reply, t1 = [EvGetSession sid reply]) as Hread.
    { intros Hnf Hnr. destruct (py_in (_state c) [FAILED; READY]) eqn:E.
      - injection Hrun as _ Hc _ _. subst c1.
        apply py_in_sticky in E. destruct E; contradiction.
      - destruct (get_session glue r0 (session_id c)) as [r' reply].
        injection Hrun as _ _ _ ->. eauto. }
    rewrite Ht.
    destruct (opt_str_eqb (_state c1) (Some READY)) eqn:Er.
    + cbn [result trace waits]. rewrite Hw.
      exists [], elapsed. split; [reflexivity | constructor].
    + pose proof (Qgt_bool_spec elapsed (inject_Z (timeout_of c))) as Q.
      destruct (Qgt_bool elapsed (inject_Z (timeout_of c))).
      * cbn [result trace conn waits]. rewrite Hw.
        exists [], elapsed. split; [reflexivity|].
        split; [constructor|]. split; [exact Q|].
        intros Hnf. destruct (Hread Hnf) as (sid & reply & ->).
        { intros H. apply opt_str_eqb_eq in H. congruence. }
        exists [], attempt, sid, reply. reflexivity.
      * specialize (IH (S attempt) c1 r1). cbv zeta in IH.
        rewrite Ht in IH.
        destruct (poll glue fuel (S attempt) c1 r1) as [b c2 r2 t2].
        cbn [conn result trace waits] in *.
        rewrite waits_app, Hw. cbn [app].
        destruct b as [v|e|].
        -- destruct IH as (early & last & Hws & Hall).
           exists (elapsed :: early), last. rewrite Hws.
           split; [reflexivity | now constructor].
        -- destruct IH as (early & last & Hws & Hall & Hlast & Hend).
           exists (elapsed :: early), last. rewrite Hws.
           split; [reflexivity|]. split; [now constructor|].
           split; [exact Hlast|].
           intros Hnf. destruct (Hend Hnf) as (pre & k & sid & reply & ->).
           exists (EvWait attempt elapsed :: t1 ++ pre), k, sid, reply.
           cbn [app]. now rewrite <- app_assoc.
        -- now constructor.
Qed.

(** ** [_start_session], [_init_session] and the two halves of [connect] *)

Lemma start_session_run {R} (glue : Glue R) (fuel : nat)
      (c : GlueConnection) (r : R) :
  _start_session glue fuel c r =
  let (r0, u) := uuid4 glue r in
  let req := start_session_request (credentials c) u in
  let (r1, reply) := create_session glue r0 req in
  match reply with
  | inl e =>
      if is_ClientError e then
        mkOut (Raise (instantiate FailedToConnectException))
              (mkConn (credentials c) (_client (with_client c)) (_session c)
                      (Some FAILED))
              r1 [EvUuid u; EvCreateSession req reply]
      else
        mkOut (Raise e) (with_client c) r1
              [EvUuid u; EvCreateSession req reply]
  | inr response =>
      match poll glue fuel 0
                 (mkConn (credentials c) (_client (with_client c))
                         (Some response) (_state c)) r1 with
      | mkOut b c2 r2 t2 =>
          mkOut b c2 r2 (EvUuid u :: EvCreateSession req reply :: t2)
      end
  end.
Proof.
  unfold _start_session. run_monad. unfold with_client.
  destruct (uuid4 glue r) as [r0 u].
  destruct c as [cr [cl|] se st];
    cbn [credentials _client _session _state];
    (destruct (create_session glue r0 _) as [r1 [e|response]];
     [ destruct (is_ClientError e); reflexivity
     | cbn [credentials _client _session _state];
       match goal with
       | |- context [poll glue fuel 0 ?c' ?r'] =>
           destruct (poll glue fuel 0 c' r') as [[v| |] c2 r2 t2]
       end; reflexivity ]).
Qed.

Lemma finish_run {R} (glue : Glue R) (SQLPROXY : string)
      (c : GlueConnection) (r : R) :
  finish glue SQLPROXY c r =
  match session_id c with
  | None => mkOut (Raise TypeError) c r []
  | Some sid =>
      let (r1, reply1) := statement_execute glue r (Some sid) SQLPROXY in
      match reply1 with
      | inl e =>
          mkOut (Raise e) (with_client c) r1
                [EvStatement (Some sid) SQLPROXY reply1]
      | inr _ =>
          let (r2, reply2) :=
            statement_execute glue r1 (Some sid) (use_database c) in
          mkOut (match reply2 with
                 | inl e => Raise e
                 | inr _ => Ok (Some sid)
                 end)
                (match reply2 with
                 | inl _ => with_client c
                 | inr _ => persist (with_client c)
                 end)
                r2
                [EvStatement (Some sid) SQLPROXY reply1;
                 EvStatement (Some sid) (use_database c) reply2]
      end
  end.
Proof.
  unfold finish, _init_session, run_statement. run_monad.
  unfold with_client, persist, use_database, session_id.
  destruct c as [cr cl [[[[[sid|] status]|]]|] st];
    cbn [credentials _client _session _state Session Id];
    try reflexivity;
    destruct cl as [cl|];
    cbn [credentials _client _session _state Session Id];
    (destruct (statement_execute glue r (Some sid) SQLPROXY)
       as [r1 [e|[]]]; [reflexivity|]);
    cbn [credentials _client _session _state Session Id];
    destruct (statement_execute glue r1 (Some sid) _) as [r2 [e|[]]];
    reflexivity.
Qed.

Lemma bind_assoc {R A B C} (m : M R A) (f : A -> M R B) (g : B -> M R C)
      (c : GlueConnection) (r : R) :
  bind (bind m f) g c r = bind m (fun x => bind (f x) g) c r.
Proof.
  unfold bind. destruct (m c r) as [[a| |] c1 r1 t1]; try reflexivity.
  destruct (f a c1 r1) as [[b| |] c2 r2 t2]; try reflexivity.
  destruct (g b c2 r2) as [d c3 r3 t3]. now rewrite app_assoc.
Qed.

Lemma connect_split {R} (glue : Glue R) (SQLPROXY : string) (fuel : nat)
      (c : GlueConnection) (r : R) :
  connect glue SQLPROXY fuel c r =
  match handshake glue fuel c r with
  | mkOut (Ok _) c1 r1 t1 =>
      match finish glue SQLPROXY c1 r1 with
      | mkOut b c2 r2 t2 => mkOut b c2 r2 (t1 ++ t2)
      end
  | mkOut (Raise e) c1 r1 t1 => mkOut (Raise e) c1 r1 t1
  | mkOut OutOfFuel c1 r1 t1 => mkOut OutOfFuel c1 r1 t1
  end.
Proof.
  transitivity
    (bind (handshake glue fuel) (fun _ => finish glue SQLPROXY) c r).
  - unfold handshake. rewrite bind_assoc. reflexivity.
  - unfold bind. destruct (handshake glue fuel c r) as [[[]| |] c1 r1 t1];
      reflexivity.
Qed.

Lemma handshake_run {R} (glue : Glue R) (fuel : nat) (c : GlueConnection)
      (r : R) :
  handshake glue fuel c r =
  if truthy (Credentials.session_id (credentials c)) then
    match state glue (reattached c) r with
    | mkOut (Ok (Some _)) c1 r1 t1 =>
        match state glue c1 r1 with
        | mkOut (Ok s) c2 r2 t2 =>
            if opt_str_eqb s (Some CLOSED) then
              match _start_session glue fuel c2 r2 with
              | mkOut (Ok started) c3 r3 t3 =>
                  mkOut (Ok tt)
                        (mkConn (credentials c3) (_client c3) started
                                (_state c3))
                        r3 (t1 ++ t2 ++ t3)
              | mkOut (Raise e) c3 r3 t3 =>
                  mkOut (Raise e) c3 r3 (t1 ++ t2 ++ t3)
              | mkOut OutOfFuel c3 r3 t3 =>
                  mkOut OutOfFuel c3 r3 (t1 ++ t2 ++ t3)
              end
            else mkOut (Ok tt) c2 r2 (t1 ++ t2)
        | mkOut (Raise e) c2 r2 t2 => mkOut (Raise e) c2 r2 (t1 ++ t2)
        | mkOut OutOfFuel c2 r2 t2 => mkOut OutOfFuel c2 r2 (t1 ++ t2)
        end
    | mkOut (Ok None) c1 r1 t1 => mkOut (Raise TypeError) c1 r1 t1
    | mkOut (Raise e) c1 r1 t1 => mkOut (Raise e) c1 r1 t1
    | mkOut OutOfFuel c1 r1 t1 => mkOut OutOfFuel c1 r1 t1
    end
  else
    match _start_session glue fuel c r with
    | mkOut (Ok _) c1 r1 t1 => mkOut (Ok tt) c1 r1 t1
    | mkOut (Raise e) c1 r1 t1 => mkOut (Raise e) c1 r1 t1
    | mkOut OutOfFuel c1 r1 t1 => mkOut OutOfFuel c1 r1 t1
    end.
Proof.
  unfold handshake. run_monad. unfold reattached.
  destruct (truthy (Credentials.session_id (credentials c))); cbn [negb].
  - destruct (state glue _ r) as [[[s1|]| |] c1 r1 t1];
      try reflexivity; cbn [app].
    + destruct (state glue c1 r1) as [[s2| |] c2 r2 t2];
        try reflexivity.
      destruct (opt_str_eqb s2 (Some CLOSED)).
      * destruct (_start_session glue fuel c2 r2) as [[v| |] c3 r3 t3];
          try reflexivity.
        cbn [app]. now rewrite ?app_nil_r.
      * cbn [app]. now rewrite ?app_nil_r.
    + cbn [app]. now rewrite ?app_nil_r.
  - destruct (_start_session glue fuel c r) as [[v| |] c1 r1 t1];
      try reflexivity.
    cbn [app]. now rewrite ?app_nil_r.
Qed.

(** Everything [_start_session] can do.  It issues exactly one
    [create_session] call; what follows is decided by the reply. *)
Lemma start_session_spec {R} (glue : Glue R) (fuel : nat)
      (c : GlueConnection) (r : R) :
  let o := _start_session glue fuel c r in
  credentials (conn o) = credentials c
  /\ exists u req reply post,
      trace o = EvUuid u :: EvCreateSession req reply :: post
      /\ creations post = []
      /\ state_checks post <= fuel
      /\ match reply with
         | inl e =>
             post = []
             /\ _session (conn o) = _session c
             /\ if is_ClientError e then
                  result o = Raise (instantiate FailedToConnectException)
                  /\ _state (conn o) = Some FAILED
                else result o = Raise e /\ _state (conn o) = _state c
         | inr response =>
             _session (conn o) = Some response
             /\ match result o with
                | Ok v => v = Some response /\ _state (conn o) = Some READY
                | Raise e =>
                    e = TimeoutError /\ _state (conn o) <> Some READY
                | OutOfFuel => True
                end
         end.
Proof.
  intros o. subst o. rewrite start_session_run.
  destruct (uuid4 glue r) as [r0 u]. cbv zeta.
  destruct (create_session glue r0 _) as [r1 [e|response]].
  - destruct (is_ClientError e) eqn:E; cbn [conn trace result];
      (split; [reflexivity|]);
      exists u; eexists; eexists; exists [];
      (split; [reflexivity|]);
      cbn beta iota; rewrite E; repeat split; cbn; lia.
  - match goal with
    | |- context [poll glue fuel 0 ?c' r1] =>
        pose proof (poll_frame glue fuel 0 c' r1) as P; cbv zeta in P;
        destruct (poll glue fuel 0 c' r1) as [b c2 r2 t2]
    end.
    cbn [conn trace result credentials _session] in *.
    destruct P as (Pc & Ps & Pn & Pk & Pr).
    split; [exact Pc|].
    exists u; eexists; eexists; exists t2.
    split; [reflexivity|]. cbn beta iota. repeat split; assumption.
Qed.

Lemma start_session_bounded {R} (glue : Glue R)
      (Hclock : forall r k, (inject_Z (Z.of_nat k) <= snd (wait glue r k))%Q)
      (fuel : nat) (c : GlueConnection) (r : R) :
  let o := _start_session glue fuel c r in
  Z.to_nat (timeout_of c) + 2 <= fuel ->
  result o <> OutOfFuel
  /\ state_checks (trace o) <= Z.to_nat (timeout_of c) + 2.
Proof.
  intros o Hf. subst o. rewrite start_session_run.
  destruct (uuid4 glue r) as [r0 u]. cbv zeta.
  destruct (create_session glue r0 _) as [r1 [e|response]].
  - destruct (is_ClientError e); cbn; split; (discriminate || lia).
  - match goal with
    | |- context [poll glue fuel 0 ?c' r1] =>
        pose proof (poll_bounded glue Hclock fuel 0 c' r1) as P;
        cbv zeta in P;
        destruct (poll glue fuel 0 c' r1) as [b c2 r2 t2]
    end.
    unfold timeout_of in *. cbn [conn trace result credentials] in *.
    destruct P as [Pr Pk]; [lia | lia |].
    split; [exact Pr|].
    change (EvUuid u :: EvCreateSession ?q ?p :: t2)
      with ([EvUuid u; EvCreateSession q p] ++ t2).
    rewrite state_checks_app. cbn. lia.
Qed.

Lemma state_closed_fetched {R} (glue : Glue R) (c : GlueConnection) (r : R) :
  let o := state glue c r in
  result o = Ok (Some CLOSED) -> fetched_closed (trace o) = true.
Proof.
  intros o. subst o. rewrite state_run.
  destruct (py_in (_state c) [FAILED; READY]) eqn:E.
  - cbn. intros H. apply py_in_sticky in E.
    destruct E as [E|E]; rewrite E in H; discriminate.
  - destruct (get_session glue r (session_id c)) as [r' reply].
    cbn. intros H. injection H as H. rewrite H. reflexivity.
Qed.

Lemma fetched_closed_app (t1 t2 : list event) :
  fetched_closed (t1 ++ t2) = fetched_closed t1 || fetched_closed t2.
Proof. apply existsb_app. Qed.

(** Everything the first half of [connect] can do: either the recorded
    session is kept and nothing is created, or exactly one session is
    created, after the reads that found the recorded one CLOSED. *)
Lemma handshake_spec {R} (glue : Glue R) (fuel : nat) (c : GlueConnection)
      (r : R) :
  let o := handshake glue fuel c r in
  credentials (conn o) = credentials c
  /\ ((truthy (Credentials.session_id (credentials c)) = true
       /\ creations (trace o) = []
       /\ state_checks (trace o) = 0
       /\ _session (conn o) = _session (reattached c)
       /\ (result o = Ok tt
           \/ (result o = Raise TypeError
               /\ exists reply,
                   trace o
                   = [EvGetSession (Credentials.session_id (credentials c))
                                   reply]
                   /\ observed_state reply = None)))
      \/
      (exists pre post u req reply,
          trace o = pre ++ EvUuid u :: EvCreateSession req reply :: post
          /\ creations pre = []
          /\ state_checks pre = 0
          /\ creations post = []
          /\ state_checks post <= fuel
          /\ (truthy (Credentials.session_id (credentials c)) = true ->
              fetched_closed pre = true)
          /\ match reply with
             | inl e =>
                 post = []
                 /\ if is_ClientError e then
                      result o = Raise (instantiate FailedToConnectException)
                      /\ _state (conn o) = Some FAILED
                    else result o = Raise e
             | inr response =>
                 match result o with
                 | Ok _ =>
                     _session (conn o) = Some response
                     /\ _state (conn o) = Some READY
                 | Raise e =>
                     e = TimeoutError /\ _state (conn o) <> Some READY
                 | OutOfFuel => True
                 end
             end)).
Proof.
  intros o. subst o. rewrite handshake_run.
  destruct (truthy (Credentials.session_id (credentials c))) eqn:Et.
  - pose proof (state_frame glue (reattached c) r) as F1. cbv zeta in F1.
    pose proof (state_run glue (reattached c) r) as Hrun1.
    destruct (state glue (reattached c) r) as [b1 c1 r1 t1].
    cbn [conn result trace] in F1.
    destruct F1 as (F1c & F1s & F1r & F1k & F1n & _). subst b1.
    change (credentials (reattached c)) with (credentials c) in F1c.
    destruct (_state c1) as [s1|] eqn:Es1.
    2:{ cbn [conn result trace]. split; [exact F1c|]. left.
        repeat split; auto. right. split; [reflexivity|].
        change (session_id (reattached c))
          with (Credentials.session_id (credentials c)) in Hrun1.
        destruct (py_in (_state (reattached c)) [FAILED; READY]) eqn:Ep.
        - exfalso. injection Hrun1 as Hs _ _ _.
          apply py_in_sticky in Ep. cbn [_state reattached] in Ep.
          destruct Ep; congruence.
        - destruct (get_session glue r
                                (Credentials.session_id (credentials c)))
            as [r' reply].
          injection Hrun1 as Hs _ _ ->. exists reply.
          split; [reflexivity|]. congruence. }
    clear Hrun1.
    pose proof (state_frame glue c1 r1) as F2. cbv zeta in F2.
    pose proof (state_closed_fetched glue c1 r1) as F2f. cbv zeta in F2f.
    destruct (state glue c1 r1) as [b2 c2 r2 t2].
    cbn [conn result trace] in F2, F2f.
    destruct F2 as (F2c & F2s & F2r & F2k & F2n & _). subst b2.
    destruct (opt_str_eqb (_state c2) (Some CLOSED)) eqn:Ec.
    + apply opt_str_eqb_eq in Ec.
      pose proof (start_session_spec glue fuel c2 r2) as P. cbv zeta in P.
      destruct (_start_session glue fuel c2 r2) as [b3 c3 r3 t3].
      cbn [conn result trace] in P.
      destruct P as (Pc & u & req & reply & post & Pt & Pn & Pk & Pm).
      assert (credentials
                (conn match b3 with
                      | Ok started =>
                          mkOut (Ok tt)
                                (mkConn (credentials c3) (_client c3) started
                                        (_state c3)) r3 (t1 ++ t2 ++ t3)
                      | Raise e => mkOut (Raise e) c3 r3 (t1 ++ t2 ++ t3)
                      | OutOfFuel => mkOut OutOfFuel c3 r3 (t1 ++ t2 ++ t3)
                      end) = credentials c) as Hc
          by (destruct b3; cbn; congruence).
      split; [exact Hc|]. right.
      exists (t1 ++ t2), post, u, req, reply.
      repeat split.
      * destruct b3; cbn [trace]; rewrite Pt, app_assoc; reflexivity.
      * now rewrite creations_app, F1n, F2n.
      * now rewrite state_checks_app, F1k, F2k.
      * exact Pn.
      * exact Pk.
      * intros _. rewrite fetched_closed_app, F2f; [apply orb_true_r|].
        now rewrite Ec.
      * destruct reply as [e|response].
        -- destruct Pm as (Pp & Ps & Pe). split; [exact Pp|].
           destruct (is_ClientError e).
           ++ destruct Pe as [Pe1 Pe2]. subst b3. cbn. auto.
           ++ destruct Pe as [Pe1 Pe2]. subst b3. reflexivity.
        -- destruct Pm as (Ps & Pe).
           destruct b3 as [v| |]; cbn; [|exact Pe|exact I].
           destruct Pe as [Pe1 Pe2]. subst v. auto.
    + cbn [conn result trace]. split; [congruence|]. left.
      repeat split; auto.
      * now rewrite creations_app, F1n, F2n.
      * now rewrite state_checks_app, F1k, F2k.
      * congruence.
  - pose proof (start_session_spec glue fuel c r) as P. cbv zeta in P.
    destruct (_start_session glue fuel c r) as [b3 c3 r3 t3].
    cbn [conn result trace] in P.
    destruct P as (Pc & u & req & reply & post & Pt & Pn & Pk & Pm).
    split; [destruct b3; exact Pc|]. right.
    exists [], post, u, req, reply.
    repeat split; try assumption; try reflexivity.
    + destruct b3; cbn [trace]; exact Pt.
    + discriminate.
    + destruct reply as [e|response].
      * destruct Pm as (Pp & Ps & Pe). split; [exact Pp|].
        destruct (is_ClientError e).
        -- destruct Pe as [Pe1 Pe2]. subst b3. cbn. auto.
        -- destruct Pe as [Pe1 Pe2]. subst b3. reflexivity.
      * destruct Pm as (Ps & Pe).
        destruct b3 as [v| |]; cbn; [|exact Pe|exact I].
        destruct Pe as [Pe1 Pe2]. auto.
Qed.

Lemma handshake_bounded {R} (glue : Glue R)
      (Hclock : forall r k, (inject_Z (Z.of_nat k) <= snd (wait glue r k))%Q)
      (fuel : nat) (c : GlueConnection) (r : R) :
  let o := handshake glue fuel c r in
  Z.to_nat (timeout_of c) + 2 <= fuel ->
  result o <> OutOfFuel
  /\ state_checks (trace o) <= Z.to_nat (timeout_of c) + 2.
Proof.
  intros o Hf. subst o. rewrite handshake_run.
  destruct (truthy (Credentials.session_id (credentials c))).
  - pose proof (state_frame glue (reattached c) r) as F1. cbv zeta in F1.
    destruct (state glue (reattached c) r) as [b1 c1 r1 t1].
    cbn [conn result trace] in F1.
    destruct F1 as (F1c & F1s & F1r & F1k & F1n & _). subst b1.
    change (credentials (reattached c)) with (credentials c) in F1c.
    destruct (_state c1) as [s1|].
    2:{ cbn [result trace]. rewrite F1k. split; [discriminate | lia]. }
    pose proof (state_frame glue c1 r1) as F2. cbv zeta in F2.
    destruct (state glue c1 r1) as [b2 c2 r2 t2].
    cbn [conn result trace] in F2.
    destruct F2 as (F2c & F2s & F2r & F2k & F2n & _). subst b2.
    destruct (opt_str_eqb (_state c2) (Some CLOSED)).
    + pose proof (start_session_bounded glue Hclock fuel c2 r2) as P.
      cbv zeta in P.
      assert (timeout_of c2 = timeout_of c) as Ht
          by (unfold timeout_of; congruence).
      rewrite Ht in P.
      destruct (_start_session glue fuel c2 r2) as [b3 c3 r3 t3].
      cbn [conn result trace] in P. destruct (P Hf) as [Pr Pk].
      destruct b3 as [v| |]; cbn [result trace];
        rewrite !state_checks_app, F1k, F2k;
        (split; [discriminate || now elim Pr | exact Pk]).
    + cbn [result trace]. rewrite state_checks_app, F1k, F2k.
      split; [discriminate | lia].
  - pose proof (start_session_bounded glue Hclock fuel c r) as P.
    cbv zeta in P.
    destruct (_start_session glue fuel c r) as [b3 c3 r3 t3].
    cbn [conn result trace] in P. destruct (P Hf) as [Pr Pk].
    destruct b3 as [v| |]; cbn [result trace];
      (split; [discriminate || now elim Pr | exact Pk]).
Qed.

(** The same, for [_start_session] and for the first half of [connect],
    when the creation was accepted and they raise. *)
Lemma start_session_deadline {R} (glue : Glue R) (fuel : nat)
      (c : GlueConnection) (r : R) (e : exn) (req : CreateSessionRequest)
      (response : Response) :
  let o := _start_session glue fuel c r in
  let limit := inject_Z (timeout_of c) in
  result o = Raise e ->
  In (EvCreateSession req (inr response)) (trace o) ->
  exists early last,
    waits (trace o) = early ++ [last]
    /\ Forall (fun elapsed => (elapsed <= limit)%Q) early
    /\ (limit < last)%Q
    /\ (_state (conn o) <> Some FAILED ->
        exists pre k sid reply,
          trace o = pre ++ [EvWait k last; EvGetSession sid reply]).
Proof.
  intros o limit. subst o limit. rewrite start_session_run.
  destruct (uuid4 glue r) as [r0 u]. cbv zeta.
  destruct (create_session glue r0 _) as [r1 [e'|response']].
  - intros _ Hin. exfalso.
    destruct (is_ClientError e'); cbn [trace] in Hin;
      destruct Hin as [H|[H|[]]]; discriminate.
  - match goal with
    | |- context [poll glue fuel 0 ?c' r1] =>
        pose proof (poll_deadline glue fuel 0 c' r1) as P; cbv zeta in P;
        destruct (poll glue fuel 0 c' r1) as [b c2 r2 t2]
    end.
    unfold timeout_of in *. cbn [conn result trace credentials waits] in *.
    intros -> _.
    destruct P as (early & last & Hws & Hall & Hlast & Hend).
    exists early, last. repeat (split; [assumption|]).
    intros Hnf. destruct (Hend Hnf) as (pre & k & sid & reply & ->).
    now exists (EvUuid u :: EvCreateSession
                         (start_session_request (credentials c) u)
                         (inr response') :: pre), k, sid, reply.
Qed.

Lemma state_not_created {R} (glue : Glue R) (c : GlueConnection) (r : R)
      (req : CreateSessionRequest) (reply : exn + Response) :
  ~ In (EvCreateSession req reply) (trace (state glue c r)).
Proof.
  rewrite state_run. destruct (py_in (_state c) [FAILED; READY]).
  - intros [].
  - destruct (get_session glue r (session_id c)) as [r' reply'].
    intros [H|[]]. discriminate.
Qed.

Lemma handshake_deadline {R} (glue : Glue R) (fuel : nat)
      (c : GlueConnection) (r : R) (e : exn) (req : CreateSessionRequest)
      (response : Response) :
  let o := handshake glue fuel c r in
  let limit := inject_Z (timeout_of c) in
  result o = Raise e ->
  In (EvCreateSession req (inr response)) (trace o) ->
  exists early last,
    waits (trace o) = early ++ [last]
    /\ Forall (fun elapsed => (elapsed <= limit)%Q) early
    /\ (limit < last)%Q
    /\ (_state (conn o) <> Some FAILED ->
        exists pre k sid reply,
          trace o = pre ++ [EvWait k last; EvGetSession sid reply]).
Proof.
  intros o limit. subst o limit. rewrite handshake_run.
  destruct (truthy (Credentials.session_id (credentials c))).
  - pose proof (state_frame glue (reattached c) r) as F1. cbv zeta in F1.
    pose proof (state_not_created glue (reattached c) r req (inr response))
      as N1.
    destruct (state glue (reattached c) r) as [b1 c1 r1 t1].
    cbn [conn result trace] in F1, N1.
    destruct F1 as (F1c & _ & F1r & F1k & _ & _). subst b1.
    change (credentials (reattached c)) with (credentials c) in F1c.
    destruct (_state c1) as [s1|].
    2:{ cbn [trace]. intros _ Hin. contradiction. }
    pose proof (state_frame glue c1 r1) as F2. cbv zeta in F2.
    pose proof (state_not_created glue c1 r1 req (inr response)) as N2.
    destruct (state glue c1 r1) as [b2 c2 r2 t2].
    cbn [conn result trace] in F2, N2.
    destruct F2 as (F2c & _ & F2r & F2k & _ & _). subst b2.
    destruct (opt_str_eqb (_state c2) (Some CLOSED)).
    2:{ cbn [result]. discriminate. }
    pose proof (start_session_deadline glue fuel c2 r2 e req response) as P.
    cbv zeta in P.
    assert (timeout_of c2 = timeout_of c) as Ht
        by (unfold timeout_of; congruence).
    rewrite Ht in P.
    destruct (_start_session glue fuel c2 r2) as [[v|e'|] c3 r3 t3];
      cbn [conn result trace] in *; try discriminate.
    intros He Hin. injection He as ->.
    assert (In (EvCreateSession req (inr response)) t3) as Hin3.
    { apply in_app_or in Hin. destruct Hin as [Hin|Hin]; [contradiction|].
      apply in_app_or in Hin. destruct Hin as [Hin|Hin]; [contradiction|].
      exact Hin. }
    destruct (P eq_refl Hin3)
      as (early & last & Hws & Hall & Hlast & Hend).
    exists early, last.
    rewrite !waits_app, (waits_no_checks t1 F1k), (waits_no_checks t2 F2k).
    repeat (split; [assumption|]).
    intros Hnf. destruct (Hend Hnf) as (pre & k & sid & reply & ->).
    exists (t1 ++ t2 ++ pre), k, sid, reply. now rewrite <- !app_assoc.
  - pose proof (start_session_deadline glue fuel c r e req response) as P.
    cbv zeta in P.
    destruct (_start_session glue fuel c r) as [[v|e'|] c3 r3 t3];
      cbn [conn result trace] in *; try discriminate.
    intros He. injection He as ->. now apply P.
Qed.

(** Everything the second half of [connect] can do. *)
Lemma finish_spec {R} (glue : Glue R) (SQLPROXY : string)
      (c : GlueConnection) (r : R) :
  let o := finish glue SQLPROXY c r in
  creations (trace o) = []
  /\ state_checks (trace o) = 0
  /\ fetched_closed (trace o) = false
  /\ _state (conn o) = _state c
  /\ match result o with
     | Ok v =>
         v = session_id c
         /\ (exists sid, v = Some sid)
         /\ Credentials.session_id (credentials (conn o)) = v
         /\ session_id (conn o) = v
     | Raise e =>
         (session_id c = None /\ e = TypeError /\ trace o = [])
         \/ exists sid code, In (EvStatement sid code (inl e)) (trace o)
     | OutOfFuel => False
     end.
Proof.
  intros o. subst o. rewrite finish_run.
  destruct (session_id c) as [sid|] eqn:Es.
  2:{ cbn. repeat split. left. auto. }
  destruct (statement_execute glue r (Some sid) SQLPROXY) as [r1 [e|[]]].
  { cbn. repeat split. right. eauto. }
  destruct (statement_execute glue r1 (Some sid) (use_database c))
    as [r2 [e|[]]].
  { cbn. repeat split. right. eauto. }
  cbn. repeat split; eauto.
Qed.

(** The three ways the second half of [connect] can go on a current
    session id [sid], with what it submits in each. *)
Lemma finish_cases {R} (glue : Glue R) (SQLPROXY : string)
      (c : GlueConnection) (r : R) (sid : string) :
  session_id c = Some sid ->
  let o := finish glue SQLPROXY c r in
  (exists e,
      result o = Raise e
      /\ trace o = [EvStatement (Some sid) SQLPROXY (inl e)])
  \/ (exists e,
         result o = Raise e
         /\ trace o = [EvStatement (Some sid) SQLPROXY (inr tt);
                       EvStatement (Some sid) (use_database c) (inl e)])
  \/ (result o = Ok (Some sid)
      /\ trace o = [EvStatement (Some sid) SQLPROXY (inr tt);
                    EvStatement (Some sid) (use_database c) (inr tt)]).
Proof.
  intros Hs o. subst o. rewrite finish_run, Hs.
  destruct (statement_execute glue r (Some sid) SQLPROXY) as [r1 [e|[]]].
  { left. now exists e. }
  destruct (statement_execute glue r1 (Some sid) (use_database c))
    as [r2 [e|[]]].
  - right. left. now exists e.
  - right. right. split; reflexivity.
Qed.

Lemma in_creations (ev : event) (t : list event) :
  In ev t -> is_create ev = true -> In ev (creations t).
Proof. intros H E. apply filter_In. auto. Qed.

Lemma start_session_fuel_irrelevant {R} (glue : Glue R) (fuel n : nat)
      (c : GlueConnection) (r : R) :
  result (_start_session glue fuel c r) <> OutOfFuel ->
  _start_session glue (fuel + n) c r = _start_session glue fuel c r.
Proof.
  rewrite !start_session_run.
  destruct (uuid4 glue r) as [r0 u]. cbv zeta.
  destruct (create_session glue r0 _) as [r1 [e|response]];
    [reflexivity|].
  intros H. rewrite poll_fuel_irrelevant; [reflexivity|].
  match goal with
  | |- context [poll glue fuel 0 ?c' r1] =>
      destruct (poll glue fuel 0 c' r1) as [b c2 r2 t2]
  end.
  exact H.
Qed.

(** The answer of [connect] does not depend on the budget, once the
    budget is enough for it to answer. *)
Lemma connect_fuel_irrelevant {R} (glue : Glue R) (SQLPROXY : string)
      (fuel n : nat) (c : GlueConnection) (r : R) :
  result (connect glue SQLPROXY fuel c r) <> OutOfFuel ->
  connect glue SQLPROXY (fuel + n) c r = connect glue SQLPROXY fuel c r.
Proof.
  rewrite !connect_split, !handshake_run.
  destruct (truthy (Credentials.session_id (credentials c))).
  - destruct (state glue (reattached c) r) as [[[s1|]| |] c1 r1 t1];
      try reflexivity.
    destruct (state glue c1 r1) as [[s2| |] c2 r2 t2]; try reflexivity.
    destruct (opt_str_eqb s2 (Some CLOSED)); [|reflexivity].
    intros H. rewrite start_session_fuel_irrelevant; [reflexivity|].
    destruct (_start_session glue fuel c2 r2) as [[v| |] c3 r3 t3];
      try discriminate.
    now elim H.
  - intros H. rewrite start_session_fuel_irrelevant; [reflexivity|].
    destruct (_start_session glue fuel c r) as [[v| |] c3 r3 t3];
      try discriminate.
    now elim H.
Qed.

(** ** [connect] *)

(** C4. What [connect] does when the service rejects the creation.  If
    it issues a [create_session] call that raises [ClientError], the
    cached state becomes FAILED and the rejected call is the last thing
    [connect] did: the events before it hold no other [create_session]
    call and no iteration of the poll loop, and none follows (no poll, no
    retry).  The exception that leaves [connect], however, is not
    [FailedToConnectException]: the handler raises the class without the
    message its constructor requires, and the [TypeError] of that failed
    construction is what the caller gets. *)
Theorem connect_create_rejected {R} (glue : Glue R) (SQLPROXY : string)
        (fuel : nat) (c : GlueConnection) (r : R)
        (req : CreateSessionRequest) :
  let o := connect glue SQLPROXY fuel c r in
  In (EvCreateSession req (inl ClientError)) (trace o) ->
  result o = Raise TypeError
  /\ result o <> Raise FailedToConnectException
  /\ _state (conn o) = Some FAILED
  /\ exists pre,
      trace o = pre ++ [EvCreateSession req (inl ClientError)]
      /\ creations pre = []
      /\ state_checks pre = 0.
Proof.
  intros o Hin. subst o. rewrite connect_split in *.
  pose proof (handshake_spec glue fuel c r) as H. cbv zeta in H.
  destruct (handshake glue fuel c r) as [bh ch rh th].
  cbn [conn result trace] in H. destruct H as [_ H].
  pose proof (finish_spec glue SQLPROXY ch rh) as F. cbv zeta in F.
  destruct (finish glue SQLPROXY ch rh) as [bf cf rf tf].
  cbn [conn result trace] in F. destruct F as (Fn & _).
  assert (In (EvCreateSession req (inl ClientError)) (creations (th ++ tf)))
    as Hc.
  { apply in_creations; [|reflexivity].
    destruct bh as [[]| |]; cbn [trace] in Hin;
      [exact Hin | apply in_or_app; now left ..]. }
  rewrite creations_app, Fn, app_nil_r in Hc. clear Hin.
  destruct H as [(_ & Hn & _) | (pre & post & u & req' & reply & Ht & Hpn
                                 & Hpk & Hqn & _ & _ & Hm)].
  - rewrite Hn in Hc. destruct Hc.
  - subst th.
    change (EvUuid u :: EvCreateSession req' reply :: post)
      with ([EvUuid u; EvCreateSession req' reply] ++ post) in Hc.
    rewrite !creations_app, Hpn, Hqn in Hc. cbn in Hc.
    destruct Hc as [Hc|Hc]; [|contradiction].
    inversion Hc; subst req' reply; clear Hc.
    destruct Hm as [-> [Hr Hs]]. cbn [is_ClientError exn_eqb] in *.
    destruct bh as [[]|e'|]; try discriminate. cbn [result conn trace].
    injection Hr as ->.
    split; [reflexivity|]. split; [discriminate|]. split; [assumption|].
    exists (pre ++ [EvUuid u]). rewrite <- app_assoc.
    repeat split.
    + now rewrite creations_app, Hpn.
    + now rewrite state_checks_app, Hpk.
Qed.

(** C3 (as amended). On a clock where the [k]-th element of [wait(1)]
    comes at least [k] seconds after the start (one second of sleep before
    every iteration but the first), [connect] always ends, after at most
    [timeout + 2] iterations of the poll loop.  If a session was created
    and the state never became READY -- READY is kept once seen, so this
    is to say that the state cached at the end is not READY -- it ends by
    raising [TimeoutError], and it does so because of the clock: the
    elapsed time of every iteration but the last was within the timeout
    (the deadline was checked, and passed, each time), the elapsed time of
    the last one is past it, and the raise comes after that iteration's
    read of the state -- unless FAILED is cached, the trace ends with the
    wait and the [get_session] call of that read. *)
Theorem connect_provisioning_timeout {R} (glue : Glue R) (SQLPROXY : string)
        (fuel : nat) (c : GlueConnection) (r : R)
        (Hclock : forall r k,
            (inject_Z (Z.of_nat k) <= snd (wait glue r k))%Q)
        (Hfuel : Z.to_nat (timeout_of c) + 2 <= fuel) :
  let o := connect glue SQLPROXY fuel c r in
  let limit := inject_Z (timeout_of c) in
  result o <> OutOfFuel
  /\ state_checks (trace o) <= Z.to_nat (timeout_of c) + 2
  /\ forall req response,
      In (EvCreateSession req (inr response)) (trace o) ->
      _state (conn o) <> Some READY ->
      result o = Raise TimeoutError
      /\ (exists early last,
             waits (trace o) = early ++ [last]
             /\ Forall (fun elapsed => (elapsed <= limit)%Q) early
             /\ (limit < last)%Q)
      /\ (_state (conn o) <> Some FAILED ->
          exists pre k last sid reply,
            trace o = pre ++ [EvWait k last; EvGetSession sid reply]
            /\ (limit < last)%Q).
Proof.
  intros o limit. subst o limit. rewrite connect_split.
  pose proof (handshake_spec glue fuel c r) as H. cbv zeta in H.
  pose proof (handshake_bounded glue Hclock fuel c r) as B. cbv zeta in B.
  pose proof (fun e => handshake_deadline glue fuel c r e) as D.
  cbv zeta in D.
  destruct (handshake glue fuel c r) as [bh ch rh th].
  cbn [conn result trace] in H, B. destruct H as [_ H].
  destruct (B Hfuel) as [Br Bk]. clear B.
  pose proof (finish_spec glue SQLPROXY ch rh) as F. cbv zeta in F.
  destruct (finish glue SQLPROXY ch rh) as [bf cf rf tf].
  cbn [conn result trace] in F. destruct F as (Fn & Fk & _ & Fs & Fr).
  split; [|split].
  - destruct bh as [[]| |]; cbn [result]; try discriminate.
    + destruct bf; try discriminate. destruct Fr.
    + now elim Br.
  - destruct bh as [[]| |]; cbn [trace]; try exact Bk.
    rewrite state_checks_app, Fk. lia.
  - intros req response Hin Hstate.
    assert (In (EvCreateSession req (inr response)) (creations (th ++ tf)))
      as Hc.
    { apply in_creations; [|reflexivity].
      destruct bh as [[]| |]; cbn [trace] in Hin;
        [exact Hin | apply in_or_app; now left ..]. }
    rewrite creations_app, Fn, app_nil_r in Hc. clear Hin.
    destruct H as [(_ & Hn & _) | (pre & post & u & req' & reply & Ht & Hpn
                                   & Hpk & Hqn & _ & _ & Hm)].
    + rewrite Hn in Hc. destruct Hc.
    + subst th.
      change (EvUuid u :: EvCreateSession req' reply :: post)
        with ([EvUuid u; EvCreateSession req' reply] ++ post) in Hc.
      rewrite !creations_app, Hpn, Hqn in Hc. cbn in Hc.
      destruct Hc as [Hc|Hc]; [|contradiction].
      inversion Hc; subst req' reply; clear Hc.
      destruct bh as [[]|e|]; cbn [result conn trace] in *.
      * destruct Hm as [_ Hm]. congruence.
      * destruct Hm as [-> _]. split; [reflexivity|].
        destruct (D TimeoutError req response eq_refl)
          as (early & last & Hws & Hall & Hlast & Hend).
        { apply in_or_app. right. right. now left. }
        split; [now exists early, last|].
        intros Hnf. destruct (Hend Hnf) as (pre' & k & sid & reply & Ht).
        now exists pre', k, last, sid, reply.
      * now elim Br.
Qed.

Lemma connect_ok_persists {R} (glue : Glue R) (SQLPROXY : string)
      (fuel : nat) (c : GlueConnection) (r : R) (sid : option string) :
  let o := connect glue SQLPROXY fuel c r in
  result o = Ok sid ->
  Credentials.session_id (credentials (conn o)) = sid
  /\ session_id (conn o) = sid
  /\ exists s, sid = Some s.
Proof.
  intros o. subst o. rewrite connect_split.
  destruct (handshake glue fuel c r) as [[[]| |] ch rh th];
    try discriminate.
  pose proof (finish_spec glue SQLPROXY ch rh) as F. cbv zeta in F.
  destruct (finish glue SQLPROXY ch rh) as [bf cf rf tf].
  cbn [conn result trace] in *. destruct F as (_ & _ & _ & _ & Fr).
  intros ->. destruct Fr as (_ & Fe & Fc & Fs). auto.
Qed.

(** Reconnecting on a connection whose credentials record a non-empty
    session id: unless a fetched state was CLOSED, nothing is created and
    the recorded id is the one returned. *)
Lemma connect_reuses_recorded {R} (glue : Glue R) (SQLPROXY : string)
      (fuel : nat) (c : GlueConnection) (r : R) :
  let o := connect glue SQLPROXY fuel c r in
  let sid := Credentials.session_id (credentials c) in
  truthy sid = true ->
  fetched_closed (trace o) = false ->
  creations (trace o) = []
  /\ state_checks (trace o) = 0
  /\ (result o = Ok sid
      \/ (result o = Raise TypeError
          /\ exists reply,
              trace o = [EvGetSession sid reply]
              /\ observed_state reply = None)
      \/ exists e code pre,
          result o = Raise e
          /\ trace o = pre ++ [EvStatement sid code (inl e)]).
Proof.
  intros o sid Ht Hf. subst o sid. rewrite connect_split in *.
  pose proof (handshake_spec glue fuel c r) as H. cbv zeta in H.
  destruct (handshake glue fuel c r) as [bh ch rh th].
  cbn [conn result trace] in H. destruct H as [_ H].
  pose proof (finish_spec glue SQLPROXY ch rh) as F. cbv zeta in F.
  pose proof (fun s => finish_cases glue SQLPROXY ch rh s) as Fc.
  cbv zeta in Fc.
  destruct (finish glue SQLPROXY ch rh) as [bf cf rf tf].
  cbn [conn result trace] in F, Fc. destruct F as (Fn & Fk & _ & _ & Fr).
  destruct H as [(_ & Hn & Hk & Hs & Hr) | (pre & post & u & req & reply & Hth
                                            & _ & _ & _ & _ & Hfc & _)].
  - destruct Hr as [-> | Hr]; cbn [result trace] in *.
    + rewrite creations_app, state_checks_app, Hn, Hk, Fn, Fk.
      split; [reflexivity|]. split; [reflexivity|].
      assert (session_id ch = Credentials.session_id (credentials c)) as Hid
          by (unfold session_id; rewrite Hs; reflexivity).
      destruct (Credentials.session_id (credentials c)) as [s|] eqn:Es;
        [|discriminate].
      destruct (Fc s Hid) as [(e & -> & ->) | [(e & -> & ->) | (-> & _)]].
      * right. right. now exists e, SQLPROXY, th.
      * right. right.
        exists e, (use_database ch),
               (th ++ [EvStatement (Some s) SQLPROXY (inr tt)]).
        split; [reflexivity|]. now rewrite <- app_assoc.
      * now left.
    + destruct Hr as (-> & reply & -> & Ho). cbn [result trace] in *.
      repeat split; try reflexivity. right. left.
      split; [reflexivity|]. now exists reply.
  - exfalso. specialize (Hfc Ht). subst th.
    assert (fetched_closed
              (pre ++ EvUuid u :: EvCreateSession req reply :: post) = true)
      as Hx by (rewrite fetched_closed_app, Hfc; reflexivity).
    destruct bh as [[]| |]; cbn [trace] in Hf;
      [rewrite (fetched_closed_app _ tf) in Hf | |];
      rewrite Hx in Hf; discriminate.
Qed.

(** C2 (as amended). After a [connect] that returned a session id [sid],
    that id is the one recorded in the credentials (and the connection's
    current one).  A second [connect] right after it, with [sid]
    non-empty, creates no session and enters no poll loop unless a state
    it fetched was CLOSED.  It need not return: it returns [sid] again,
    or it raises [TypeError] right after a [get_session] answer that
    carries no status, or it raises the exception of an initialization
    statement that failed on [sid], which is then the last thing it
    did. *)
Theorem connect_twice_reuses_session {R} (glue : Glue R)
        (SQLPROXY : string) (fuel1 fuel2 : nat) (c : GlueConnection)
        (r : R) (sid : option string)
        (Hfirst : result (connect glue SQLPROXY fuel1 c r) = Ok sid) :
  let o1 := connect glue SQLPROXY fuel1 c r in
  let o2 := connect glue SQLPROXY fuel2 (conn o1) (remote o1) in
  Credentials.session_id (credentials (conn o1)) = sid
  /\ session_id (conn o1) = sid
  /\ (truthy sid = true ->
      fetched_closed (trace o2) = false ->
      creations (trace o2) = []
      /\ state_checks (trace o2) = 0
      /\ (result o2 = Ok sid
          \/ (result o2 = Raise TypeError
              /\ exists reply,
                  trace o2 = [EvGetSession sid reply]
                  /\ observed_state reply = None)
          \/ exists e code pre,
              result o2 = Raise e
              /\ trace o2 = pre ++ [EvStatement sid code (inl e)])
      /\ (result o2 = Ok sid ->
          Credentials.session_id (credentials (conn o2)) = sid)).
Proof.
  intros o1 o2.
  destruct (connect_ok_persists glue SQLPROXY fuel1 c r sid Hfirst)
    as (Hp & Hs & _).
  fold o1 in Hp, Hs. split; [exact Hp|]. split; [exact Hs|].
  intros Ht Hf.
  pose proof (connect_reuses_recorded glue SQLPROXY fuel2 (conn o1)
                                      (remote o1)) as H.
  cbv zeta in H. fold o2 in H. rewrite Hp in H.
  destruct (H Ht Hf) as (Hn & Hk & Hr).
  repeat split; try assumption.
  intros Hok.
  now destruct (connect_ok_persists glue SQLPROXY fuel2 (conn o1)
                                    (remote o1) sid Hok).
Qed.

(** With an ideal clock and a state that never becomes READY the bound of
    [poll_bounded] is attained: the loop runs exactly [timeout + 2] times
    before it raises. *)
Lemma state_never_ready {R} (glue : Glue R)
      (Hnever : forall r sid,
          observed_state (snd (get_session glue r sid)) <> Some READY)
      (c : GlueConnection) (r : R) :
  _state c <> Some READY ->
  _state (conn (state glue c r)) <> Some READY.
Proof.
  intros Hc. rewrite state_run.
  destruct (py_in (_state c) [FAILED; READY]); [exact Hc|].
  specialize (Hnever r (session_id c)).
  destruct (get_session glue r (session_id c)) as [r' reply]. exact Hnever.
Qed.

Lemma poll_ideal_clock {R} (glue : Glue R)
      (Hclock : forall r k, (snd (wait glue r k) == inject_Z (Z.of_nat k))%Q)
      (Hnever : forall r sid,
          observed_state (snd (get_session glue r sid)) <> Some READY)
      (fuel : nat) :
  forall (attempt : nat) (c : GlueConnection) (r : R),
    let o := poll glue fuel attempt c r in
    let N := Z.to_nat (timeout_of c) + 2 in
    _state c <> Some READY ->
    (0 <= timeout_of c)%Z ->
    attempt < N ->
    N <= attempt + fuel ->
    result o = Raise TimeoutError /\ attempt + state_checks (trace o) = N.
Proof.
  induction fuel as [|fuel IH]; intros attempt c r o N Hc H0 Ha Hf;
    subst o N.
  - lia.
  - rewrite poll_S. specialize (Hclock r attempt).
    destruct (wait glue r attempt) as [r0 elapsed]. cbn [snd] in Hclock.
    pose proof (state_frame glue c r0) as F. cbv zeta in F.
    pose proof (state_never_ready glue Hnever c r0 Hc) as NR.
    destruct (state glue c r0) as [b c1 r1 t1].
    cbn [conn result trace] in F, NR.
    destruct F as (Fc & Fs & Fr & Fk & Fn & _). subst b.
    assert (timeout_of c1 = timeout_of c) as Ht
        by (unfold timeout_of; now rewrite Fc).
    destruct (opt_str_eqb (_state c1) (Some READY)) eqn:E.
    { apply opt_str_eqb_eq in E. contradiction. }
    rewrite Ht. unfold Qgt_bool.
    destruct (Qle_bool elapsed (inject_Z (timeout_of c))) eqn:Q; cbn [negb].
    + apply Qle_bool_iff in Q. rewrite Hclock, <- Zle_Qle in Q.
      specialize (IH (Datatypes.S attempt) c1 r1). cbv zeta in IH.
      rewrite Ht in IH.
      destruct (poll glue fuel (Datatypes.S attempt) c1 r1) as [b c2 r2 t2].
      cbn [conn result trace] in *.
      destruct IH as [Ir Ik]; [assumption | assumption | lia | lia |].
      change (EvWait attempt elapsed :: t1 ++ t2)
        with ([EvWait attempt elapsed] ++ t1 ++ t2).
      rewrite !state_checks_app, Fk. cbn. split; [exact Ir | lia].
    + assert (~ (Z.of_nat attempt <= timeout_of c)%Z) as Hgt.
      { intros Hle. rewrite Zle_Qle, <- Hclock in Hle.
        apply Qle_bool_iff in Hle. congruence. }
      cbn [conn result trace].
      change (EvWait attempt elapsed :: t1)
        with ([EvWait attempt elapsed] ++ t1).
      rewrite state_checks_app, Fk. cbn. split; [reflexivity | lia].
Qed.

(** ** Closed runs against the scripted service *)

(** C1, run: the cached READY is returned without a call; a lookup that
    fails is read as CLOSED. *)
Example state_ready_is_cached :
  state (Fake.glue (Fake.steady CLOSED))
        (mkConn (Fake.creds None 5) None None (Some READY)) 0
  = mkOut (Ok (Some READY))
          (mkConn (Fake.creds None 5) None None (Some READY)) 0 [].
Proof. reflexivity. Qed.

Example state_lookup_failure_is_closed :
  let glue :=
    Fake.glue {| Fake.on_create := inl ClientError;
                 Fake.on_get := fun _ => inl BotoCoreError;
                 Fake.on_delete := inr tt;
                 Fake.on_statements := inr [];
                 Fake.on_cancel := fun _ => inr tt;
                 Fake.on_execute := inr tt |} in
  let o := state glue (Fake.fresh 5) 0 in
  result o = Ok (Some CLOSED)
  /\ _state (conn o) = Some CLOSED
  /\ trace o = [EvGetSession None (inl BotoCoreError)].
Proof. repeat split. Qed.

(** C2, run: a first [connect] provisions [dbt-glue-1]; the second one
    reuses it without any call but the two initialization statements. *)
Lemma connect_twice_reuses_session_witness :
  result (connect (Fake.glue (Fake.steady READY)) Fake.SQLPROXY 7
                  (Fake.fresh 5) 0)
  = Ok (Some "dbt-glue-1")
  /\ creations
       (trace
          (connect (Fake.glue (Fake.steady READY)) Fake.SQLPROXY 7
             (conn (connect (Fake.glue (Fake.steady READY)) Fake.SQLPROXY 7
                            (Fake.fresh 5) 0))
             (remote (connect (Fake.glue (Fake.steady READY)) Fake.SQLPROXY 7
                              (Fake.fresh 5) 0)))) = []
  /\ result
       (connect (Fake.glue (Fake.steady READY)) Fake.SQLPROXY 7
          (conn (connect (Fake.glue (Fake.steady READY)) Fake.SQLPROXY 7
                         (Fake.fresh 5) 0))
          (remote (connect (Fake.glue (Fake.steady READY)) Fake.SQLPROXY 7
                           (Fake.fresh 5) 0)))
     = Ok (Some "dbt-glue-1").
Proof.
  assert (result (connect (Fake.glue (Fake.steady READY)) Fake.SQLPROXY 7
                          (Fake.fresh 5) 0) = Ok (Some "dbt-glue-1")) as H1
      by (vm_compute; reflexivity).
  split; [exact H1|].
  pose proof (connect_twice_reuses_session
                (Fake.glue (Fake.steady READY)) Fake.SQLPROXY 7 7
                (Fake.fresh 5) 0 (Some "dbt-glue-1") H1) as H.
  cbv zeta in H. destruct H as (_ & _ & H).
  destruct H as (Hn & _ & _ & _);
    [reflexivity | vm_compute; reflexivity |].
  split; [exact Hn | vm_compute; reflexivity].
Defined.

(** C2, run: the second [connect] need not give the id back.  On a
    service whose session stops answering once the first [connect] is
    through, the second [connect] creates nothing and fetches no CLOSED
    state -- READY is cached, it asks nothing -- and still returns no
    id: its first initialization statement raises. *)
Lemma connect_twice_raises_counterexample :
  let glue := Fake.failing_after 4 (Fake.steady READY) in
  let o1 := connect glue Fake.SQLPROXY 7 (Fake.fresh 5) 0 in
  let o2 := connect glue Fake.SQLPROXY 7 (conn o1) (remote o1) in
  result o1 = Ok (Some "dbt-glue-1")
  /\ result o2 = Raise ClientError
  /\ trace o2
     = [EvStatement (Some "dbt-glue-1") Fake.SQLPROXY (inl ClientError)]
  /\ creations (trace o2) = []
  /\ fetched_closed (trace o2) = false.
Proof. vm_compute. repeat split. Qed.

(** C3, run: with a timeout of 2 seconds, an ideal clock and a session
    that stays PROVISIONING, [connect] reads the state at 0, 1, 2 and 3
    seconds -- four times, [timeout + 2] -- and raises [TimeoutError]
    only after the fourth read.  With a timeout of 0 seconds the same
    happens on a clock that runs late: the state is read at 0 and at 1.1
    seconds, twice. *)
Lemma connect_timeout_checks_counterexample :
  (forall r k,
      (snd (wait (Fake.glue (Fake.steady PROVISIONING)) r k)
       == inject_Z (Z.of_nat k))%Q)
  /\ result (connect (Fake.glue (Fake.steady PROVISIONING)) Fake.SQLPROXY 9
                     (Fake.fresh 2) 0) = Raise TimeoutError
  /\ state_checks
       (trace (connect (Fake.glue (Fake.steady PROVISIONING)) Fake.SQLPROXY 9
                       (Fake.fresh 2) 0)) = 4
  /\ length
       (filter is_get_session
          (trace (connect (Fake.glue (Fake.steady PROVISIONING))
                          Fake.SQLPROXY 9 (Fake.fresh 2) 0))) = 4
  /\ ~ (4 <= Z.to_nat (timeout_of (Fake.fresh 2)) + 1)
  /\ result (connect (Fake.late (Fake.glue (Fake.steady PROVISIONING)))
                     Fake.SQLPROXY 9 (Fake.fresh 0) 0) = Raise TimeoutError
  /\ state_checks
       (trace (connect (Fake.late (Fake.glue (Fake.steady PROVISIONING)))
                       Fake.SQLPROXY 9 (Fake.fresh 0) 0)) = 2
  /\ ~ (2 <= Z.to_nat (timeout_of (Fake.fresh 0)) + 1).
Proof.
  split; [intros r k; reflexivity|].
  repeat split; try (vm_compute; reflexivity); vm_compute; lia.
Qed.

Lemma connect_provisioning_timeout_witness :
  (result (connect (Fake.glue (Fake.steady PROVISIONING)) Fake.SQLPROXY 9
                   (Fake.fresh 2) 0) = Raise TimeoutError
   /\ (exists early last,
          waits (trace (connect (Fake.glue (Fake.steady PROVISIONING))
                                Fake.SQLPROXY 9 (Fake.fresh 2) 0))
          = early ++ [last]
          /\ Forall (fun elapsed =>
                       (elapsed <= inject_Z (timeout_of (Fake.fresh 2)))%Q)
                    early
          /\ (inject_Z (timeout_of (Fake.fresh 2)) < last)%Q)
   /\ (_state (conn (connect (Fake.glue (Fake.steady PROVISIONING))
                             Fake.SQLPROXY 9 (Fake.fresh 2) 0))
       <> Some FAILED ->
       exists pre k last sid reply,
         trace (connect (Fake.glue (Fake.steady PROVISIONING))
                        Fake.SQLPROXY 9 (Fake.fresh 2) 0)
         = pre ++ [EvWait k last; EvGetSession sid reply]
         /\ (inject_Z (timeout_of (Fake.fresh 2)) < last)%Q))
  /\ state_checks
       (trace (connect (Fake.glue (Fake.steady PROVISIONING)) Fake.SQLPROXY 9
                       (Fake.fresh 2) 0))
     <= Z.to_nat (timeout_of (Fake.fresh 2)) + 2.
Proof.
  assert (forall r k,
             (inject_Z (Z.of_nat k)
              <= snd (wait (Fake.glue (Fake.steady PROVISIONING)) r k))%Q)
    as Hclock by (intros r k; apply Qle_refl).
  assert (Z.to_nat (timeout_of (Fake.fresh 2)) + 2 <= 9) as Hfuel
      by (vm_compute; lia).
  pose proof (connect_provisioning_timeout
                (Fake.glue (Fake.steady PROVISIONING)) Fake.SQLPROXY 9
                (Fake.fresh 2) 0 Hclock Hfuel) as H.
  cbv zeta in H. destruct H as (_ & Hk & Ht).
  split; [|exact Hk].
  apply (Ht (start_session_request (Fake.creds None 2)
                                   "00000000-0000-4000-8000-000000000000")
            (Fake.session "dbt-glue-1" PROVISIONING)).
  - vm_compute. auto.
  - vm_compute. discriminate.
Defined.

(** C4, run: a [ClientError] from [create_session] ends [connect] with
    [TypeError] and the cached state FAILED. *)
Lemma connect_create_rejected_witness :
  result (connect (Fake.glue (Fake.rejecting ClientError)) Fake.SQLPROXY 9
                  (Fake.fresh 5) 0) = Raise TypeError
  /\ _state (conn (connect (Fake.glue (Fake.rejecting ClientError))
                           Fake.SQLPROXY 9 (Fake.fresh 5) 0)) = Some FAILED.
Proof.
  pose proof (connect_create_rejected
                (Fake.glue (Fake.rejecting ClientError)) Fake.SQLPROXY 9
                (Fake.fresh 5) 0
                (start_session_request
                   (Fake.creds None 5)
                   "00000000-0000-4000-8000-000000000000")) as H.
  cbv zeta in H. destruct H as (Hr & _ & Hs & _).
  - vm_compute. auto.
  - split; [exact Hr | exact Hs].
Defined.

(** C4, run: any other exception from [create_session] escapes the
    [except ClientError] clause: [connect] raises that exception itself
    and the cached state is not FAILED. *)
Example connect_create_other_exception_escapes :
  In (EvCreateSession
        (start_session_request (Fake.creds None 5)
                               "00000000-0000-4000-8000-000000000000")
        (inl BotoCoreError))
     (trace (connect (Fake.glue (Fake.rejecting BotoCoreError))
                     Fake.SQLPROXY 9 (Fake.fresh 5) 0))
  /\ result (connect (Fake.glue (Fake.rejecting BotoCoreError))
                     Fake.SQLPROXY 9 (Fake.fresh 5) 0) = Raise BotoCoreError
  /\ _state (conn (connect (Fake.glue (Fake.rejecting BotoCoreError))
                           Fake.SQLPROXY 9 (Fake.fresh 5) 0)) = None.
Proof.
  split; [vm_compute; auto|]. split; vm_compute; reflexivity.
Qed.

(** C8, run: of the statements 1 (RUNNING), 2 (AVAILABLE) and 3
    (RUNNING), the first and the third are cancelled. *)
Lemma cancel_running_statements_witness :
  trace (cancel (Fake.glue (Fake.steady READY))
                (mkConn (Fake.creds (Some "dbt-glue-1") 5) None
                        (Some (Fake.session "dbt-glue-1" READY))
                        (Some READY)) 0)
  = [EvGetStatements
       (Some "dbt-glue-1")
       (inr [ {| stmt_Id := "1"; stmt_State := "RUNNING" |};
              {| stmt_Id := "2"; stmt_State := "AVAILABLE" |};
              {| stmt_Id := "3"; stmt_State := "RUNNING" |} ]);
     EvCancelStatement (Some "dbt-glue-1") "1" (inr tt);
     EvCancelStatement (Some "dbt-glue-1") "3" (inr tt)].
Proof.
  pose proof (cancel_running_statements
                (Fake.glue (Fake.steady READY))
                (mkConn (Fake.creds (Some "dbt-glue-1") 5) None
                        (Some (Fake.session "dbt-glue-1" READY))
                        (Some READY)) 0 1
                [ {| stmt_Id := "1"; stmt_State := "RUNNING" |};
                  {| stmt_Id := "2"; stmt_State := "AVAILABLE" |};
                  {| stmt_Id := "3"; stmt_State := "RUNNING" |} ]
                eq_refl) as H.
  cbv zeta in H. destruct H as [[[_ Hok] | (e & _ & _ & _ & _ & Hr & _)] _].
  - exact Hok.
  - vm_compute in Hr. discriminate.
Defined.

(** ** The remote helper [SqlWrapper2.execute] *)

Module SqlWrapper2Facts.
Import SqlWrapper2.

Section WithSpark.
Context {S : Type}.
Variable spark_sql : S -> string -> S * (exn + DataFrame).

(** With [output=False] nothing is printed. *)
Lemma execute_one_silent (sql : string) (rt : Runtime S) :
  stdout (snd (execute_one spark_sql sql false rt)) = stdout rt.
Proof.
  unfold execute_one.
  destruct (spark_sql (spark rt) sql) as [s' [e|df]]; [reflexivity|].
  cbn. destruct (length (schema df) =? 0)%nat; [reflexivity|].
  destruct (rows_envelope df); reflexivity.
Qed.

(** With [output=True] a dataframe without columns is printed twice:
    the null-schema envelope first, and then, because nothing returns
    after that [print], the rows envelope as well. *)
Lemma execute_one_no_schema (sql : string) (rt : Runtime S) (s' : S)
      (df : DataFrame) (envelope : json) :
  spark_sql (spark rt) sql = (s', inr df) ->
  schema df = [] ->
  rows_envelope df = inr envelope ->
  execute_one spark_sql sql true rt
  = (Ok None,
     mkRuntime s' (stdout rt ++ [null_envelope sql; envelope])).
Proof.
  intros Hdf Hs He. unfold execute_one, print. rewrite Hdf, Hs, He. cbn.
  now rewrite <- app_assoc.
Qed.

Lemma execute_one_with_schema (sql : string) (rt : Runtime S) (s' : S)
      (df : DataFrame) (envelope : json) :
  spark_sql (spark rt) sql = (s', inr df) ->
  schema df <> [] ->
  rows_envelope df = inr envelope ->
  execute_one spark_sql sql true rt
  = (Ok None, mkRuntime s' (stdout rt ++ [envelope])).
Proof.
  intros Hdf Hs He. unfold execute_one, print. rewrite Hdf, He.
  destruct (schema df); [contradiction | reflexivity].
Qed.

Lemma execute_one_total (sql : string) (output : bool) (rt : Runtime S) :
  fst (execute_one spark_sql sql output rt) <> OutOfFuel.
Proof.
  unfold execute_one.
  destruct (spark_sql (spark rt) sql) as [s' [e|df]]; [discriminate|].
  cbn.
  destruct (length (schema df) =? 0)%nat, output, (rows_envelope df);
    discriminate.
Qed.

(** No piece of [sql.split(";")] holds a [;]. *)
Lemma split_no_separator (sep : ascii) (s : string) :
  Forall (fun q => contains sep q = false) (split sep s)
  /\ split sep s <> [].
Proof.
  induction s as [|c rest [IH Hne]]; cbn.
  - split; [repeat constructor | discriminate].
  - destruct (Ascii.eqb c sep) eqn:E.
    + split; [constructor; [reflexivity | exact IH] | discriminate].
    + destruct (split sep rest) as [|q queries]; [contradiction|].
      inversion IH as [|? ? Hq Hqs]; subst.
      split; [|discriminate].
      constructor; [cbn; now rewrite E, Hq | exact Hqs].
Qed.

(** On pieces without [;] the recursive calls of the loop are calls of
    the single-statement part, whatever depth is left. *)
Lemma execute_queries_depth (depth : nat) (last_query : string)
      (queries : list string) :
  Forall (fun q => contains ";" q = false) queries ->
  forall response rt,
    execute_queries (execute spark_sql (Datatypes.S depth)) last_query
                    queries response rt
    = execute_queries (execute_one spark_sql) last_query queries
                      response rt.
Proof.
  induction 1 as [|q queries Hq _ IH]; intros response rt;
    [reflexivity|].
  cbn [execute_queries execute]. rewrite Hq.
  destruct (0 <? String.length q)%nat; [|apply IH].
  destruct (String.eqb q last_query).
  - destruct (execute_one spark_sql q true rt) as [[v| |] rt'];
      [apply IH | reflexivity ..].
  - destruct (execute_one spark_sql q false rt) as [[v| |] rt'];
      [apply IH | reflexivity ..].
Qed.

Lemma execute_queries_total (last_query : string)
      (queries : list string) :
  forall response rt,
    fst (execute_queries (execute_one spark_sql) last_query queries
                         response rt) <> OutOfFuel.
Proof.
  induction queries as [|q queries IH]; intros response rt;
    [discriminate|].
  cbn [execute_queries].
  destruct (0 <? String.length q)%nat; [|apply IH].
  destruct (String.eqb q last_query).
  - pose proof (execute_one_total q true rt) as T.
    destruct (execute_one spark_sql q true rt) as [[v|e|] rt'];
      [apply IH | discriminate | exact T].
  - pose proof (execute_one_total q false rt) as T.
    destruct (execute_one spark_sql q false rt) as [[v|e|] rt'];
      [apply IH | discriminate | exact T].
Qed.

Lemma execute_S (depth : nat) (sql : string) (output : bool)
      (rt : Runtime S) :
  execute spark_sql (Datatypes.S depth) sql output rt
  = if contains ";" sql then
      execute_queries (execute spark_sql depth)
                      (last (split ";" sql) EmptyString)
                      (split ";" sql) None rt
    else execute_one spark_sql sql output rt.
Proof. reflexivity. Qed.

(** Two levels of calls are all [execute] ever needs: with any depth
    from 2 on it gives the same result, and that result is a value or
    an exception. *)
Lemma execute_depth_enough (depth : nat) (sql : string) (output : bool)
      (rt : Runtime S) :
  execute spark_sql (2 + depth) sql output rt
  = execute spark_sql 2 sql output rt
  /\ fst (execute spark_sql 2 sql output rt) <> OutOfFuel.
Proof.
  change (2 + depth) with (Datatypes.S (Datatypes.S depth)).
  rewrite !execute_S.
  destruct (contains ";" sql).
  - destruct (split_no_separator ";" sql) as [Hall _].
    rewrite !execute_queries_depth by exact Hall.
    split; [reflexivity | apply execute_queries_total].
  - split; [reflexivity | apply execute_one_total].
Qed.

Lemma execute_queries_app (last_query : string) (l1 l2 : list string) :
  forall response rt,
    execute_queries (execute_one spark_sql) last_query (l1 ++ l2)
                    response rt
    = match execute_queries (execute_one spark_sql) last_query l1
                            response rt with
      | (Ok response', rt') =>
          execute_queries (execute_one spark_sql) last_query l2
                          response' rt'
      | failed => failed
      end.
Proof.
  induction l1 as [|q l1 IH]; intros response rt; [reflexivity|].
  cbn [app execute_queries].
  destruct (0 <? String.length q)%nat; [|apply IH].
  destruct (String.eqb q last_query).
  - destruct (execute_one spark_sql q true rt) as [[v| |] rt'];
      [apply IH | reflexivity ..].
  - destruct (execute_one spark_sql q false rt) as [[v| |] rt'];
      [apply IH | reflexivity ..].
Qed.

(** Statements whose text differs from the last one's run without
    printing and leave [response] alone. *)
Lemma execute_queries_silent (last_query : string)
      (queries : list string) :
  Forall (fun q => q <> last_query) queries ->
  forall response rt,
    let out := execute_queries (execute_one spark_sql) last_query
                               queries response rt in
    stdout (snd out) = stdout rt
    /\ forall v, fst out = Ok v -> v = response.
Proof.
  induction 1 as [|q queries Hq _ IH]; intros response rt out;
    subst out.
  - cbn. split; [reflexivity | congruence].
  - cbn [execute_queries].
    destruct (0 <? String.length q)%nat; [|apply IH].
    apply String.eqb_neq in Hq. rewrite Hq.
    pose proof (execute_one_silent q rt) as Hs.
    destruct (execute_one spark_sql q false rt) as [[v|e|] rt'];
      cbn [snd fst] in *.
    + specialize (IH response rt'). cbv zeta in IH.
      rewrite <- Hs. exact IH.
    + split; [exact Hs | discriminate].
    + split; [exact Hs | discriminate].
Qed.

(** What the helper does right: when the text after the last [;] is
    not empty and no earlier statement has the same text, every
    earlier statement runs without printing, then the last one runs
    with [output=True], and what that run prints is all that is
    printed. *)
Lemma execute_prints_last_only (sql : string) (output : bool)
      (rt : Runtime S) (earlier : list string) (last_query : string) :
  contains ";" sql = true ->
  split ";" sql = earlier ++ [last_query] ->
  last_query <> EmptyString ->
  Forall (fun q => q <> last_query) earlier ->
  let silent := execute_queries (execute_one spark_sql) last_query
                                earlier None rt in
  stdout (snd silent) = stdout rt
  /\ execute spark_sql 2 sql output rt
     = match silent with
       | (Ok _, rt') => execute_one spark_sql last_query true rt'
       | failed => failed
       end.
Proof.
  intros Hc Hsplit Hne Hdiff silent. subst silent.
  destruct (execute_queries_silent last_query earlier Hdiff None rt)
    as [Hs Hv].
  split; [exact Hs|].
  rewrite execute_S, Hc.
  destruct (split_no_separator ";" sql) as [Hall _].
  rewrite execute_queries_depth by exact Hall.
  rewrite Hsplit, last_last, execute_queries_app.
  destruct (execute_queries (execute_one spark_sql) last_query earlier
                            None rt) as [[v| |] rt']; try reflexivity.
  cbn [execute_queries]. rewrite String.eqb_refl.
  destruct last_query as [|a rest]; [contradiction|].
  cbn [String.length Nat.ltb Nat.leb].
  destruct (execute_one spark_sql (String a rest) true rt')
    as [[w| |] rt'']; reflexivity.
Qed.
End WithSpark.

(** C5. The statement run with [output=True] is picked by comparing
    texts with the last piece of the split, not by position.  So in
    [select 1;select 2;select 1] the first statement prints an envelope
    too: two envelopes come out, the first statement's (run 0) and the
    last one's (run 2). *)
Theorem execute_repeated_statement_prints_twice :
  execute Fake.spark 2 "select 1;select 2;select 1" true Fake.rt0
  = (Ok None, mkRuntime 3 [Fake.row_envelope 0; Fake.row_envelope 2]).
Proof. vm_compute. reflexivity. Qed.

(** The same comparison, with a [;] at the end of the text: the last
    piece is empty, it is skipped, the statement before it runs with
    [output=False], and nothing at all is printed. *)
Example execute_trailing_separator_prints_nothing :
  execute Fake.spark 2 "select 1;" true Fake.rt0 = (Ok None, mkRuntime 1 []).
Proof. vm_compute. reflexivity. Qed.

Example execute_two_statements :
  execute Fake.spark 2 "create temp view v as select 1;select * from v"
          true Fake.rt0
  = (Ok None, mkRuntime 2 [Fake.row_envelope 1]).
Proof. vm_compute. reflexivity. Qed.

(** C6. A statement whose dataframe has no column, run with the default
    [output=True], prints two envelopes: the null-schema one and then a
    rows envelope with [rowcount] 0. *)
Theorem execute_no_schema_prints_two_envelopes :
  execute Fake.spark 2 "use analytics" true Fake.rt0
  = (Ok None,
     mkRuntime 1 [null_envelope "use analytics"; Fake.empty_envelope]).
Proof. vm_compute. reflexivity. Qed.

(** With [output=False] the same statement returns the null-schema
    envelope alone. *)
Example execute_no_schema_returned :
  execute Fake.spark 2 "use analytics" false Fake.rt0
  = (Ok (Some (null_envelope "use analytics")), mkRuntime 1 []).
Proof. vm_compute. reflexivity. Qed.
End SqlWrapper2Facts.

(** * Further properties of connection.py *)

Lemma lookups_app (t1 t2 : list event) :
  lookups (t1 ++ t2) = lookups t1 ++ lookups t2.
Proof. apply filter_app. Qed.

Lemma statements_app (t1 t2 : list event) :
  filter is_statement (t1 ++ t2)
  = filter is_statement t1 ++ filter is_statement t2.
Proof. apply filter_app. Qed.

Lemma state_no_statement {R} (glue : Glue R) (c : GlueConnection) (r : R) :
  filter is_statement (trace (state glue c r)) = [].
Proof.
  rewrite state_run. destruct (py_in (_state c) [FAILED; READY]);
    [reflexivity|].
  destruct (get_session glue r (session_id c)); reflexivity.
Qed.

Lemma poll_no_statement {R} (glue : Glue R) (fuel : nat) :
  forall (attempt : nat) (c : GlueConnection) (r : R),
    filter is_statement (trace (poll glue fuel attempt c r)) = [].
Proof.
  induction fuel as [|fuel IH]; intros attempt c r; [reflexivity|].
  rewrite poll_S. destruct (wait glue r attempt) as [r0 elapsed].
  pose proof (state_no_statement glue c r0) as F.
  destruct (state glue c r0) as [[s| |] c1 r1 t1]; cbn [trace] in *;
    try (cbn; exact F).
  destruct (opt_str_eqb s (Some READY)); [cbn; exact F|].
  destruct (Qgt_bool elapsed (inject_Z (timeout_of c1))); [cbn; exact F|].
  specialize (IH (S attempt) c1 r1).
  destruct (poll glue fuel (S attempt) c1 r1) as [b c2 r2 t2].
  cbn [trace] in *.
  change (EvWait attempt elapsed :: t1 ++ t2)
    with ([EvWait attempt elapsed] ++ t1 ++ t2).
  now rewrite !statements_app, F, IH.
Qed.

Lemma start_session_no_statement {R} (glue : Glue R) (fuel : nat)
      (c : GlueConnection) (r : R) :
  filter is_statement (trace (_start_session glue fuel c r)) = [].
Proof.
  rewrite start_session_run. destruct (uuid4 glue r) as [r0 u]. cbv zeta.
  destruct (create_session glue r0 _) as [r1 [e|response]].
  - destruct (is_ClientError e); reflexivity.
  - match goal with
    | |- context [poll glue fuel 0 ?c' r1] =>
        pose proof (poll_no_statement glue fuel 0 c' r1) as P;
        destruct (poll glue fuel 0 c' r1) as [b c2 r2 t2]
    end.
    cbn [trace] in *. cbn. exact P.
Qed.

(** The first half of [connect] submits no statement, and when it ends
    normally the cached state is not CLOSED. *)
Lemma handshake_no_statement {R} (glue : Glue R) (fuel : nat)
      (c : GlueConnection) (r : R) :
  let o := handshake glue fuel c r in
  filter is_statement (trace o) = []
  /\ (result o = Ok tt -> _state (conn o) <> Some CLOSED).
Proof.
  intros o. subst o. rewrite handshake_run.
  destruct (truthy (Credentials.session_id (credentials c))).
  - pose proof (state_no_statement glue (reattached c) r) as N1.
    destruct (state glue (reattached c) r) as [[[s1|]| |] c1 r1 t1];
      cbn [trace result] in *; try (split; [exact N1 | discriminate]).
    pose proof (state_no_statement glue c1 r1) as N2.
    pose proof (state_frame glue c1 r1) as F2. cbv zeta in F2.
    destruct (state glue c1 r1) as [[s2| |] c2 r2 t2];
      cbn [trace result conn] in *;
      try (rewrite statements_app, N1, N2; split;
           [reflexivity | discriminate]).
    destruct F2 as (_ & _ & F2r & _). injection F2r as ->.
    destruct (opt_str_eqb (_state c2) (Some CLOSED)) eqn:Ec.
    + pose proof (start_session_no_statement glue fuel c2 r2) as N3.
      pose proof (start_session_spec glue fuel c2 r2) as P. cbv zeta in P.
      destruct (_start_session glue fuel c2 r2) as [[v| |] c3 r3 t3];
        cbn [trace result conn] in *;
        rewrite !statements_app, N1, N2, N3;
        (split; [reflexivity|]); try discriminate.
      intros _.
      destruct P as (_ & u & req & [e|response] & post & _ & _ & _ & Pm).
      * destruct Pm as (_ & _ & Pe). destruct (is_ClientError e);
          destruct Pe; discriminate.
      * destruct Pm as (_ & _ & Ps). cbn [_state]. rewrite Ps. discriminate.
    + cbn [trace result conn]. rewrite statements_app, N1, N2.
      split; [reflexivity|]. intros _ H.
      apply opt_str_eqb_eq in H. congruence.
  - pose proof (start_session_no_statement glue fuel c r) as N3.
    pose proof (start_session_spec glue fuel c r) as P. cbv zeta in P.
    destruct (_start_session glue fuel c r) as [[v| |] c3 r3 t3];
      cbn [trace result conn] in *;
      (split; [exact N3|]); try discriminate.
    intros _.
    destruct P as (_ & u & req & [e|response] & post & _ & _ & _ & Pm).
    + destruct Pm as (_ & _ & Pe). destruct (is_ClientError e);
        destruct Pe; discriminate.
    + destruct Pm as (_ & _ & Ps). rewrite Ps. discriminate.
Qed.

(** X1. Whenever [connect] returns a session id, the last two things it
    did were the two initialization statements, both successful and both
    submitted to the session it returns: first the helper program, then
    the [use] of the configured database.  Nothing before them is a
    statement, and the state it leaves cached is not CLOSED. *)
Theorem connect_success_initializes {R} (glue : Glue R) (SQLPROXY : string)
        (fuel : nat) (c : GlueConnection) (r : R) (sid : option string)
        (Hok : result (connect glue SQLPROXY fuel c r) = Ok sid) :
  let o := connect glue SQLPROXY fuel c r in
  (exists pre,
      trace o = pre ++ [EvStatement sid SQLPROXY (inr tt);
                        EvStatement sid (use_database c) (inr tt)]
      /\ filter is_statement pre = [])
  /\ _state (conn o) <> Some CLOSED.
Proof.
  intros o. subst o. rewrite connect_split in *.
  pose proof (handshake_no_statement glue fuel c r) as H. cbv zeta in H.
  pose proof (handshake_spec glue fuel c r) as [Hc _].
  destruct (handshake glue fuel c r) as [[[]| |] ch rh th];
    try discriminate.
  cbn [conn result trace] in *. destruct H as [Hn Hs].
  pose proof (finish_spec glue SQLPROXY ch rh) as (_ & _ & _ & Fs & _).
  rewrite finish_run in *.
  assert (use_database ch = use_database c) as Hu
      by (unfold use_database; now rewrite Hc).
  destruct (session_id ch) as [s|]; [|discriminate].
  destruct (statement_execute glue rh (Some s) SQLPROXY) as [r1 [e|[]]];
    [discriminate|].
  rewrite Hu in *.
  destruct (statement_execute glue r1 (Some s) (use_database c))
    as [r2 [e|[]]]; [discriminate|].
  cbn [conn result trace] in *. injection Hok as <-.
  split; [exists th; split; [reflexivity | exact Hn]|].
  rewrite Fs. now apply Hs.
Qed.

Lemma connect_success_initializes_witness :
  (exists pre,
      trace (connect (Fake.glue (Fake.steady READY)) Fake.SQLPROXY 7
                     (Fake.fresh 5) 0)
      = pre ++ [EvStatement (Some "dbt-glue-1") Fake.SQLPROXY (inr tt);
                EvStatement (Some "dbt-glue-1")
                            (use_database (Fake.fresh 5)) (inr tt)]
      /\ filter is_statement pre = [])
  /\ _state (conn (connect (Fake.glue (Fake.steady READY)) Fake.SQLPROXY 7
                           (Fake.fresh 5) 0)) <> Some CLOSED.
Proof.
  apply (connect_success_initializes
           (Fake.glue (Fake.steady READY)) Fake.SQLPROXY 7 (Fake.fresh 5) 0
           (Some "dbt-glue-1")).
  vm_compute. reflexivity.
Defined.

Lemma start_session_request_fields (creds : Credentials.t) (u : string) :
  start_session_request creds u
  = {| req_Id := String.append "dbt-glue-" u;
       req_Role := Credentials.role_arn creds;
       req_DefaultArguments :=
         [("--enable-glue-datacatalog", "true");
          ("--spark.sql.crossJoin.enabled", "true")]
         ++ match Credentials.extra_jars creds with
            | Some jars => [("--extra-jars", jars)]
            | None => []
            end;
       req_Command := [("Name", "glueetl"); ("PythonVersion", "3")];
       req_NumberOfWorkers := Credentials.workers creds;
       req_WorkerType := Credentials.worker_type creds |}.
Proof.
  unfold start_session_request.
  destruct (Credentials.extra_jars creds); reflexivity.
Qed.

(** X2. One [connect] never creates more than one session.  With no
    session id recorded it always creates one, as its very first call to
    the service: the session is named [dbt-glue-] followed by a fresh
    uuid, runs under the role of the credentials as a [glueetl] command
    on Python 3 with their number and type of workers, and its default
    arguments enable the Glue data catalog and cross joins and carry the
    extra jars when, and only when, the credentials name some.  With a
    session id recorded it creates one only after a state it fetched was
    CLOSED. *)
Theorem connect_creates_at_most_once {R} (glue : Glue R) (SQLPROXY : string)
        (fuel : nat) (c : GlueConnection) (r : R) :
  let o := connect glue SQLPROXY fuel c r in
  length (creations (trace o)) <= 1
  /\ if truthy (Credentials.session_id (credentials c)) then
       creations (trace o) = [] \/ fetched_closed (trace o) = true
     else
       exists reply post,
         trace o
         = EvUuid (snd (uuid4 glue r))
           :: EvCreateSession
                {| req_Id := String.append "dbt-glue-" (snd (uuid4 glue r));
                   req_Role := Credentials.role_arn (credentials c);
                   req_DefaultArguments :=
                     [("--enable-glue-datacatalog", "true");
                      ("--spark.sql.crossJoin.enabled", "true")]
                     ++ match Credentials.extra_jars (credentials c) with
                        | Some jars => [("--extra-jars", jars)]
                        | None => []
                        end;
                   req_Command :=
                     [("Name", "glueetl"); ("PythonVersion", "3")];
                   req_NumberOfWorkers :=
                     Credentials.workers (credentials c);
                   req_WorkerType :=
                     Credentials.worker_type (credentials c) |}
                reply
           :: post
         /\ creations post = [].
Proof.
  intros o. subst o. rewrite connect_split.
  pose proof (handshake_spec glue fuel c r) as [_ H].
  pose proof (handshake_run glue fuel c r) as Hrun.
  destruct (handshake glue fuel c r) as [bh ch rh th].
  cbn [conn result trace] in H.
  pose proof (finish_spec glue SQLPROXY ch rh) as (Fn & _ & _).
  destruct (finish glue SQLPROXY ch rh) as [bf cf rf tf].
  cbn [trace] in Fn.
  assert (creations
            (trace match bh with
                   | Ok _ => mkOut bf cf rf (th ++ tf)
                   | Raise e => mkOut (Raise e) ch rh th
                   | OutOfFuel => mkOut OutOfFuel ch rh th
                   end) = creations th) as Hcr.
  { destruct bh; cbn [trace]; [|reflexivity ..].
    now rewrite creations_app, Fn, app_nil_r. }
  rewrite Hcr. split.
  - destruct H as [(_ & Hn & _) | (pre & post & u & req & reply & Ht & Hpn
                                   & _ & Hqn & _)].
    + rewrite Hn. cbn. lia.
    + subst th.
      change (EvUuid u :: EvCreateSession req reply :: post)
        with ([EvUuid u; EvCreateSession req reply] ++ post).
      rewrite !creations_app, Hpn, Hqn. cbn. lia.
  - destruct (truthy (Credentials.session_id (credentials c))) eqn:Et.
    + destruct H as [(_ & Hn & _) | (pre & post & u & req & reply & Ht & _
                                     & _ & _ & _ & Hf & _)];
        [now left | right].
      subst th. specialize (Hf eq_refl).
      destruct bh as [[]| |]; cbn [trace];
        rewrite ?(fetched_closed_app _ tf), (fetched_closed_app pre), Hf;
        reflexivity.
    + rewrite start_session_run in Hrun.
      destruct (uuid4 glue r) as [r0 u]. cbn [snd]. cbv zeta in Hrun.
      rewrite <- (start_session_request_fields (credentials c) u).
      destruct (create_session glue r0 _) as [r1 reply].
      exists reply.
      assert (exists post, th = EvUuid u
                                :: EvCreateSession
                                     (start_session_request (credentials c) u)
                                     reply :: post
                           /\ creations post = []) as (post & -> & Hp).
      { destruct reply as [e|response].
        - exists []. destruct (is_ClientError e);
            injection Hrun as _ _ _ ->; auto.
        - match type of Hrun with
          | context [poll glue fuel 0 ?c' r1] =>
              pose proof (poll_frame glue fuel 0 c' r1) as (_ & _ & Pn & _);
              destruct (poll glue fuel 0 c' r1) as [[v| |] c2 r2 t2]
          end; cbn [trace] in Pn; exists t2;
            injection Hrun as _ _ _ ->; auto. }
      destruct bh as [[]| |]; cbn [trace].
      * exists (post ++ tf). split; [reflexivity|].
        now rewrite creations_app, Hp, Fn.
      * exists post. auto.
      * exists post. auto.
Qed.

Lemma state_cached_run {R} (glue : Glue R) (c : GlueConnection) (r : R) :
  py_in (_state c) [FAILED; READY] = true ->
  state glue c r = mkOut (Ok (_state c)) c r [].
Proof. intros H. now rewrite state_run, H. Qed.

Lemma finish_lookups {R} (glue : Glue R) (SQLPROXY : string)
      (c : GlueConnection) (r : R) :
  lookups (trace (finish glue SQLPROXY c r)) = [].
Proof.
  rewrite finish_run. destruct (session_id c) as [sid|]; [|reflexivity].
  destruct (statement_execute glue r (Some sid) SQLPROXY) as [r1 [e|[]]];
    [reflexivity|].
  destruct (statement_execute glue r1 (Some sid) (use_database c))
    as [r2 reply]; reflexivity.
Qed.

(** With READY or FAILED cached and a session id recorded, [connect] is
    the two initialization statements on the recorded session and nothing
    else. *)
Lemma connect_cached_run {R} (glue : Glue R) (SQLPROXY : string)
      (fuel : nat) (c : GlueConnection) (r : R) :
  py_in (_state c) [FAILED; READY] = true ->
  truthy (Credentials.session_id (credentials c)) = true ->
  connect glue SQLPROXY fuel c r = finish glue SQLPROXY (reattached c) r.
Proof.
  intros Hcached Hsid. rewrite connect_split, handshake_run, Hsid.
  rewrite (state_cached_run glue (reattached c) r Hcached).
  cbn [_state reattached].
  destruct (_state c) as [s|] eqn:Es; [|discriminate].
  assert (py_in (_state (reattached c)) [FAILED; READY] = true) as Hc'
      by (cbn [_state reattached]; now rewrite Es).
  rewrite (state_cached_run glue (reattached c) r Hc').
  cbn [_state reattached]. rewrite Es.
  assert (opt_str_eqb (Some s) (Some CLOSED) = false) as ->.
  { apply py_in_sticky in Hcached.
    destruct Hcached as [H|H]; injection H as ->; reflexivity. }
  destruct (finish glue SQLPROXY (reattached c) r). reflexivity.
Qed.

(** X3. A connection that has READY or FAILED cached and a session id
    recorded never asks the service about that session again: [connect]
    issues no [get_session] and no [create_session] call and no poll
    iteration, keeps the cached state, and goes straight to the two
    initialization statements on the recorded session -- also when that
    session has meanwhile ended remotely, and also when the cached state
    is FAILED. *)
Theorem connect_trusts_cached_state {R} (glue : Glue R) (SQLPROXY : string)
        (fuel : nat) (c : GlueConnection) (r : R)
        (Hcached : py_in (_state c) [FAILED; READY] = true)
        (Hsid : truthy (Credentials.session_id (credentials c)) = true) :
  let o := connect glue SQLPROXY fuel c r in
  lookups (trace o) = []
  /\ creations (trace o) = []
  /\ state_checks (trace o) = 0
  /\ _state (conn o) = _state c
  /\ (result o = Ok (Credentials.session_id (credentials c))
      \/ exists e s code,
          result o = Raise e /\ In (EvStatement s code (inl e)) (trace o)).
Proof.
  intros o. subst o. rewrite connect_cached_run by assumption.
  pose proof (finish_spec glue SQLPROXY (reattached c) r)
    as (Fn & Fk & _ & Fs & Fr).
  pose proof (finish_lookups glue SQLPROXY (reattached c) r) as Fl.
  destruct (finish glue SQLPROXY (reattached c) r) as [bf cf rf tf].
  cbn [conn result trace _state reattached] in *.
  repeat (split; [assumption|]).
  destruct bf as [v|e|]; [| |destruct Fr].
  - left. destruct Fr as (-> & _). reflexivity.
  - right. destruct Fr as [(Hnone & _) | (s' & code & Hin)].
    + unfold session_id in Hnone. cbn in Hnone. rewrite Hnone in Hsid.
      discriminate.
    + eauto.
Qed.

Lemma connect_trusts_cached_state_witness :
  lookups
    (trace (connect (Fake.glue (Fake.steady CLOSED)) Fake.SQLPROXY 7
                    (mkConn (Fake.creds (Some "dbt-glue-1") 5) None None
                            (Some READY)) 0)) = []
  /\ creations
       (trace (connect (Fake.glue (Fake.steady CLOSED)) Fake.SQLPROXY 7
                       (mkConn (Fake.creds (Some "dbt-glue-1") 5) None None
                               (Some READY)) 0)) = [].
Proof.
  pose proof (connect_trusts_cached_state
                (Fake.glue (Fake.steady CLOSED)) Fake.SQLPROXY 7
                (mkConn (Fake.creds (Some "dbt-glue-1") 5) None None
                        (Some READY)) 0 eq_refl eq_refl) as H.
  cbv zeta in H. destruct H as (Hl & Hn & _). split; assumption.
Defined.

(** With FAILED cached the poll loop never sees READY: it reads the
    cached value, without a call, until the timeout. *)
Lemma poll_cached_failed {R} (glue : Glue R) (fuel : nat) :
  forall (attempt : nat) (c : GlueConnection) (r : R),
    _state c = Some FAILED ->
    let o := poll glue fuel attempt c r in
    lookups (trace o) = []
    /\ _state (conn o) = Some FAILED
    /\ (result o = Raise TimeoutError \/ result o = OutOfFuel).
Proof.
  induction fuel as [|fuel IH]; intros attempt c r Hc o; subst o.
  - cbn. auto.
  - rewrite poll_S. destruct (wait glue r attempt) as [r0 elapsed].
    rewrite state_cached_run by (rewrite Hc; reflexivity).
    rewrite Hc. cbn [opt_str_eqb String.eqb FAILED READY Ascii.eqb
                     Bool.eqb andb].
    destruct (Qgt_bool elapsed (inject_Z (timeout_of c))).
    + cbn. auto.
    + specialize (IH (S attempt) c r0 Hc). cbv zeta in IH.
      destruct (poll glue fuel (S attempt) c r0) as [b c2 r2 t2].
      cbn [conn result trace app] in *.
      destruct IH as (Il & Is & Ir). repeat split; assumption.
Qed.

(** X4. After a rejected creation has left FAILED cached, the same
    connection object can no longer provision a session: with no session
    id recorded, [connect] never returns an id, never calls [get_session]
    and leaves FAILED cached.  On a clock where the [k]-th element of
    [wait(1)] comes at least [k] seconds after the start it always ends,
    after at most [timeout + 2] iterations of the poll loop; and when the
    service accepted the new request -- a remote session was created --
    it ends with [TimeoutError], having polled nothing but the cached
    FAILED. *)
Theorem connect_after_failed_creation {R} (glue : Glue R)
        (SQLPROXY : string) (fuel : nat) (c : GlueConnection) (r : R)
        (Hfailed : _state c = Some FAILED)
        (Hsid : truthy (Credentials.session_id (credentials c)) = false)
        (Hclock : forall r k,
            (inject_Z (Z.of_nat k) <= snd (wait glue r k))%Q)
        (Hfuel : Z.to_nat (timeout_of c) + 2 <= fuel) :
  let o := connect glue SQLPROXY fuel c r in
  (forall sid, result o <> Ok sid)
  /\ result o <> OutOfFuel
  /\ state_checks (trace o) <= Z.to_nat (timeout_of c) + 2
  /\ lookups (trace o) = []
  /\ _state (conn o) = Some FAILED
  /\ (forall req response,
         In (EvCreateSession req (inr response)) (trace o) ->
         result o = Raise TimeoutError).
Proof.
  intros o. subst o.
  rewrite connect_split, handshake_run, Hsid.
  pose proof (start_session_bounded glue Hclock fuel c r) as B.
  cbv zeta in B. specialize (B Hfuel). revert B.
  rewrite start_session_run.
  destruct (uuid4 glue r) as [r0 u]. cbv zeta.
  destruct (create_session glue r0 _) as [r1 [e|response]].
  - intros _.
    destruct (is_ClientError e); cbn [conn result trace];
      (split; [discriminate|]); (split; [discriminate|]);
      (split; [cbn; lia|]); (split; [reflexivity|]);
      (split; [reflexivity || exact Hfailed|]);
      intros req response [H|[H|[]]]; discriminate.
  - match goal with
    | |- context [poll glue fuel 0 ?c' r1] =>
        pose proof (poll_cached_failed glue fuel 0 c' r1 Hfailed)
          as (Pl & Ps & Pr);
        destruct (poll glue fuel 0 c' r1) as [b c2 r2 t2]
    end.
    cbn [conn result trace] in *. intros [Br Bk].
    destruct Pr as [-> | ->]; [|now elim Br].
    cbn [conn result trace].
    split; [discriminate|]. split; [discriminate|].
    split; [exact Bk|]. split; [exact Pl|]. split; [exact Ps|]. auto.
Qed.

Lemma connect_after_failed_creation_witness :
  result (connect (Fake.glue (Fake.steady READY)) Fake.SQLPROXY 9
                  (mkConn (Fake.creds None 2) None None (Some FAILED)) 0)
  = Raise TimeoutError
  /\ lookups
       (trace (connect (Fake.glue (Fake.steady READY)) Fake.SQLPROXY 9
                       (mkConn (Fake.creds None 2) None None (Some FAILED))
                       0)) = [].
Proof.
  assert (forall r k,
             (inject_Z (Z.of_nat k)
              <= snd (wait (Fake.glue (Fake.steady READY)) r k))%Q)
    as Hclock by (intros r k; apply Qle_refl).
  assert (Z.to_nat (timeout_of (mkConn (Fake.creds None 2) None None
                                       (Some FAILED))) + 2 <= 9) as Hfuel
      by (vm_compute; lia).
  pose proof (connect_after_failed_creation
                (Fake.glue (Fake.steady READY)) Fake.SQLPROXY 9
                (mkConn (Fake.creds None 2) None None (Some FAILED)) 0
                eq_refl eq_refl Hclock Hfuel) as H.
  cbv zeta in H. destruct H as (_ & _ & _ & Hl & _ & Ht).
  split; [|exact Hl].
  apply (Ht (start_session_request (Fake.creds None 2)
                                   "00000000-0000-4000-8000-000000000000")
            (Fake.session "dbt-glue-1" READY)).
  vm_compute. auto.
Defined.

Lemma cancel_each_frame {R} (glue : Glue R) (statements : list Statement) :
  forall (c : GlueConnection) (r : R),
    let o := cancel_each glue statements c r in
    credentials (conn o) = credentials c
    /\ _session (conn o) = _session c
    /\ _state (conn o) = _state c
    /\ creations (trace o) = []
    /\ lookups (trace o) = [].
Proof.
  induction statements as [|s rest IH]; intros c r o; subst o.
  - cbn. auto.
  - cbn [cancel_each]. unfold bind.
    destruct (py_in (Some (stmt_State s)) ["RUNNING"]).
    + rewrite cancel_statement_run.
      destruct (cancel_statement glue r (session_id c) (stmt_Id s))
        as [r' [e|[]]]; cbn [res_of].
      * cbn. auto.
      * specialize (IH (with_client c) r'). cbv zeta in IH.
        destruct (cancel_each glue rest (with_client c) r')
          as [b c2 r2 t2].
        cbn [conn trace] in *. destruct IH as (? & ? & ? & In' & Il).
        change (creations ([EvCancelStatement (session_id c) (stmt_Id s)
                                              (inr tt)] ++ t2) = [])
          with (creations t2 = []).
        change (lookups ([EvCancelStatement (session_id c) (stmt_Id s)
                                            (inr tt)] ++ t2) = [])
          with (lookups t2 = []).
        auto.
    + unfold ret. specialize (IH c r). cbv zeta in IH.
      destruct (cancel_each glue rest c r) as [b c2 r2 t2]. exact IH.
Qed.

(** X5. [cancel] touches neither the credentials, nor the current session,
    nor the cached state, and it issues no [get_session] or
    [create_session] call.  When listing the statements fails it raises
    that exception and cancels nothing. *)
Theorem cancel_frame {R} (glue : Glue R) (c : GlueConnection) (r : R) :
  let o := cancel glue c r in
  credentials (conn o) = credentials c
  /\ _session (conn o) = _session c
  /\ _state (conn o) = _state c
  /\ creations (trace o) = []
  /\ lookups (trace o) = []
  /\ match snd (get_statements glue r (session_id c)) with
     | inl e => result o = Raise e /\ cancel_calls (trace o) = []
     | inr _ => True
     end.
Proof.
  intros o. subst o. rewrite cancel_run.
  destruct (get_statements glue r (session_id c)) as [r1 [e|statements]].
  - cbn. auto 10.
  - pose proof (cancel_each_frame glue statements (with_client c) r1) as F.
    cbv zeta in F.
    destruct (cancel_each glue statements (with_client c) r1)
      as [b c2 r2 t2].
    cbn [conn trace snd] in *. destruct F as (? & ? & ? & ? & ?).
    change (creations (EvGetStatements (session_id c) (inr statements) :: t2))
      with (creations t2).
    change (lookups (EvGetStatements (session_id c) (inr statements) :: t2))
      with (lookups t2).
    auto 10.
Qed.

(** X6. With a clock that advances exactly one second per iteration, a
    non-negative timeout and a session that the service accepts but never
    reports READY, [_start_session] reads the state exactly [timeout + 2]
    times and then raises [TimeoutError]. *)
Theorem start_session_ideal_clock {R} (glue : Glue R) (fuel : nat)
        (c : GlueConnection) (r : R) (response : Response)
        (Hclock : forall r k,
            (snd (wait glue r k) == inject_Z (Z.of_nat k))%Q)
        (Hnever : forall r sid,
            observed_state (snd (get_session glue r sid)) <> Some READY)
        (Hstate : _state c <> Some READY)
        (Htimeout : (0 <= timeout_of c)%Z)
        (Hfuel : Z.to_nat (timeout_of c) + 2 <= fuel)
        (Hcreate :
           snd (create_session
                  glue (fst (uuid4 glue r))
                  (start_session_request (credentials c)
                                         (snd (uuid4 glue r))))
           = inr response) :
  let o := _start_session glue fuel c r in
  result o = Raise TimeoutError
  /\ state_checks (trace o) = Z.to_nat (timeout_of c) + 2.
Proof.
  intros o. subst o. rewrite start_session_run.
  destruct (uuid4 glue r) as [r0 u]. cbn [fst snd] in Hcreate. cbv zeta.
  destruct (create_session glue r0 _) as [r1 reply].
  cbn [snd] in Hcreate. subst reply.
  match goal with
  | |- context [poll glue fuel 0 ?c' r1] =>
      pose proof (poll_ideal_clock glue Hclock Hnever fuel 0 c' r1) as P;
      cbv zeta in P;
      destruct (poll glue fuel 0 c' r1) as [b c2 r2 t2]
  end.
  unfold timeout_of in *. cbn [conn result trace credentials _state] in *.
  destruct P as [Pr Pk]; [assumption | assumption | lia | lia |].
  split; [exact Pr|].
  change (EvUuid u :: EvCreateSession ?q ?p :: t2)
    with ([EvUuid u; EvCreateSession q p] ++ t2).
  rewrite state_checks_app. cbn. lia.
Qed.

Lemma start_session_ideal_clock_witness :
  result (_start_session (Fake.glue (Fake.steady PROVISIONING)) 9
                         (Fake.fresh 2) 0) = Raise TimeoutError
  /\ state_checks
       (trace (_start_session (Fake.glue (Fake.steady PROVISIONING)) 9
                              (Fake.fresh 2) 0))
     = Z.to_nat (timeout_of (Fake.fresh 2)) + 2.
Proof.
  apply (start_session_ideal_clock
           (Fake.glue (Fake.steady PROVISIONING)) 9 (Fake.fresh 2) 0
           (Fake.session "dbt-glue-1" PROVISIONING)).
  - intros r k. reflexivity.
  - intros r sid. cbn. discriminate.
  - discriminate.
  - vm_compute. discriminate.
  - vm_compute. lia.
  - reflexivity.
Defined.

(** X7. On a clock that runs late, as real ones do -- every element of
    [wait(1)] after the first comes strictly later than its nominal
    second -- and with a timeout of at least one second, [_start_session]
    ends after at most [timeout + 1] reads of the state. *)
Theorem start_session_late_clock {R} (glue : Glue R) (fuel : nat)
        (c : GlueConnection) (r : R)
        (Hclock : forall r k,
            0 < k -> (inject_Z (Z.of_nat k) < snd (wait glue r k))%Q)
        (Htimeout : (1 <= timeout_of c)%Z)
        (Hfuel : Z.to_nat (timeout_of c) + 1 <= fuel) :
  let o := _start_session glue fuel c r in
  result o <> OutOfFuel
  /\ state_checks (trace o) <= Z.to_nat (timeout_of c) + 1.
Proof.
  intros o. subst o. rewrite start_session_run.
  destruct (uuid4 glue r) as [r0 u]. cbv zeta.
  destruct (create_session glue r0 _) as [r1 [e|response]].
  - destruct (is_ClientError e); cbn; split; (discriminate || lia).
  - match goal with
    | |- context [poll glue fuel 0 ?c' r1] =>
        pose proof (poll_bounded_late glue Hclock fuel 0 c' r1) as P;
        cbv zeta in P;
        destruct (poll glue fuel 0 c' r1) as [b c2 r2 t2]
    end.
    unfold timeout_of in *. cbn [conn result trace credentials] in *.
    destruct P as [Pr Pk]; [assumption | lia | lia |].
    split; [exact Pr|].
    change (EvUuid u :: EvCreateSession ?q ?p :: t2)
      with ([EvUuid u; EvCreateSession q p] ++ t2).
    rewrite state_checks_app. cbn. lia.
Qed.

Lemma start_session_late_clock_witness :
  result (_start_session (Fake.late (Fake.glue (Fake.steady PROVISIONING)))
                         9 (Fake.fresh 2) 0) <> OutOfFuel
  /\ state_checks
       (trace (_start_session
                 (Fake.late (Fake.glue (Fake.steady PROVISIONING))) 9
                 (Fake.fresh 2) 0))
     <= Z.to_nat (timeout_of (Fake.fresh 2)) + 1.
Proof.
  apply (start_session_late_clock
           (Fake.late (Fake.glue (Fake.steady PROVISIONING)))).
  - intros r [|k] Hk; [lia|]. cbn [Fake.late wait snd].
    rewrite <- (Qplus_0_r (inject_Z (Z.of_nat (S k)))) at 1.
    apply Qplus_lt_r. reflexivity.
  - vm_compute. discriminate.
  - vm_compute. lia.
Defined.

Lemma connect_keeps_database {R} (glue : Glue R) (SQLPROXY : string)
      (fuel : nat) (c : GlueConnection) (r : R) :
  use_database (conn (connect glue SQLPROXY fuel c r)) = use_database c.
Proof.
  rewrite connect_split.
  pose proof (handshake_spec glue fuel c r) as [Hc _].
  destruct (handshake glue fuel c r) as [[[]| |] ch rh th];
    cbn [conn] in *; try (unfold use_database; now rewrite Hc).
  assert (use_database (conn (finish glue SQLPROXY ch rh))
          = use_database ch) as Hf.
  { rewrite finish_run. destruct (session_id ch) as [sid|]; [|reflexivity].
    destruct (statement_execute glue rh (Some sid) SQLPROXY)
      as [r1 [e|[]]]; [reflexivity|].
    destruct (statement_execute glue r1 (Some sid) (use_database ch))
      as [r2 [e|[]]]; reflexivity. }
  destruct (finish glue SQLPROXY ch rh) as [bf cf rf tf].
  cbn [conn] in *. rewrite Hf. unfold use_database. now rewrite Hc.
Qed.

(** X19. [close_session] does not make the connection forget its
    session.  After a [connect] that returned a non-empty id and left
    READY (or FAILED) cached, [close_session] asks the service to delete
    exactly that session; a [connect] right after it does not notice: it
    issues no [get_session] and no [create_session] call, and all it
    does is submit the initialization statements to the deleted session
    -- the helper program and then the [use] of the database -- stopping
    at the first that raises and returning the id of the deleted session
    when both go through. *)
Theorem connect_after_close_session {R} (glue : Glue R) (SQLPROXY : string)
        (fuel1 fuel2 : nat) (c : GlueConnection) (r : R)
        (sid : option string)
        (Hfirst : result (connect glue SQLPROXY fuel1 c r) = Ok sid)
        (Hsid : truthy sid = true)
        (Hcached :
           py_in (_state (conn (connect glue SQLPROXY fuel1 c r)))
                 [FAILED; READY] = true) :
  let o1 := connect glue SQLPROXY fuel1 c r in
  let o2 := close_session glue (conn o1) (remote o1) in
  let o3 := connect glue SQLPROXY fuel2 (conn o2) (remote o2) in
  trace o2 = [EvDeleteSession sid (snd (delete_session glue (remote o1) sid))]
  /\ lookups (trace o3) = []
  /\ creations (trace o3) = []
  /\ ((exists e,
          result o3 = Raise e
          /\ trace o3 = [EvStatement sid SQLPROXY (inl e)])
      \/ (exists e,
             result o3 = Raise e
             /\ trace o3 = [EvStatement sid SQLPROXY (inr tt);
                            EvStatement sid (use_database c) (inl e)])
      \/ (result o3 = Ok sid
          /\ trace o3 = [EvStatement sid SQLPROXY (inr tt);
                         EvStatement sid (use_database c) (inr tt)])).
Proof.
  intros o1 o2 o3.
  destruct (connect_ok_persists glue SQLPROXY fuel1 c r sid Hfirst)
    as (Hp & _ & _).
  pose proof (connect_keeps_database glue SQLPROXY fuel1 c r) as Hdb.
  fold o1 in Hp, Hcached, Hdb.
  assert (trace o2
          = [EvDeleteSession sid (snd (delete_session glue (remote o1) sid))]
          /\ credentials (conn o2) = credentials (conn o1)
          /\ _state (conn o2) = _state (conn o1)) as (Ht & Hc & Hs).
  { subst o2. rewrite close_session_run, Hp, Hsid.
    destruct (delete_session glue (remote o1) sid) as [r' reply].
    repeat split. }
  split; [exact Ht|].
  subst o3. rewrite connect_cached_run; rewrite ?Hs, ?Hc, ?Hp; try assumption.
  pose proof (finish_spec glue SQLPROXY (reattached (conn o2)) (remote o2))
    as (Fn & _ & _ & _ & _).
  pose proof (finish_lookups glue SQLPROXY (reattached (conn o2))
                             (remote o2)) as Fl.
  pose proof (fun s => finish_cases glue SQLPROXY (reattached (conn o2))
                                    (remote o2) s) as Fc.
  cbv zeta in Fc.
  destruct (finish glue SQLPROXY (reattached (conn o2)) (remote o2))
    as [bf cf rf tf].
  cbn [conn result trace] in *.
  split; [exact Fl|]. split; [exact Fn|].
  assert (session_id (reattached (conn o2)) = sid) as Hid
      by (unfold session_id, reattached; cbn [_session Session Id];
          now rewrite Hc, Hp).
  assert (use_database (reattached (conn o2)) = use_database c) as Hu
      by (rewrite <- Hdb; unfold use_database, reattached;
          cbn [credentials]; now rewrite Hc).
  destruct sid as [s|]; [|discriminate].
  specialize (Fc s Hid). rewrite Hu in Fc. exact Fc.
Qed.

Lemma connect_after_close_session_witness :
  trace (close_session
           (Fake.glue (Fake.steady READY))
           (conn (connect (Fake.glue (Fake.steady READY)) Fake.SQLPROXY 7
                          (Fake.fresh 5) 0))
           (remote (connect (Fake.glue (Fake.steady READY)) Fake.SQLPROXY 7
                            (Fake.fresh 5) 0)))
  = [EvDeleteSession (Some "dbt-glue-1") (inr tt)]
  /\ creations
       (trace
          (connect
             (Fake.glue (Fake.steady READY)) Fake.SQLPROXY 7
             (conn (close_session
                      (Fake.glue (Fake.steady READY))
                      (conn (connect (Fake.glue (Fake.steady READY))
                                     Fake.SQLPROXY 7 (Fake.fresh 5) 0))
                      (remote (connect (Fake.glue (Fake.steady READY))
                                       Fake.SQLPROXY 7 (Fake.fresh 5) 0))))
             (remote (close_session
                        (Fake.glue (Fake.steady READY))
                        (conn (connect (Fake.glue (Fake.steady READY))
                                       Fake.SQLPROXY 7 (Fake.fresh 5) 0))
                        (remote (connect (Fake.glue (Fake.steady READY))
                                         Fake.SQLPROXY 7 (Fake.fresh 5)
                                         0)))))) = [].
Proof.
  pose proof (connect_after_close_session
                (Fake.glue (Fake.steady READY)) Fake.SQLPROXY 7 7
                (Fake.fresh 5) 0 (Some "dbt-glue-1")) as H.
  cbv zeta in H.
  destruct H as (Ht & _ & Hn & _);
    [vm_compute; reflexivity | reflexivity | vm_compute; reflexivity |].
  split; [exact Ht | exact Hn].
Defined.

(** X20. With a session id recorded and nothing sticky cached, a
    [get_session] answer that carries no ["Status"] makes [connect] raise
    [TypeError] -- from the debug line that concatenates the state --
    right after that one call: nothing is created and no statement is
    submitted. *)
Theorem connect_needs_status {R} (glue : Glue R) (SQLPROXY : string)
        (fuel : nat) (c : GlueConnection) (r : R)
        (Hsid : truthy (Credentials.session_id (credentials c)) = true)
        (Hcached : py_in (_state c) [FAILED; READY] = false)
        (Hstatus :
           observed_state
             (snd (get_session glue r
                               (Credentials.session_id (credentials c))))
           = None) :
  let o := connect glue SQLPROXY fuel c r in
  result o = Raise TypeError
  /\ trace o
     = [EvGetSession
          (Credentials.session_id (credentials c))
          (snd (get_session glue r
                            (Credentials.session_id (credentials c))))].
Proof.
  intros o. subst o. rewrite connect_split, handshake_run, Hsid, state_run.
  cbn [_state reattached]. rewrite Hcached.
  change (session_id (reattached c))
    with (Credentials.session_id (credentials c)).
  destruct (get_session glue r (Credentials.session_id (credentials c)))
    as [r' reply].
  cbn [snd] in *. rewrite Hstatus. split; reflexivity.
Qed.

Lemma connect_needs_status_witness :
  result
    (connect
       (Fake.glue
          {| Fake.on_create := inl ClientError;
             Fake.on_get := fun _ => inr {| Session := Some {| Id := Some "s";
                                                              Status := None |} |};
             Fake.on_delete := inr tt;
             Fake.on_statements := inr [];
             Fake.on_cancel := fun _ => inr tt;
             Fake.on_execute := inr tt |})
       Fake.SQLPROXY 7 (init (Fake.creds (Some "s") 5)) 0)
  = Raise TypeError.
Proof.
  refine (proj1 (connect_needs_status _ Fake.SQLPROXY 7
                                      (init (Fake.creds (Some "s") 5)) 0
                                      _ _ _)); reflexivity.
Defined.

(** X21. Whenever [connect] creates a session and returns, the id it
    returns, and records in the credentials for the next [connect], is the
    one the service gave in its answer to [create_session] -- not the
    name that was asked for, and not a previously recorded id. *)
Theorem connect_returns_created_id {R} (glue : Glue R) (SQLPROXY : string)
        (fuel : nat) (c : GlueConnection) (r : R) (sid : option string)
        (req : CreateSessionRequest) (response : Response)
        (Hok : result (connect glue SQLPROXY fuel c r) = Ok sid)
        (Hcreated :
           In (EvCreateSession req (inr response))
              (trace (connect glue SQLPROXY fuel c r))) :
  sid = response_session_id response
  /\ Credentials.session_id
       (credentials (conn (connect glue SQLPROXY fuel c r)))
     = response_session_id response.
Proof.
  destruct (connect_ok_persists glue SQLPROXY fuel c r sid Hok)
    as (Hp & _ & _).
  rewrite Hp. cut (sid = response_session_id response); [auto|].
  revert Hok Hcreated. clear Hp. rewrite connect_split.
  pose proof (handshake_spec glue fuel c r) as [_ H].
  destruct (handshake glue fuel c r) as [[[]| |] ch rh th];
    try discriminate.
  cbn [conn result trace] in H.
  pose proof (finish_spec glue SQLPROXY ch rh) as (Fn & _ & _ & _ & Fr).
  destruct (finish glue SQLPROXY ch rh) as [bf cf rf tf].
  cbn [conn result trace] in *. intros -> Hin.
  destruct Fr as (-> & _).
  assert (In (EvCreateSession req (inr response)) (creations (th ++ tf)))
    as Hc by (apply in_creations; [exact Hin | reflexivity]).
  rewrite creations_app, Fn, app_nil_r in Hc.
  destruct H as [(_ & Hn & _) | (pre & post & u & req' & reply & Ht & Hpn
                                 & _ & Hqn & _ & _ & Hm)].
  - rewrite Hn in Hc. destruct Hc.
  - subst th.
    change (EvUuid u :: EvCreateSession req' reply :: post)
      with ([EvUuid u; EvCreateSession req' reply] ++ post) in Hc.
    rewrite !creations_app, Hpn, Hqn in Hc. cbn in Hc.
    destruct Hc as [Hc|Hc]; [|contradiction].
    inversion Hc; subst req' reply; clear Hc.
    destruct Hm as [Hs _]. unfold session_id, response_session_id.
    now rewrite Hs.
Qed.

Lemma connect_returns_created_id_witness :
  Some "dbt-glue-1"
  = response_session_id (Fake.session "dbt-glue-1" CLOSED)
  /\ Credentials.session_id
       (credentials
          (conn (connect (Fake.glue
                            {| Fake.on_create :=
                                 inr (Fake.session "dbt-glue-1" CLOSED);
                               Fake.on_get :=
                                 fun n => inr (Fake.session
                                                 "old"
                                                 (if (n <? 3)%nat then CLOSED
                                                  else READY));
                               Fake.on_delete := inr tt;
                               Fake.on_statements := inr [];
                               Fake.on_cancel := fun _ => inr tt;
                               Fake.on_execute := inr tt |})
                         Fake.SQLPROXY 7 (init (Fake.creds (Some "old") 5))
                         0)))
     = response_session_id (Fake.session "dbt-glue-1" CLOSED).
Proof.
  apply (connect_returns_created_id
           _ Fake.SQLPROXY 7 (init (Fake.creds (Some "old") 5)) 0
           (Some "dbt-glue-1")
           (start_session_request (Fake.creds (Some "old") 5)
                                  "00000000-0000-4000-8000-000000000000")).
  - vm_compute. reflexivity.
  - vm_compute. auto.
Defined.

(** * Further properties of the remote helper *)

Module SqlWrapper2More.
Import SqlWrapper2.

Section WithSpark.
Context {S : Type}.
Variable spark_sql : S -> string -> S * (exn + DataFrame).

Lemma execute_one_spark (q : string) (output : bool) (rt : Runtime S) :
  let out := execute_one spark_sql q output rt in
  spark (snd out) = fst (spark_sql (spark rt) q)
  /\ match piece_error (negb output) (snd (spark_sql (spark rt) q)) with
     | Some e => fst out = Raise e
     | None => if output then fst out = Ok None
               else exists j, fst out = Ok (Some j)
     end.
Proof.
  intros out. subst out. unfold execute_one, piece_error.
  destruct (spark_sql (spark rt) q) as [s' [e|df]]; [cbn; auto|].
  cbn [fst snd].
  destruct (length (schema df) =? 0)%nat, output, (rows_envelope df);
    cbn; eauto.
Qed.

Lemma execute_queries_spark (last_query : string) (queries : list string) :
  forall response rt,
    let out := execute_queries (execute_one spark_sql) last_query queries
                               response rt in
    let ran := spark_run spark_sql last_query (filter nonempty queries)
                         (spark rt) in
    spark (snd out) = fst ran
    /\ match snd ran with
       | Some e => fst out = Raise e
       | None => fst out = Ok response \/ fst out = Ok None
       end.
Proof.
  induction queries as [|q queries IH]; intros response rt out ran;
    subst out ran.
  - cbn. auto.
  - cbn [execute_queries filter]. fold (nonempty q).
    destruct (nonempty q); [|apply IH].
    cbn [spark_run].
    destruct (String.eqb q last_query); cbn [negb].
    + pose proof (execute_one_spark q true rt) as [Hs Hr].
      destruct (execute_one spark_sql q true rt) as [b rt'].
      cbn [fst snd negb] in *.
      destruct (spark_sql (spark rt) q) as [s' reply]; cbn [fst snd] in *.
      destruct (piece_error false reply) as [e|]; cbn [fst snd];
        subst b; [auto|].
      specialize (IH None rt'). cbv zeta in IH. rewrite Hs in IH.
      destruct IH as [IHs IHr]. split; [exact IHs|].
      destruct (snd (spark_run spark_sql last_query
                               (filter nonempty queries) s'));
        [exact IHr | destruct IHr; auto].
    + pose proof (execute_one_spark q false rt) as [Hs Hr].
      destruct (execute_one spark_sql q false rt) as [b rt'].
      cbn [fst snd negb] in *.
      destruct (spark_sql (spark rt) q) as [s' reply]; cbn [fst snd] in *.
      destruct (piece_error true reply) as [e|]; cbn [fst snd];
        [subst b; auto|].
      destruct Hr as [j ->].
      specialize (IH response rt'). cbv zeta in IH. rewrite Hs in IH.
      exact IH.
Qed.

(** X8. For a text that holds a [;], [execute] gives [spark.sql] the
    non-empty pieces between the separators, in order and each once, and
    stops at the first piece that fails, raising what that piece raised.
    A piece fails when [spark.sql] raises on it, or when counting,
    collecting, copying or writing the rows of its dataframe does -- also
    for a piece that prints nothing; only a silent piece without columns
    has returned before its rows are touched.  No piece holds a [;].
    When no piece fails [execute] returns [None], and all of this is the
    same for [output=True] and [output=False]: the flag is ignored. *)
Theorem execute_runs_each_statement (sql : string) (output : bool)
        (rt : Runtime S) (Hbatch : contains ";" sql = true) :
  let out := execute spark_sql 2 sql output rt in
  let pieces := filter nonempty (split ";" sql) in
  let ran := spark_run spark_sql (last (split ";" sql) EmptyString) pieces
                       (spark rt) in
  spark (snd out) = fst ran
  /\ fst out = match snd ran with
               | Some e => Raise e
               | None => Ok None
               end
  /\ Forall (fun q => contains ";" q = false) pieces
  /\ execute spark_sql 2 sql true rt = execute spark_sql 2 sql false rt.
Proof.
  intros out pieces ran. subst out pieces ran.
  rewrite !SqlWrapper2Facts.execute_S, Hbatch.
  destruct (SqlWrapper2Facts.split_no_separator ";" sql) as [Hall _].
  rewrite SqlWrapper2Facts.execute_queries_depth by exact Hall.
  pose proof (execute_queries_spark (last (split ";" sql) EmptyString)
                                    (split ";" sql) None rt) as [Hs Hr].
  split; [exact Hs|]. split; [|split].
  - destruct (snd (spark_run spark_sql (last (split ";" sql) EmptyString)
                             (filter nonempty (split ";" sql))
                             (spark rt))); [exact Hr | now destruct Hr].
  - apply Forall_forall. intros q Hq. apply filter_In in Hq.
    rewrite Forall_forall in Hall. now apply Hall.
  - reflexivity.
Qed.
End WithSpark.

Lemma execute_runs_each_statement_witness :
  spark (snd (execute Fake.spark 2 "select 1;;use db;" true Fake.rt0))
  = fst (spark_run Fake.spark EmptyString ["select 1"; "use db"] 0)
  /\ fst (execute Fake.spark 2 "select 1;;use db;" true Fake.rt0) = Ok None.
Proof.
  destruct (execute_runs_each_statement
              Fake.spark "select 1;;use db;" true Fake.rt0 eq_refl)
    as (Hs & Hr & _).
  split; [exact Hs | exact Hr].
Defined.

(** A silent piece that counts its rows and fails there ends the batch,
    although nothing of it would have been printed. *)
Example execute_silent_piece_fails_on_count :
  let spark_sql (n : nat) (sql : string) :=
    (Datatypes.S n,
     inr {| schema := [ {| name := "n"; dataType := "IntegerType" |} ];
            count := if String.eqb sql "select 1" then inl ClientError
                     else inr 1%Z;
            collect := inr [[("n", Plain (JInt 1))]] |}) in
  execute spark_sql 2 "select 1;select 2" true Fake.rt0
  = (Raise ClientError, mkRuntime 1 []).
Proof. vm_compute. reflexivity. Qed.

Lemma dict_set_fresh {V : Type} (d : list (string * V)) (k : string)
      (v : V) :
  ~ In k (map fst d) -> dict_set d k v = d ++ [(k, v)].
Proof.
  induction d as [|[k' v'] d IH]; intros H; [reflexivity|].
  cbn in *. destruct (String.eqb k k') eqn:E.
  - apply String.eqb_eq in E. subst. tauto.
  - rewrite IH by tauto. reflexivity.
Qed.

(** The inner loop on distinct columns: every column gets its entry, in
    schema order, unless the row lacks one of them. *)
Lemma record_data_distinct (record : Row) (fields : list StructField) :
  forall d,
    NoDup (map fst d ++ map name fields) ->
    record_data fields record d
    = if has_columns fields record then
        inr (d ++ map (fun f => (name f, cell record (name f))) fields)
      else inl ValueError.
Proof.
  induction fields as [|f fields IH]; intros d H;
    cbn [record_data has_columns forallb map].
  - now rewrite app_nil_r.
  - unfold cell at 1.
    assert (forall k, row_get record k = inl ValueError
                      \/ exists v, row_get record k = inr v) as Hget.
    { clear. intros k. induction record as [|[k' v] record IH]; cbn.
      - now left.
      - destruct (String.eqb k k'); [right; eauto | exact IH]. }
    destruct (Hget (name f)) as [-> | [v ->]]; [reflexivity|].
    cbn [andb].
    assert (~ In (name f) (map fst d)) as Hf.
    { intros Hin. apply NoDup_remove_2 in H. apply H.
      apply in_or_app. now left. }
    rewrite dict_set_fresh by exact Hf. rewrite IH.
    + fold (has_columns fields record).
      destruct (has_columns fields record); [|reflexivity].
      now rewrite <- app_assoc.
    + rewrite map_app, <- app_assoc. exact H.
Qed.

Lemma record_results_distinct (fields : list StructField)
      (records : list Row) :
  NoDup (map name fields) ->
  record_results fields records
  = if forallb (has_columns fields) records then
      inr (map (fun record =>
                  map (fun f => (name f, cell record (name f))) fields)
               records)
    else inl ValueError.
Proof.
  intros H. induction records as [|record records IH];
    cbn [record_results forallb map]; [reflexivity|].
  rewrite (record_data_distinct record fields []) by exact H.
  destruct (has_columns fields record); [|reflexivity].
  cbn [andb app]. rewrite IH.
  destruct (forallb (has_columns fields) records); reflexivity.
Qed.

Lemma dumps_dict_cells (record : Row) (fields : list StructField) :
  dumps_dict (map (fun f => (name f, cell record (name f))) fields)
  = if writable fields record then
      inr (map (fun f => (name f, written record (name f))) fields)
    else inl TypeError.
Proof.
  induction fields as [|f fields IH];
    cbn [dumps_dict writable forallb map]; [reflexivity|].
  unfold written at 1. unfold dumps_value.
  destruct (cell record (name f)); [|reflexivity].
  cbn [andb]. rewrite IH. fold (writable fields record).
  destruct (writable fields record); reflexivity.
Qed.

Lemma dumps_results_cells (fields : list StructField)
      (records : list Row) :
  dumps_results
    (map (fun record =>
            map (fun f => (name f, cell record (name f))) fields)
         records)
  = if forallb (writable fields) records then
      inr (map (fun record =>
                  JObj [("type", JStr "record");
                        ("data",
                         JObj (map (fun f =>
                                      (name f, written record (name f)))
                                   fields))])
               records)
    else inl TypeError.
Proof.
  induction records as [|record records IH];
    cbn [dumps_results forallb map]; [reflexivity|].
  rewrite dumps_dict_cells.
  destruct (writable fields record); [|reflexivity].
  cbn [andb]. rewrite IH.
  destruct (forallb (writable fields) records); reflexivity.
Qed.

(** X9. What writing the rows of a dataframe gives, when its column
    names are pairwise distinct.  The first failure decides: that of
    [df.count()], else that of [df.rdd.collect()], else [ValueError]
    when some row lacks a column, else [TypeError] when some cell cannot
    be written in JSON -- a missing column anywhere wins over an
    unwritable cell anywhere.  Otherwise the envelope carries the count
    as [rowcount], whatever the number of rows collected, and the [data]
    object of every record lists exactly the columns of [description],
    in the same order, each with the row's value for it. *)
Theorem rows_envelope_follows_description (df : DataFrame)
        (Hdistinct : NoDup (map name (schema df))) :
  rows_envelope df
  = match count df, collect df with
    | inl e, _ => inl e
    | inr _, inl e => inl e
    | inr rowcount, inr records =>
        if negb (forallb (has_columns (schema df)) records) then
          inl ValueError
        else if negb (forallb (writable (schema df)) records) then
          inl TypeError
        else
          inr (JObj
                 [("type", JStr "results");
                  ("rowcount", JInt rowcount);
                  ("results",
                   JArr (map (fun record =>
                                JObj [("type", JStr "record");
                                      ("data",
                                       JObj (map (fun f =>
                                                    (name f,
                                                     written record
                                                             (name f)))
                                                 (schema df)))])
                             records));
                  ("description",
                   JArr (map (fun f => JObj [("name", JStr (name f));
                                             ("type", JStr (dataType f))])
                             (schema df)))])
    end.
Proof.
  unfold rows_envelope.
  destruct (count df) as [e|rowcount]; [reflexivity|].
  destruct (collect df) as [e|records]; [reflexivity|].
  rewrite record_results_distinct by exact Hdistinct.
  destruct (forallb (has_columns (schema df)) records); [|reflexivity].
  rewrite dumps_results_cells.
  destruct (forallb (writable (schema df)) records); reflexivity.
Qed.

Lemma rows_envelope_follows_description_witness :
  rows_envelope
    {| schema := [ {| name := "id"; dataType := "IntegerType" |};
                   {| name := "label"; dataType := "StringType" |} ];
       count := inr 2%Z;
       collect := inr [[("id", Plain (JInt 7));
                        ("label", Plain (JStr "seven"))]] |}
  = inr (JObj [("type", JStr "results");
               ("rowcount", JInt 2);
               ("results",
                JArr [JObj [("type", JStr "record");
                            ("data", JObj [("id", JInt 7);
                                           ("label", JStr "seven")])]]);
               ("description",
                JArr [JObj [("name", JStr "id");
                            ("type", JStr "IntegerType")];
                      JObj [("name", JStr "label");
                            ("type", JStr "StringType")]])]).
Proof.
  rewrite rows_envelope_follows_description; [reflexivity|].
  cbn. repeat constructor; cbn; intuition discriminate.
Defined.

(** A cell that cannot be written in the first row, a missing column in
    the second: the loop over the rows runs, and fails, before anything
    is written. *)
Example rows_envelope_missing_column_first :
  rows_envelope
    {| schema := [ {| name := "id"; dataType := "DateType" |} ];
       count := inr 2%Z;
       collect := inr [[("id", Opaque)]; [("other", Plain (JInt 1))]] |}
  = inl ValueError.
Proof. reflexivity. Qed.

(** X10. A batch whose last piece is not empty and differs from every
    earlier piece prints exactly one envelope when no earlier piece
    fails and the last one yields columns and rows that can be written:
    the earlier statements run without output, and the rows envelope of
    the last statement is the only thing added to the output. *)
Theorem execute_batch_prints_last_envelope {S : Type}
        (spark_sql : S -> string -> S * (exn + DataFrame))
        (sql : string) (output : bool) (rt : Runtime S)
        (earlier : list string) (last_query : string)
        (s' : S) (df : DataFrame) (envelope : json)
        (Hbatch : contains ";" sql = true)
        (Hsplit : split ";" sql = earlier ++ [last_query])
        (Hlast : last_query <> EmptyString)
        (Hdiff : Forall (fun q => q <> last_query) earlier)
        (Hearlier :
           snd (spark_run spark_sql last_query (filter nonempty earlier)
                          (spark rt))
           = None)
        (Hrun :
           spark_sql
             (fst (spark_run spark_sql last_query (filter nonempty earlier)
                             (spark rt)))
             last_query = (s', inr df))
        (Hcolumns : schema df <> [])
        (Hrows : rows_envelope df = inr envelope) :
  execute spark_sql 2 sql output rt
  = (Ok None, mkRuntime s' (stdout rt ++ [envelope])).
Proof.
  destruct (SqlWrapper2Facts.execute_prints_last_only
              spark_sql sql output rt earlier last_query
              Hbatch Hsplit Hlast Hdiff) as [Hs ->].
  pose proof (execute_queries_spark spark_sql last_query earlier None rt)
    as [Hsp Hr].
  rewrite Hearlier in Hr.
  destruct (execute_queries (execute_one spark_sql) last_query earlier
                            None rt) as [b rt'].
  cbn [fst snd] in *. rewrite <- Hsp in Hrun.
  assert (b = Ok None) as -> by (destruct Hr; assumption).
  rewrite (SqlWrapper2Facts.execute_one_with_schema
             spark_sql last_query rt' s' df envelope Hrun Hcolumns Hrows).
  now rewrite Hs.
Qed.

Lemma execute_batch_prints_last_envelope_witness :
  execute Fake.spark 2 "create temp view v as select 1;select * from v"
          false Fake.rt0
  = (Ok None, mkRuntime 2 (stdout Fake.rt0 ++ [Fake.row_envelope 1])).
Proof.
  apply (execute_batch_prints_last_envelope
           Fake.spark "create temp view v as select 1;select * from v"
           false Fake.rt0 ["create temp view v as select 1"]
           "select * from v" 2
           {| schema := [ {| name := "n"; dataType := "IntegerType" |} ];
              count := inr 1%Z;
              collect := inr [[("n", Plain (JInt 1))]] |}).
  - reflexivity.
  - reflexivity.
  - discriminate.
  - repeat constructor. discriminate.
  - reflexivity.
  - reflexivity.
  - discriminate.
  - reflexivity.
Defined.
End SqlWrapper2More.

(** * Further properties of impl.py *)

Lemma append_columns_described (records : list (list string)) :
  forall columns,
    fst (GlueAdapter.append_columns records columns)
    = columns ++ map as_column (described records).
Proof.
  induction records as [|record rest IH]; intros columns; cbn.
  - now rewrite app_nil_r.
  - destruct record as [|c [|d record]]; cbn; try now rewrite app_nil_r.
    rewrite IH, <- app_assoc. reflexivity.
Qed.

Lemma described_all (records : list (list string)) :
  Forall (fun record => 2 <= length record) records ->
  described records = records.
Proof.
  induction 1 as [|record rest H _ IH]; [reflexivity|].
  cbn [described]. apply Nat.leb_le in H. now rewrite H, IH.
Qed.

(** X11. [get_columns_in_relation] loses nothing but Hudi metadata
    columns and what follows a malformed record: when the describe
    statement fails it returns the empty list; otherwise it returns, in
    the order of the describe result, a column for every record up to the
    first one with fewer than two fields, except the Hudi metadata
    columns -- so for a result without short records, every other column
    is returned. *)
Theorem get_columns_in_relation_keeps_the_rest
        (cursor : GlueAdapter.Cursor) (relation : GlueAdapter.Relation) :
  let code :=
    String.append "describe "
      (String.append (GlueAdapter.schema relation)
         (String.append "." (GlueAdapter.identifier relation))) in
  match cursor code with
  | inl _ => GlueAdapter.get_columns_in_relation cursor relation = []
  | inr (records, _) =>
      GlueAdapter.get_columns_in_relation cursor relation
      = filter (fun x => negb (is_hudi_metadata x))
               (map as_column (described records))
      /\ (Forall (fun record => 2 <= length record) records ->
          GlueAdapter.get_columns_in_relation cursor relation
          = filter (fun x => negb (is_hudi_metadata x))
                   (map as_column records))
  end.
Proof.
  intros code. subst code. unfold GlueAdapter.get_columns_in_relation.
  destruct (cursor _) as [e|[records err]]; [reflexivity|].
  rewrite append_columns_described. cbn [app].
  split; [reflexivity|]. intros H. now rewrite described_all.
Qed.

Module GlueRelationsFacts.
Import GlueRelations.



Section WithCatalog.
Variable get_table : string -> string -> exn + GetTableResponse.

(** X13. [get_relation] answers with one relation exactly when the lookup
    succeeds and the table's [TableType] is a key of
    [relation_type_map]; the relation then carries the mapped type.  In
    every other case it answers [None]: when the lookup raises, but also
    when the table exists and its type is unknown or missing -- the
    default ["Table"] is not a key, and the debug line that concatenates
    the mapped type raises inside the [try]. *)
Theorem get_relation_needs_known_type (database schema identifier : string) :
  match get_relation get_table database schema identifier with
  | Some relations =>
      exists response t,
        get_table schema identifier = inr response
        /\ dict_get relation_type_map (table_type response) = Some t
        /\ relations = [ {| GlueRelations.schema := schema;
                            GlueRelations.identifier := Some identifier;
                            type := Some t |} ]
  | None =>
      (exists e, get_table schema identifier = inl e)
      \/ exists response,
          get_table schema identifier = inr response
          /\ dict_get relation_type_map (table_type response) = None
  end
  /\ forall response,
      get_table schema identifier = inr response ->
      match Table response with
      | Some table => TableType table = None
      | None => True
      end ->
      get_relation get_table database schema identifier = None.
Proof.
  unfold get_relation. split.
  - destruct (get_table schema identifier) as [e|response]; [eauto|].
    destruct (dict_get relation_type_map (table_type response)) as [t|] eqn:E;
      cbn; eauto.
  - intros response -> H. unfold table_type.
    destruct (Table response) as [table|]; [rewrite H|]; reflexivity.
Qed.

(** X14. The three lookups of one table agree: [describe_table] returns
    what [get_relation] returns for the relation's schema and name, and
    [get_table_type] returns the type of that relation, or [None] when
    there is none. *)
Theorem table_lookups_agree (database : string)
        (relation : GlueAdapter.Relation) :
  describe_table get_table relation
  = get_relation get_table database (GlueAdapter.schema relation)
                 (GlueAdapter.identifier relation)
  /\ get_table_type get_table relation
     = match get_relation get_table database (GlueAdapter.schema relation)
                          (GlueAdapter.identifier relation) with
       | Some [found] => type found
       | _ => None
       end.
Proof.
  unfold describe_table, get_relation, get_table_type.
  destruct (get_table _ _) as [e|response]; [split; reflexivity|].
  destruct (dict_get relation_type_map (table_type response));
    split; reflexivity.
Qed.
End WithCatalog.
End GlueRelationsFacts.

Module GlueCatalogFacts.
Import GlueRelations.

Section WithCatalog.
Variable get_tables : string -> exn + GetTablesResponse.
Variable cursor : GlueAdapter.Cursor.

Lemma columns_loop (database : option string) (relation_row : SparkRelation)
      (table_info : list GlueAdapter.Column) :
  forall rows,
    match catalog_rows_of_columns database (schema relation_row)
                                  (name relation_row) (type relation_row)
                                  table_info rows with
    | inr rows' =>
        rows' = rows ++ map (catalog_row database relation_row) table_info
        /\ (table_info = []
            \/ (database <> None /\ printable relation_row = true))
    | inl e =>
        e = TypeError
        /\ table_info <> []
        /\ (database = None \/ printable relation_row = false)
    end.
Proof.
  induction table_info as [|table_row rest IH]; intros rows.
  - cbn. rewrite app_nil_r. auto.
  - cbn [catalog_rows_of_columns]. unfold printable.
    destruct database as [db|]; cbn [str_concat];
      [|repeat split; [discriminate | now left]].
    destruct (name relation_row) as [nm|] eqn:En; cbn [str_concat];
      [|repeat split; [discriminate | now right]].
    destruct (type relation_row) as [ty|] eqn:Et; cbn [str_concat];
      [|repeat split; [discriminate | now right]].
    specialize (IH (rows ++ [[Some db; Some (schema relation_row); Some nm;
                              Some ty; Some ""; Some "";
                              Some (GlueAdapter.column table_row); Some "0";
                              Some (GlueAdapter.dtype table_row); Some ""]])).
    unfold printable in IH. rewrite En, Et in IH.
    destruct (catalog_rows_of_columns _ _ _ _ rest _) as [e|rows'].
    + destruct IH as (-> & _ & [H|H]); discriminate.
    + destruct IH as [-> _]. split.
      * rewrite <- app_assoc. cbn [map app]. unfold catalog_row.
        now rewrite En, Et.
      * right. split; [discriminate | reflexivity].
Qed.

Lemma relations_loop (database : option string) (sch : string)
      (results : list SparkRelation) :
  Forall (fun relation_row => schema relation_row = sch) results ->
  forall rows,
    match catalog_rows_of_relations cursor database sch results rows with
    | inr rows' =>
        rows' = rows
                ++ flat_map (fun relation_row =>
                               map (catalog_row database relation_row)
                                   (columns_of cursor relation_row))
                            results
        /\ Forall (fun relation_row =>
                     columns_of cursor relation_row = []
                     \/ (database <> None /\ printable relation_row = true))
                  results
    | inl e =>
        e = TypeError
        /\ Exists (fun relation_row =>
                     columns_of cursor relation_row <> []
                     /\ (database = None \/ printable relation_row = false))
                  results
    end.
Proof.
  induction 1 as [|relation_row rest Hs _ IH]; intros rows.
  - cbn. rewrite app_nil_r. auto.
  - cbn [catalog_rows_of_relations flat_map]. fold (columns_of cursor relation_row).
    pose proof (columns_loop database relation_row (columns_of cursor relation_row)
                             rows) as C.
    rewrite Hs in C.
    destruct (catalog_rows_of_columns _ _ _ _ (columns_of cursor relation_row) _)
      as [e|rows1].
    + destruct C as (-> & Hne & Hbad). split; [reflexivity|].
      apply Exists_cons_hd. auto.
    + destruct C as [-> Hok]. specialize (IH (rows
         ++ map (catalog_row database relation_row)
                (columns_of cursor relation_row))).
      destruct (catalog_rows_of_relations _ _ _ rest _) as [e|rows'].
      * destruct IH as [-> IH]. split; [reflexivity|].
        now apply Exists_cons_tl.
      * destruct IH as [-> IH]. split.
        -- now rewrite <- app_assoc.
        -- constructor; assumption.
Qed.

Lemma listed_schema (sch : string) :
  Forall (fun relation_row => schema relation_row = sch)
         (list_relations_without_caching get_tables sch).
Proof.
  unfold list_relations_without_caching.
  destruct (get_tables sch) as [e|response]; [constructor|].
  apply Forall_forall. intros relation_row H. apply in_map_iff in H.
  destruct H as (table & <- & _). reflexivity.
Qed.

(** X15. Unless it is given exactly one schema, [_get_one_catalog] raises
    a compiler error before it calls anything.  Given one, the rows it
    builds are, relation by relation in the order of [get_tables], one row
    per column that [get_columns_in_relation] returns; every row has the
    ten cells of [column_names], none of them [None], its [column_index]
    is always ["0"], and its [column_name] is never a Hudi metadata
    column.  The only exception that can come out of building the rows
    is [TypeError]. *)
Theorem get_one_catalog_rows_spec (database : option string)
        (schemas : list string) :
  let results :=
    list_relations_without_caching get_tables (hd EmptyString schemas) in
  if (length schemas =? 1)%nat then
    match _get_one_catalog_rows get_tables cursor database schemas with
    | inr rows =>
        rows = flat_map (fun relation_row =>
                           map (catalog_row database relation_row)
                               (columns_of cursor relation_row))
                        results
        /\ Forall (fun row =>
                     length row = length column_names
                     /\ ~ In None row
                     /\ nth_error row 7 = Some (Some "0")
                     /\ exists column,
                         nth_error row 6 = Some (Some column)
                         /\ ~ In column GlueAdapter.HUDI_METADATA_COLUMNS)
                  rows
    | inl f => f = Exception TypeError
    end
  else
    _get_one_catalog_rows get_tables cursor database schemas
    = inl CompilationException.
Proof.
  intros results. subst results. unfold _get_one_catalog_rows.
  destruct (length schemas =? 1)%nat; [|reflexivity]. cbn [negb].
  pose proof (relations_loop database (hd EmptyString schemas) _
                             (listed_schema (hd EmptyString schemas)) [])
    as L.
  destruct (catalog_rows_of_relations _ _ _ _ _) as [e|rows].
  - destruct L as [-> _]. reflexivity.
  - destruct L as [-> L]. cbn [app]. split; [reflexivity|].
    apply Forall_forall. intros row Hrow. apply in_flat_map in Hrow.
    destruct Hrow as (relation_row & Hin & Hrow).
    apply in_map_iff in Hrow. destruct Hrow as (table_row & <- & Hcol).
    rewrite Forall_forall in L. destruct (L relation_row Hin) as [He|[Hd Hp]].
    { rewrite He in Hcol. destruct Hcol. }
    unfold printable in Hp. unfold catalog_row.
    destruct database as [db|]; [|contradiction].
    destruct (name relation_row) as [nm|]; [|discriminate].
    destruct (type relation_row) as [ty|]; [|discriminate].
    split; [reflexivity|]. split; [cbn; intuition discriminate|].
    split; [reflexivity|].
    exists (GlueAdapter.column table_row). split; [reflexivity|].
    unfold columns_of, GlueAdapter.get_columns_in_relation in Hcol.
    apply filter_In in Hcol. destruct Hcol as [_ Hcol].
    apply negb_true_iff in Hcol. intros Hin'. apply py_in_In in Hin'.
    unfold GlueAdapter.name in Hcol. congruence.
Qed.

(** X16. One relation without a name or without a known type is enough
    to lose the whole catalog of a schema: if such a relation is listed
    and has at least one column to report, [_get_one_catalog] raises
    [TypeError] -- from the debug lines that concatenate the name and the
    type -- instead of returning any row. *)
Theorem get_one_catalog_fails_on_unprintable (database : option string)
        (schema : string) (relation_row : SparkRelation)
        (Hlisted :
           In relation_row (list_relations_without_caching get_tables schema))
        (Hunprintable : printable relation_row = false)
        (Hcolumns : columns_of cursor relation_row <> []) :
  _get_one_catalog_rows get_tables cursor database [schema]
  = inl (Exception TypeError).
Proof.
  unfold _get_one_catalog_rows. cbn [length Nat.eqb negb hd].
  pose proof (relations_loop database schema _ (listed_schema schema) [])
    as L.
  destruct (catalog_rows_of_relations _ _ _ _ _) as [e|rows].
  - destruct L as [-> _]. reflexivity.
  - destruct L as [_ L]. rewrite Forall_forall in L.
    destruct (L relation_row Hlisted) as [He|[_ Hp]]; congruence.
Qed.
End WithCatalog.

Lemma get_one_catalog_fails_on_unprintable_witness :
  _get_one_catalog_rows FakeCatalog.unknown_tables FakeCatalog.one_column
                        (Some "awsdatacatalog") ["sales"]
  = inl (Exception TypeError).
Proof.
  apply (get_one_catalog_fails_on_unprintable
           FakeCatalog.unknown_tables FakeCatalog.one_column
           (Some "awsdatacatalog") "sales"
           {| schema := "sales"; identifier := Some "events";
              type := None |}).
  - left. reflexivity.
  - reflexivity.
  - discriminate.
Defined.
End GlueCatalogFacts.

Module GlueSchemasFacts.
Import GlueSchemas.

Ltac run_services :=
  unfold drop_schema, create_schema, check_schema_exists;
  cbv beta iota delta [abind atry acall aask aret].

Ltac last_call :=
  match goal with
  | |- exists pre reply, ?t = _ /\ _ =>
      exists (removelast t); eexists;
      split; [cbn; reflexivity | cbn; auto]
  end.

Section WithServices.
Context {R : Type}.
Variable services : Services R.

(** X17. [drop_schema] releases the connections on every path: the last
    call it makes is always [cleanup_all], and if it raises, it raises
    what that last [cleanup_all] raised.  It asks for the deletion, once,
    exactly when [get_database] succeeded, and it returns [True] only
    after a successful [delete_database] followed by a single successful
    [cleanup_all].  [cleanup_all] is called once or twice, twice only when
    its first call raised. *)
Theorem drop_schema_always_cleans_up (database schema : string) (r : R) :
  let '(result, _, t) := drop_schema services database schema r in
  (exists pre reply,
      t = pre ++ [CleanupAll reply]
      /\ match reply with
         | inl e => result = inl e
         | inr _ => result = inr None \/ result = inr (Some true)
         end)
  /\ match snd (get_database services r schema) with
     | inl _ => filter is_delete t = []
     | inr _ => exists reply, filter is_delete t = [DeleteDatabase schema reply]
     end
  /\ (result = inr (Some true) ->
      In (DeleteDatabase schema (inr tt)) t
      /\ filter is_cleanup t = [CleanupAll (inr tt)])
  /\ ((exists reply, filter is_cleanup t = [CleanupAll reply])
      \/ (exists e reply,
             filter is_cleanup t = [CleanupAll (inl e); CleanupAll reply])).
Proof.
  run_services.
  destruct (get_database services r schema) as [r1 [e0|[]]]; cbn [snd].
  - destruct (cleanup_all services r1) as [r2 [e|[]]]; cbn;
      (split; [last_call|]);
      (split; [reflexivity|]); (split; [discriminate|]); left; eauto.
  - destruct (delete_database services r1 schema) as [r2 [e1|[]]].
    + destruct (cleanup_all services r2) as [r3 [e|[]]]; cbn;
        (split; [last_call|]);
        (split; [eauto|]); (split; [discriminate|]); left; eauto.
    + destruct (cleanup_all services r2) as [r3 [e|[]]].
      * destruct (cleanup_all services r3) as [r4 [e'|[]]]; cbn;
          (split; [last_call|]);
          (split; [eauto|]); (split; [discriminate|]); right; eauto.
      * cbn. split; [last_call|].
        split; [eauto|]. split; [auto|]. left; eauto.
Qed.

(** X18. [create_schema] leaves an existing database alone: when
    [get_database] succeeds it does nothing more.  When it fails,
    [create_schema] asks once for the creation, with the configured
    location, and grants permissions only after that creation succeeded:
    one batch of two entries for the role of the credentials, the first on
    the database, the second on all its tables in the caller's account,
    with the permission names in upper case.  A failure of
    [get_caller_identity] or of [create_database] is raised as it is and
    nothing is granted. *)
Theorem create_schema_grants_after_creating
        (schema location role_arn : string) (r : R) :
  let '(result, _, t) := create_schema services schema location role_arn r in
  match get_caller_identity services r with
  | (_, inl e) => result = inl e /\ t = [GetCallerIdentity (inl e)]
  | (r1, inr account) =>
      match snd (get_database services r1 schema) with
      | inr _ =>
          result = inr tt
          /\ t = [GetCallerIdentity (inr account);
                  GetDatabase schema (inr tt)]
      | inl _ =>
          exists reply,
            filter is_create_database t
            = [CreateDatabase {| Name := schema;
                                 Description := "test dbt database";
                                 LocationUri := location |} reply]
            /\ match reply with
               | inl e => result = inl e /\ filter is_grant t = []
               | inr _ =>
                   exists id1 id2 granted,
                     result = granted
                     /\ filter is_grant t
                        = [BatchGrantPermissions
                             account
                             [ {| Id := id1;
                                  Principal := role_arn;
                                  Resource := DatabaseResource schema;
                                  Permissions :=
                                    ["ALTER"; "CREATE_TABLE"; "DROP";
                                     "DESCRIBE"];
                                  PermissionsWithGrantOption :=
                                    ["ALTER"; "CREATE_TABLE"; "DROP";
                                     "DESCRIBE"] |};
                               {| Id := id2;
                                  Principal := role_arn;
                                  Resource := TableWildcard schema account;
                                  Permissions :=
                                    ["SELECT"; "INSERT"; "DELETE";
                                     "DESCRIBE"; "ALTER"; "DROP"];
                                  PermissionsWithGrantOption :=
                                    ["SELECT"; "INSERT"; "DELETE";
                                     "DESCRIBE"; "ALTER"; "DROP"] |} ]
                             granted]
               end
      end
  end.
Proof.
  run_services.
  destruct (get_caller_identity services r) as [r1 [e|account]];
    [split; reflexivity|].
  destruct (get_database services r1 schema) as [r2 [e|[]]]; cbn [snd];
    [|split; reflexivity].
  destruct (create_database services r2 _) as [r3 [e'|[]]].
  - eexists. split; [reflexivity|]. split; reflexivity.
  - destruct (uuid4 services r3) as [r4 id1].
    destruct (uuid4 services r4) as [r5 id2].
    destruct (batch_grant_permissions services r5 account _)
      as [r6 granted].
    eexists. split; [reflexivity|]. exists id1, id2, granted.
    split; reflexivity.
Qed.
End WithServices.
End GlueSchemasFacts.
